(** * Punch-card data tool: normalisation, integration and night-meal rules

    A shallow embedding of the ETL script ([01 資料整理_0117.py]) and of the
    night-meal evaluators ([夜點html.py], [02 夜點清單deepseek .py],
    [02 夜點清算csv_0627.py]) together with the properties their description
    states about them; then of the evaluator with the account list
    ([02 新夜點清單htm_0120.py]), of the monthly summaries the evaluators
    write, and of the time formatting of the query scripts
    ([03 打卡紀錄查詢htm.py], [03 打卡記錄查詢csv.py],
    [09 打卡紀錄完整查詢.py]), with further properties of the code.

    Conventions.
    - A [string] of the model is a sequence of characters: for the texts the
      code measures or slices (dates and times), one [ascii] stands for one
      character of a Python [str] or of an SQLite TEXT value, so that
      [String.length] is Python's [len] and SQLite's [LENGTH].  Names and
      column labels are only compared.  The texts come from the cells of a
      workbook and hold no NUL character.
    - A nullable TEXT cell read back by pandas ([None]) is an [option string].
    - Python exceptions are values of [exn]; a computation that may raise
      returns a [result].
    - The database and the file system are explicit state ([Store.World]). *)

From Stdlib Require Import ZArith Ascii String List Lia Bool.
From stdpp Require Import base option list strings pretty gmap sets sorting.

Local Open Scope string_scope.
Local Open Scope list_scope.

(** ** Exceptions *)

Inductive exn : Type :=
  | ValueError
  | TypeError
  | KeyError
  | IndexError
  | FileNotFoundError
  | OperationalError
  | DatabaseError.

Inductive result (A : Type) : Type :=
  | Ok (a : A)
  | Raise (e : exn).
Arguments Ok {A} a.
Arguments Raise {A} e.

#[global] Instance result_ret : MRet result := λ A a, Ok a.
#[global] Instance result_bind : MBind result := λ A B k m,
  match m with
  | Ok a => k a
  | Raise e => Raise e
  end.

(** A nullable TEXT value. *)
Abbreviation cell := (option string).

(** ** The SQLite expression fragment used by the UPDATE statements *)

Module Sqlite.

Inductive value : Type :=
  | Null
  | Integer (z : Z)
  | Text (s : string).

Definition is_digit (c : ascii) : bool :=
  let n := nat_of_ascii c in (48 <=? n)%nat && (n <=? 57)%nat.

Definition digit_val (c : ascii) : Z := Z.of_nat (nat_of_ascii c - 48).

(** The characters [sqlite3Isspace] accepts. *)
Definition is_space (c : ascii) : bool :=
  let n := nat_of_ascii c in
  (n =? 32)%nat || ((9 <=? n)%nat && (n <=? 13)%nat).

Fixpoint skip_spaces (s : string) : string :=
  match s with
  | String c s' => if is_space c then skip_spaces s' else s
  | EmptyString => s
  end.

(** The value of the longest prefix of decimal digits. *)
Fixpoint digits_prefix (acc : Z) (s : string) : Z :=
  match s with
  | String c s' =>
      if is_digit c then digits_prefix (10 * acc + digit_val c) s' else acc
  | EmptyString => acc
  end.

(** [CAST(x AS INTEGER)] on TEXT: leading spaces are skipped, the longest
    prefix that reads as a signed decimal integer is taken, and the result
    is 0 when there is none.  (The 64-bit saturation of SQLite is out of
    reach of the three-character arguments the script passes.) *)
Definition text_to_integer (s : string) : Z :=
  match skip_spaces s with
  | String "-" s' => - digits_prefix 0 s'
  | String "+" s' => digits_prefix 0 s'
  | s' => digits_prefix 0 s'
  end%Z.

(** The TEXT rendering of a value, as the string functions see it. *)
Definition to_text (v : value) : option string :=
  match v with
  | Null => None
  | Integer z => Some (pretty z)
  | Text s => Some s
  end.

Definition CAST_INTEGER (v : value) : value :=
  match v with
  | Null => Null
  | Integer z => Integer z
  | Text s => Integer (text_to_integer s)
  end.

Definition LENGTH (v : value) : value :=
  match to_text v with
  | None => Null
  | Some s => Integer (Z.of_nat (String.length s))
  end.

(** [SUBSTR(x, y, z)] for the positive [y] and non-negative [z] the script
    uses: [z] characters from the [y]-th one (counted from 1), fewer when the
    value is shorter. *)
Definition SUBSTR (v : value) (y z : nat) : value :=
  match to_text v with
  | None => Null
  | Some s => Text (substring (y - 1) z s)
  end.

(** [x || y] *)
Definition concat (a b : value) : value :=
  match to_text a, to_text b with
  | Some x, Some y => Text (x +:+ y)
  | _, _ => Null
  end.

(** [x + y] on integers (NULL is absorbing). *)
Definition add (a b : value) : value :=
  match a, b with
  | Integer x, Integer y => Integer (x + y)
  | _, _ => Null
  end.

(** [x = y] between a value and an integer literal, as the condition of a
    [CASE WHEN]: NULL (unknown) counts as not satisfied. *)
Definition eq_int (a : value) (n : Z) : bool :=
  match a with
  | Integer x => (x =? n)%Z
  | _ => false
  end.

Infix "||'" := concat (at level 60, right associativity).

End Sqlite.

(** ** [convert_date_time_format] *)

Module Normalize.
Import Sqlite.

(** [CASE WHEN LENGTH(刷卡日期) = 7 THEN
      (CAST(SUBSTR(刷卡日期, 1, 3) AS INTEGER) + 1911) || '-' ||
      SUBSTR(刷卡日期, 4, 2) || '-' || SUBSTR(刷卡日期, 6, 2)
    ELSE 刷卡日期 END] *)
Definition date_case (d : value) : value :=
  if eq_int (LENGTH d) 7 then
    add (CAST_INTEGER (SUBSTR d 1 3)) (Integer 1911) ||' Text "-" ||'
    SUBSTR d 4 2 ||' Text "-" ||' SUBSTR d 6 2
  else d.

(** [CASE WHEN LENGTH(刷卡時間) = 4 THEN
      SUBSTR(刷卡時間, 1, 2) || ':' || SUBSTR(刷卡時間, 3, 2) || ':00'
    ELSE 刷卡時間 END] *)
Definition time_case (t : value) : value :=
  if eq_int (LENGTH t) 4 then
    SUBSTR t 1 2 ||' Text ":" ||' SUBSTR t 3 2 ||' Text ":00"
  else t.

(** The columns 刷卡日期 and 刷卡時間 of [punch] hold TEXT or NULL
    ([clean_and_store_excel] stores them with [astype(str)]). *)
Definition of_cell (c : cell) : value :=
  match c with
  | None => Null
  | Some s => Text s
  end.

(** What a TEXT column keeps of the value an UPDATE assigns to it. *)
Definition store (v : value) : cell := to_text v.

Definition normalize_date (c : cell) : cell := store (date_case (of_cell c)).
Definition normalize_time (c : cell) : cell := store (time_case (of_cell c)).

End Normalize.

(** ** [datetime.strptime] for the two formats the scripts use *)

Module Strptime.

(** A field of the format is a regular expression with alternatives; a
    parser lists, in the order the backtracking matcher of [re] tries them,
    the ways a field can match at the head of the input, each with the
    value read and the input left. *)
Definition parser (A : Type) : Type := string → list (A * string).

Definition dv (c : ascii) : nat := nat_of_ascii c - 48.

Definition in_range (lo hi : nat) (c : ascii) : bool :=
  Sqlite.is_digit c && (lo <=? dv c)%nat && (dv c <=? hi)%nat.

(** [[lo-hi]] *)
Definition one (lo hi : nat) : parser nat := λ s,
  match s with
  | String c r => if in_range lo hi c then [(dv c, r)] else []
  | EmptyString => []
  end.

(** [[lo1-hi1][lo2-hi2]] *)
Definition two (lo1 hi1 lo2 hi2 : nat) : parser nat := λ s,
  match s with
  | String c1 (String c2 r) =>
      if in_range lo1 hi1 c1 && in_range lo2 hi2 c2
      then [(10 * dv c1 + dv c2, r)] else []
  | _ => []
  end.

(** a literal character *)
Definition lit (c : ascii) : parser unit := λ s,
  match s with
  | String c' r => if Ascii.eqb c c' then [(tt, r)] else []
  | EmptyString => []
  end.

Definition alt {A} (p q : parser A) : parser A := λ s, (p s ++ q s)%list.
Definition and_then {A B} (p : parser A) (k : A → parser B) : parser B := λ s,
  '(a, r) ← p s; k a r.
Definition pure {A} (a : A) : parser A := λ s, [(a, s)].

#[local] Infix "<|>" := alt (at level 50, left associativity).
#[local] Notation "x <- p ;; k" := (and_then p (λ x, k))
  (at level 100, p at next level, right associativity, only parsing).

(** The directives of [_strptime.TimeRE]. *)
(** [%H]: [2[0-3]|[0-1]\d|\d] *)
Definition re_H : parser nat := two 2 2 0 3 <|> two 0 1 0 9 <|> one 0 9.
(** [%M]: [[0-5]\d|\d] *)
Definition re_M : parser nat := two 0 5 0 9 <|> one 0 9.
(** [%S]: [6[0-1]|[0-5]\d|\d] *)
Definition re_S : parser nat := two 6 6 0 1 <|> two 0 5 0 9 <|> one 0 9.
(** [%Y]: [\d\d\d\d] *)
Definition re_Y : parser nat :=
  a <- two 0 9 0 9 ;; b <- two 0 9 0 9 ;; pure (100 * a + b).
(** [%m]: [1[0-2]|0[1-9]|[1-9]] *)
Definition re_m : parser nat := two 1 1 0 2 <|> two 0 0 1 9 <|> one 1 9.
(** [%d]: [3[0-1]|[1-2]\d|0[1-9]|[1-9]| [1-9]] *)
Definition re_d : parser nat :=
  two 3 3 0 1 <|> two 1 2 0 9 <|> two 0 0 1 9 <|> one 1 9 <|>
  (_ <- lit " " ;; one 1 9).

(** [found = format_regex.match(data_string)]: the first match in
    backtracking order; no match, or a match that stops before the end of
    the string ("unconverted data remains"), is a [ValueError]. *)
Definition found {A} (p : parser A) (s : string) : result A :=
  match p s with
  | (a, EmptyString) :: _ => Ok a
  | _ => Raise ValueError
  end.

(** [datetime.time], with the fields this format can set. *)
Record time : Type := mk_time { hour : nat; minute : nat; second : nat }.

(** The range check of the [datetime] constructor on the time fields. *)
Definition check_time_fields (h m s : nat) : result time :=
  if (h <=? 23)%nat && (m <=? 59)%nat && (s <=? 59)%nat
  then Ok (mk_time h m s) else Raise ValueError.

(** [datetime.strptime(s, '%H:%M:%S').time()] *)
Definition strptime_HMS (s : string) : result time :=
  '(h, m, sec) ← found (h <- re_H ;; _ <- lit ":" ;; m <- re_M ;;
                        _ <- lit ":" ;; sec <- re_S ;; pure (h, m, sec)) s;
  check_time_fields h m sec.

(** [time.__gt__]: the tuples (hour, minute, second) compared in
    lexicographic order. *)
Definition time_gt (a b : time) : bool :=
  (hour b <? hour a)%nat ||
  ((hour a =? hour b)%nat &&
   ((minute b <? minute a)%nat ||
    ((minute a =? minute b)%nat && (second b <? second a)%nat))).

(** The calendar of [datetime.date]. *)
Definition is_leap (y : nat) : bool :=
  (y mod 4 =? 0)%nat && (negb (y mod 100 =? 0)%nat || (y mod 400 =? 0)%nat).

Definition days_in_month (y m : nat) : nat :=
  match m with
  | 2 => if is_leap y then 29 else 28
  | 4 | 6 | 9 | 11 => 30
  | _ => 31
  end.

Record date : Type := mk_date { year : nat; month : nat; day : nat }.

(** The range check of the [datetime] constructor on the date fields. *)
Definition check_date_fields (y m d : nat) : result date :=
  if (1 <=? y)%nat && (Z.of_nat y <=? 9999)%Z &&
     (1 <=? m)%nat && (m <=? 12)%nat &&
     (1 <=? d)%nat && (d <=? days_in_month y m)%nat
  then Ok (mk_date y m d) else Raise ValueError.

(** [datetime.strptime(s, '%Y-%m-%d')] *)
Definition strptime_Ymd (s : string) : result date :=
  '(y, m, d) ← found (y <- re_Y ;; _ <- lit "-" ;; m <- re_m ;;
                      _ <- lit "-" ;; d <- re_d ;; pure (y, m, d)) s;
  check_date_fields y m d.

(** [f"{n:02}"] *)
Definition fmt02 (n : nat) : string :=
  if (n <? 10)%nat then "0" +:+ pretty n else pretty n.

End Strptime.

(** ** The night-meal evaluators *)

Module NightMeal.
Import Strptime.

(** One row of the SELECT on [integrated_punch], as the [pd.Series] that
    [iterrows] yields: the five named columns, and the 刷卡時間N columns
    by label. *)
Record Row : Type := mk_row {
  r_account : cell;            (* 公務帳號 *)
  r_name : cell;               (* 姓名 *)
  r_card : cell;               (* 卡號 *)
  r_class : cell;              (* 班別 *)
  r_date : cell;               (* 刷卡日期 *)
  r_times : gmap string cell   (* 刷卡時間1, 刷卡時間2, ... *)
}.

(** [parse_time] *)
Definition parse_time (time_str : cell) : result (option time) :=
  match time_str with
  | None => Ok None
  | Some s => t ← strptime_HMS s; Ok (Some t)
  end.

(** The value [create_rules_dict] gives every class:
    [parse_time('22:00:00')]. *)
Definition default_threshold : time := mk_time 22 0 0.

Record Rules : Type := mk_rules {
  class_name : cell;
  night_meal_threshold : time
}.

(** [create_rules_dict], from the distinct 班別 values of the table. *)
Definition create_rules_dict (classes : list cell) : list (cell * Rules) :=
  (λ c, (c, mk_rules c default_threshold)) <$> classes.

(** [f"{s[:2]}:{s[2:4]}:{s[4:6]}"] *)
Definition insert_colons (s : string) : string :=
  substring 0 2 s +:+ ":" +:+ substring 2 2 s +:+ ":" +:+ substring 4 2 s.

(** The body of [check_night_meal] over the columns still to visit. *)
Fixpoint scan (row : Row) (cols : list string) (night_meal_threshold : time)
  : result bool :=
  match cols with
  | [] => Ok false
  | col :: rest =>
      match r_times row !! col with
      | None => Raise KeyError
      | Some None => scan row rest night_meal_threshold
      | Some (Some last_time_str) =>
          let last_time_str :=
            if (String.length last_time_str =? 6)%nat
            then insert_colons last_time_str else last_time_str in
          last_time ← strptime_HMS last_time_str;
          Ok (time_gt last_time night_meal_threshold)
      end
  end.

(** [check_night_meal] (the same text in every evaluator script):
    [for col in time_columns[::-1]: ...] *)
Definition check_night_meal (row : Row) (time_columns : list string)
    (night_meal_threshold : time) : result bool :=
  scan row (reverse time_columns) night_meal_threshold.

(** *** The SELECT of [process_night_meal_data] *)

(** NULL sorts before every TEXT value; TEXT values compare character by
    character (BINARY collation). *)
Definition cell_compare (a b : cell) : comparison :=
  match a, b with
  | None, None => Eq
  | None, Some _ => Lt
  | Some _, None => Gt
  | Some x, Some y => String.compare x y
  end.

Definition then_by (c : comparison) (d : comparison) : comparison :=
  match c with Eq => d | _ => c end.

(** [ORDER BY 卡號, 班別, 公務帳號, 姓名, 刷卡日期] (all ascending) *)
Definition order_by (a b : Row) : comparison :=
  then_by (cell_compare (r_card a) (r_card b))
 (then_by (cell_compare (r_class a) (r_class b))
 (then_by (cell_compare (r_account a) (r_account b))
 (then_by (cell_compare (r_name a) (r_name b))
          (cell_compare (r_date a) (r_date b))))).

Definition order_le (a b : Row) : Prop := order_by a b ≠ Gt.

#[global] Instance order_le_dec : RelDecision order_le.
Proof.
  intros a b. unfold order_le.
  destruct (order_by a b); [left|left|right]; congruence.
Defined.

(** [SELECT ... FROM integrated_punch ip WHERE ip.班別 = '{class_name}'
    ORDER BY ...].  The rows of the class (a NULL 班別 satisfies no
    equality), sorted; SQLite leaves the order of rows with equal keys
    open; the sort of the model fixes one. *)
Definition select_class (integrated_punch : list Row) (class_name : string)
  : list Row :=
  merge_sort order_le
    (filter (λ r, r_class r = Some class_name) integrated_punch).

(** One entry of [night_meal_data]: [[card_no, account, name, month, day]]. *)
Record Entry : Type := mk_entry {
  e_card : cell;
  e_account : cell;
  e_name : cell;
  e_month : string;
  e_day : string
}.

(** The state the loop threads: [night_meal_data] and [processed_dates]. *)
Record State : Type := mk_state {
  night_meal_data : list Entry;
  processed_dates : gmap cell (gset string)
}.

Definition initial : State := mk_state [] ∅.

(** [for _, row in data.iterrows(): body] *)
Fixpoint for_each (body : Row → State → result State)
    (data : list Row) (st : State) : result State :=
  match data with
  | [] => Ok st
  | row :: rest => st' ← body row st; for_each body rest st'
  end.

(** [if account not in processed_dates: processed_dates[account] = set()] *)
Definition touch (account : cell) (pd : gmap cell (gset string))
  : gmap cell (gset string) :=
  match pd !! account with
  | None => <[account := ∅]> pd
  | Some _ => pd
  end.

(** The part of the loop body both variants share, from
    [if account not in processed_dates] on. *)
Definition record_row (row : Row) (date month day : string)
    (time_columns : list string) (rules : Rules) (st : State)
  : result State :=
  let account := r_account row in
  let card_no := r_card row in
  let pd := touch account (processed_dates st) in
  night_meal_recorded ←
    check_night_meal row time_columns (night_meal_threshold rules);
  if night_meal_recorded && bool_decide (date ∉ pd !!! account) then
    Ok (mk_state
          (night_meal_data st ++
             [mk_entry card_no account (r_name row) month day])
          (<[account := {[date]} ∪ pd !!! account]> pd))
  else Ok (mk_state (night_meal_data st) pd).

(** [02 夜點清單deepseek .py] and [02 夜點清算csv_0627.py]: month and day
    are slices of the date string. *)
Module Csv.

Definition body (time_columns : list string) (rules : Rules)
    (row : Row) (st : State) : result State :=
  match r_date row with
  | None => Raise TypeError          (* None[8:10] *)
  | Some date =>
      let day := substring 8 2 date in      (* date[8:10] *)
      let month := substring 5 2 date in    (* date[5:7] *)
      record_row row date month day time_columns rules st
  end.

Definition process_night_meal_data (conn : list Row) (class_name : string)
    (rules : Rules) (time_columns : list string) : result (list Entry) :=
  let data := select_class conn class_name in
  st ← for_each (body time_columns rules) data initial;
  Ok (night_meal_data st).

End Csv.

(** [夜點html.py] (and [02 新夜點清單htm_0120.py]): month and day come from
    parsing the date; a row whose date does not parse is logged and
    skipped. *)
Module Html.

Definition body (time_columns : list string) (rules : Rules)
    (row : Row) (st : State) : result State :=
  match r_date row with
  | None => Raise TypeError          (* strptime(None, ...) *)
  | Some date_str =>
      match strptime_Ymd date_str with
      | Raise ValueError => Ok st    (* except ValueError: continue *)
      | Raise e => Raise e
      | Ok date_obj =>
          let month := fmt02 (month date_obj) in
          let day := fmt02 (day date_obj) in
          record_row row date_str month day time_columns rules st
      end
  end.

Definition process_night_meal_data (conn : list Row) (class_name : string)
    (rules : Rules) (time_columns : list string) : result (list Entry) :=
  let data := select_class conn class_name in
  st ← for_each (body time_columns rules) data initial;
  Ok (night_meal_data st).

End Html.

End NightMeal.

(** ** [integrate_data] *)

Module Integrate.

(** The columns of [punch] and of [shift_class] the query reads. *)
Record Punch : Type := mk_punch {
  p_account : cell;   (* 公務帳號 *)
  p_date : cell;      (* 刷卡日期 *)
  p_time : cell       (* 刷卡時間 *)
}.

Record Shift : Type := mk_shift {
  s_account : cell;   (* 公務帳號 *)
  s_card : cell;      (* 卡號 *)
  s_name : cell;      (* 姓名 *)
  s_class : cell      (* 班別 *)
}.

(** [a = b] in an ON clause, on TEXT: NULL equals nothing. *)
Definition sql_eq (a b : cell) : bool :=
  match a, b with
  | Some x, Some y => bool_decide (x = y)
  | _, _ => false
  end.

(** [punch LEFT JOIN shift_class ON punch.公務帳號 = shift_class.公務帳號] *)
Definition left_join (punch : list Punch) (shift_class : list Shift)
  : list (Punch * option Shift) :=
  p ← punch;
  match filter (λ s, sql_eq (p_account p) (s_account s) = true) shift_class with
  | [] => [(p, None)]
  | matches => (λ s, (p, Some s)) <$> matches
  end.

Definition j_class (j : Punch * option Shift) : cell := j.2 ≫= s_class.
Definition j_card (j : Punch * option Shift) : cell := j.2 ≫= s_card.
Definition j_name (j : Punch * option Shift) : cell := j.2 ≫= s_name.

(** [GROUP BY punch.公務帳號, punch.刷卡日期, shift_class.班別]
    (NULLs form one group). *)
Definition group_key (j : Punch * option Shift) : cell * cell * cell :=
  (p_account j.1, p_date j.1, j_class j).

(** The groups, each with its rows in join order.  SQLite leaves the order
    of the groups open. *)
Definition group_by (joined : list (Punch * option Shift))
  : list (list (Punch * option Shift)) :=
  (λ k, filter (λ j, group_key j = k) joined) <$>
    remove_dups (group_key <$> joined).

Fixpoint join (sep : string) (l : list string) : string :=
  match l with
  | [] => ""
  | [x] => x
  | x :: l' => x +:+ sep +:+ join sep l'
  end.

(** [GROUP_CONCAT(x)]: the non-NULL values joined with a comma, NULL when
    there is none. *)
Definition GROUP_CONCAT (xs : list cell) : cell :=
  match omap id xs with
  | [] => None
  | vs => Some (join "," vs)
  end.

(** A row of the result of [query_integrate]. *)
Record Grouped : Type := mk_grouped {
  g_account : cell;
  g_card : cell;
  g_name : cell;
  g_class : cell;
  g_date : cell;
  g_times : cell      (* GROUP_CONCAT(punch.刷卡時間) AS 刷卡時間 *)
}.

(** The bare columns 卡號 and 姓名 come from one row of the group (SQLite
    does not say which; the model takes the first). *)
Definition aggregate (g : list (Punch * option Shift)) : option Grouped :=
  j ← head g;
  Some (mk_grouped (p_account j.1) (j_card j) (j_name j) (j_class j)
          (p_date j.1) (GROUP_CONCAT ((λ j, p_time j.1) <$> g))).

Definition query_integrate (punch : list Punch) (shift_class : list Shift)
  : list Grouped :=
  omap aggregate (group_by (left_join punch shift_class)).

(** [str.split(sep)] for a one-character separator. *)
Fixpoint py_split (sep : ascii) (s : string) : list string :=
  match s with
  | EmptyString => [""]
  | String c s' =>
      if Ascii.eqb c sep then "" :: py_split sep s'
      else match py_split sep s' with
           | h :: t => String c h :: t
           | [] => [String c ""]
           end
  end.

Definition pad (n : nat) (l : list cell) : list cell :=
  l ++ replicate (n - length l) None.

(** The list a cell of the series gives, before the rows are brought to
    one length: a missing value counts as one missing entry. *)
Definition cons_row (x : cell) : list cell :=
  match x with
  | None => [None]
  | Some s => Some <$> py_split "," s
  end.

(** [series.str.split(',', expand=True)]: a missing value gives a row of
    missing values, the shorter lists are filled up with [None]; the
    result has as many columns as the longest row, and none for an empty
    series. *)
Definition split_expand (series : list cell) : nat * list (list cell) :=
  let rows := cons_row <$> series in
  let max_len := max_list (length <$> rows) in
  (max_len, pad max_len <$> rows).

(** [dropna(axis=1, how='all')] on the values of a frame with [width]
    columns: the positions of the columns that keep at least one value. *)
Definition kept_columns (width : nat) (rows : list (list cell)) : list nat :=
  filter (λ i, Exists (λ r, is_Some (mjoin (r !! i))) rows) (seq 0 width).

Definition take_columns (cols : list nat) (r : list cell) : list cell :=
  (λ i, mjoin (r !! i)) <$> cols.

(** A row of [integrated_punch]; [i_times] follows the time columns. *)
Record Integrated : Type := mk_integrated {
  i_account : cell;
  i_card : cell;
  i_name : cell;
  i_date : cell;
  i_class : cell;
  i_times : list cell
}.

(** The frame written to [integrated_punch]: the labels of the time
    columns and the rows. *)
Record Frame : Type := mk_frame {
  time_labels : list string;
  rows : list Integrated
}.

(** [f'刷卡時間{i+1}'] *)
Definition time_label (i : nat) : string := "刷卡時間" +:+ pretty (i + 1)%nat.

(** The frame [integrate_data] builds, stores and returns: the query, the
    split of 刷卡時間 into columns, the removal of the columns without a
    value, and the concatenation with the other columns. *)
Definition integrate_data (punch : list Punch) (shift_class : list Shift)
  : Frame :=
  let integrated_data := query_integrate punch shift_class in
  let '(max_splits, split_times) := split_expand (g_times <$> integrated_data) in
  let kept := kept_columns max_splits split_times in
  let new_columns := take_columns kept <$> split_times in
  mk_frame
    (time_label <$> kept)
    (zip_with (λ g ts, mk_integrated (g_account g) (g_card g) (g_name g)
                         (g_date g) (g_class g) ts)
       integrated_data new_columns).

(** The row as the evaluators read it back. *)
Definition to_row (labels : list string) (r : Integrated) : NightMeal.Row :=
  NightMeal.mk_row (i_account r) (i_name r) (i_card r) (i_class r) (i_date r)
    (list_to_map (zip labels (i_times r))).

Definition stored_rows (f : Frame) : list NightMeal.Row :=
  to_row (time_labels f) <$> rows f.

(** The columns of the stored table, in order. *)
Definition table_columns (f : Frame) : list string :=
  ["公務帳號"; "卡號"; "姓名"; "班別"; "刷卡日期"] ++ time_labels f.

(** [get_time_columns]: the columns whose name starts with 刷卡時間. *)
Definition get_time_columns (f : Frame) : list string :=
  filter (λ c, String.prefix "刷卡時間" c = true) (table_columns f).

End Integrate.

(** ** The ETL script: [clean_and_store_excel], [convert_date_time_format],
       [main] *)

Module Store.
Import Sqlite.

#[global] Instance value_eq_dec : EqDecision value.
Proof. solve_decision. Defined.

(** A pandas frame, and a table of the database: the column labels and
    the rows.  A cell is a [value]: missing ([Null]), a number, or text. *)
Record DataFrame : Type := mk_df {
  columns : list value;
  data : list (list value)
}.

Definition len (df : DataFrame) : nat := length (data df).

(** A sheet is a grid of cells; a workbook lists its sheets by name. *)
Abbreviation Sheet := (list (list value)).
Abbreviation Workbook := (list (string * Sheet)).

Definition sheet_names (wb : Workbook) : list string := wb.*1.

Record Db : Type := mk_db {
  punch : option DataFrame;
  shift_class : option DataFrame;
  integrated_punch : option Integrate.Frame
}.

Definition empty_db : Db := mk_db None None None.

(** What the script writes to the log, as far as control flow shows. *)
Inductive event : Type :=
  | WarnSheetSkipped (file_path : string)      (* 文件不存在，跳過處理 *)
  | InfoSheet (sheet_name : string) (rows total : nat)
  | ErrorFileMissing (file_path : string)      (* 檔案不存在 *)
  | WarnRosterSkipped (file_path : string)     (* 班別資料文件不存在，跳過處理 *)
  | InfoRosterSheet (sheet_name : string) (rows total : nat)
  | InfoConverted                              (* 日期和時間格式修正已完成 *)
  | WarnNoPunchTable                           (* 表 'punch' 不存在 *)
  | InfoIntegrated (rows : nat)
  | InfoSaved.

(** The files on disk (by path), the database, and the log. *)
Record World : Type := mk_world {
  files : gmap string Workbook;
  db : Db;
  log : list event
}.

(** Computations that read and change the world and may raise. *)
Definition M (A : Type) : Type := World → result A * World.

Definition ret {A} (a : A) : M A := λ w, (Ok a, w).
Definition bind {A B} (m : M A) (k : A → M B) : M B := λ w,
  match m w with
  | (Ok a, w') => k a w'
  | (Raise e, w') => (Raise e, w')
  end.
Definition raise {A} (e : exn) : M A := λ w, (Raise e, w).
Definition lift {A} (r : result A) : M A := λ w, (r, w).

#[local] Notation "x <- m ;; k" := (bind m (λ x, k))
  (at level 100, m at next level, right associativity, only parsing).
#[local] Notation "m ;;; k" := (bind m (λ _, k))
  (at level 100, right associativity, only parsing).

(** [Path(p).exists()] *)
Definition path_exists (p : string) : M bool := λ w,
  (Ok (bool_decide (is_Some (files w !! p))), w).

(** [pd.ExcelFile(p)] *)
Definition ExcelFile (p : string) : M Workbook := λ w,
  match files w !! p with
  | Some wb => (Ok wb, w)
  | None => (Raise FileNotFoundError, w)
  end.

Definition logging (e : event) : M unit := λ w,
  (Ok tt, mk_world (files w) (db w) (log w ++ [e])).

Definition get_db : M Db := λ w, (Ok (db w), w).
Definition put_db (d : Db) : M unit := λ w,
  (Ok tt, mk_world (files w) d (log w)).

(** [for x in xs: body], threading a local variable. *)
Fixpoint for_in {X S} (xs : list X) (body : X → S → M S) (s : S) : M S :=
  match xs with
  | [] => ret s
  | x :: xs' => s' <- body x s ;; for_in xs' body s'
  end.

(** *** Frame operations *)

Definition col_index (name : string) (df : DataFrame) : option nat :=
  fst <$> list_find (λ c, c = Text name) (columns df).

Definition cell_at (i : nat) (row : list value) : value :=
  default Null (row !! i).

(** Keep the positions a boolean mask selects. *)
Definition select {A} (mask : list bool) (l : list A) : list A :=
  snd <$> filter (λ p, p.1 = true) (zip mask l).

Definition select_columns (mask : list bool) (df : DataFrame) : DataFrame :=
  mk_df (select mask (columns df)) (select mask <$> data df).

Definition notna (v : value) : bool :=
  match v with Null => false | _ => true end.

(** [df.dropna(axis=1, how='all')] *)
Definition dropna_columns (df : DataFrame) : DataFrame :=
  select_columns
    ((λ i, bool_decide (Exists (λ row, notna (cell_at i row) = true) (data df)))
       <$> seq 0 (length (columns df)))
    df.

(** [astype(str)] on a cell *)
Definition astype_str (v : value) : value :=
  match v with
  | Null => Text "nan"
  | Integer z => Text (pretty z)
  | Text s => Text s
  end.

Definition map_column (i : nat) (f : value → value) (df : DataFrame)
  : DataFrame :=
  mk_df (columns df) (alter f i <$> data df).

(** [pd.read_excel(file_path, sheet_name=..., skiprows=n)]: the first row
    left after the skipped ones gives the labels. *)
Definition read_sheet (wb : Workbook) (sheet_name : string) : result Sheet :=
  match list_find (λ p, p.1 = sheet_name) wb with
  | Some (_, (_, sh)) => Ok sh
  | None => Raise ValueError
  end.

Definition frame_of (skiprows : nat) (sh : Sheet) : DataFrame :=
  match drop skiprows sh with
  | [] => mk_df [] []
  | header :: body => mk_df header body
  end.

Definition read_excel (file_path sheet_name : string) (skiprows : nat)
  : M DataFrame :=
  wb <- ExcelFile file_path ;;
  sh <- lift (read_sheet wb sheet_name) ;;
  ret (frame_of skiprows sh).

(** What is left to pandas and SQLite: which texts
    [pd.to_numeric(..., errors='coerce')] reads as numbers, and which frames
    [to_sql] can create a table for (it fails on a frame without columns or
    with two columns of one name). *)
Record Library : Type := mk_library {
  numeric_text : string → bool;
  storable : DataFrame → bool
}.

Section Cleaning.

Variable lib : Library.

Definition to_numeric_notnull (v : value) : bool :=
  match v with
  | Null => false
  | Integer _ => true
  | Text s => numeric_text lib s
  end.

(** The cleaning of one sheet, between [read_excel] and [to_sql]. *)
Definition clean (df : DataFrame) : result DataFrame :=
  (* df.columns = df.iloc[0] *)
  first_row ← match data df with
              | [] => Raise IndexError
              | r :: _ => Ok r
              end;
  let df := mk_df first_row (data df) in
  (* df.drop(0).loc[:, df.columns.notna()].reset_index(drop=True) *)
  let df := select_columns (notna <$> columns df)
              (mk_df (columns df) (drop 1 (data df))) in
  (* if '序號' in df.columns: keep the rows whose 序號 is numeric *)
  let df := match col_index "序號" df with
            | Some i =>
                mk_df (columns df)
                  (filter (λ row, to_numeric_notnull (cell_at i row) = true)
                     (data df))
            | None => df
            end in
  (* df.dropna(axis=1, how='all') *)
  let df := dropna_columns df in
  (* for col in ['刷卡日期', '刷卡時間']: df[col] = df[col].astype(str) *)
  let stringify (col : string) (df : DataFrame) : DataFrame :=
    match col_index col df with
    | Some i => map_column i astype_str df
    | None => df
    end in
  Ok (stringify "刷卡時間" (stringify "刷卡日期" df)).

(** [df.to_sql('punch', conn, if_exists='replace', index=False)] *)
Definition to_sql_punch_replace (df : DataFrame) : M unit :=
  if storable lib df then
    d <- get_db ;;
    put_db (mk_db (Some df) (shift_class d) (integrated_punch d))
  else raise OperationalError.

(** The body of the loop of [clean_and_store_excel], for one sheet. *)
Definition store_sheet (file_path sheet_name : string)
    (total_processed_rows : nat) : M nat :=
  present <- path_exists file_path ;;
  if negb present then
    logging (WarnSheetSkipped file_path) ;;;
    ret total_processed_rows                           (* continue *)
  else
    df <- read_excel file_path sheet_name 4 ;;
    df <- lift (clean df) ;;
    to_sql_punch_replace df ;;;
    let total_processed_rows := (total_processed_rows + len df)%nat in
    logging (InfoSheet sheet_name (len df) total_processed_rows) ;;;
    ret total_processed_rows.

Definition clean_and_store_excel (excel_data : Workbook)
    (file_path : string) : M nat :=
  for_in (sheet_names excel_data) (store_sheet file_path) 0%nat.

(** [df.to_sql('shift_class', conn, if_exists='append', index=False)]:
    the first frame creates the table; a later one is inserted by column
    name, which fails on a column the table lacks. *)
Definition to_sql_shift_append (df : DataFrame) : M unit :=
  d <- get_db ;;
  match shift_class d with
  | None =>
      if storable lib df
      then put_db (mk_db (punch d) (Some df) (integrated_punch d))
      else raise OperationalError
  | Some t =>
      if bool_decide (columns df ⊆ columns t) then
        let realign (row : list value) : list value :=
          (λ c, match list_find (λ c', c' = c) (columns df) with
                | Some (i, _) => cell_at i row
                | None => Null
                end) <$> columns t in
        put_db (mk_db (punch d)
                  (Some (mk_df (columns t) (data t ++ (realign <$> data df))))
                  (integrated_punch d))
      else raise OperationalError
  end.

(** [UPDATE t SET col = f(col)] *)
Definition update_column (col : string) (f : value → value)
    (t : DataFrame) : result DataFrame :=
  match col_index col t with
  | Some i => Ok (map_column i f t)
  | None => Raise OperationalError
  end.

(** [convert_date_time_format]: both UPDATEs, then the commit. *)
Definition convert_date_time_format : M unit :=
  d <- get_db ;;
  match punch d with
  | Some t =>
      t <- lift (update_column "刷卡日期" Normalize.date_case t) ;;
      t <- lift (update_column "刷卡時間" Normalize.time_case t) ;;
      put_db (mk_db (Some t) (shift_class d) (integrated_punch d)) ;;;
      logging InfoConverted
  | None => logging WarnNoPunchTable
  end.

(** The columns [query_integrate] names, read as TEXT. *)
Definition punch_rows (t : DataFrame) : result (list Integrate.Punch) :=
  match col_index "公務帳號" t, col_index "刷卡日期" t, col_index "刷卡時間" t with
  | Some a, Some d, Some h =>
      Ok ((λ row, Integrate.mk_punch (to_text (cell_at a row))
                    (to_text (cell_at d row)) (to_text (cell_at h row)))
            <$> data t)
  | _, _, _ => Raise DatabaseError
  end.

Definition shift_rows (t : DataFrame) : result (list Integrate.Shift) :=
  match col_index "公務帳號" t, col_index "卡號" t, col_index "姓名" t,
        col_index "班別" t with
  | Some a, Some c, Some n, Some k =>
      Ok ((λ row, Integrate.mk_shift (to_text (cell_at a row))
                    (to_text (cell_at c row)) (to_text (cell_at n row))
                    (to_text (cell_at k row)))
            <$> data t)
  | _, _, _, _ => Raise DatabaseError
  end.

(** [integrate_data(conn)]: the query on the two tables, the pivot, the
    [CREATE TABLE IF NOT EXISTS] and the replacement of [integrated_punch].
    The CREATE statement lists the time columns after a comma: without any
    time column it is not valid SQL, and the function ends there. *)
Definition integrate_data : M Integrate.Frame :=
  d <- get_db ;;
  p <- match punch d with
       | Some t => lift (punch_rows t)
       | None => raise DatabaseError
       end ;;
  s <- match shift_class d with
       | Some t => lift (shift_rows t)
       | None => raise DatabaseError
       end ;;
  let integrated_data := Integrate.integrate_data p s in
  match Integrate.time_labels integrated_data with
  | [] => raise OperationalError
  | _ =>
      put_db (mk_db (punch d) (shift_class d) (Some integrated_data)) ;;;
      logging (InfoIntegrated (length (Integrate.rows integrated_data))) ;;;
      ret integrated_data
  end.

Record Config : Type := mk_config {
  db_path : string;
  file_path_1 : string;    (* 刷卡資料 *)
  file_path_2 : string     (* 班別資料 *)
}.

(** The body of the loop of [main] over the sheets of the roster. *)
Definition store_roster_sheet (file_path sheet_name : string)
    (total_processed_rows : nat) : M nat :=
  present <- path_exists file_path ;;
  if negb present then
    logging (WarnRosterSkipped file_path) ;;;
    ret total_processed_rows                           (* continue *)
  else
    df <- read_excel file_path sheet_name 0 ;;
    to_sql_shift_append df ;;;
    let total_processed_rows := (total_processed_rows + len df)%nat in
    logging (InfoRosterSheet sheet_name (len df) total_processed_rows) ;;;
    ret total_processed_rows.

(** [main].  The database file is deleted and created anew; the
    directory of the database is not modelled. *)
Definition main (config : Config) : M unit :=
  put_db empty_db ;;;
  present <- path_exists (file_path_1 config) ;;
  if negb present then
    logging (ErrorFileMissing (file_path_1 config))          (* return *)
  else
    excel_data_1 <- ExcelFile (file_path_1 config) ;;
    total_processed_rows <-
      clean_and_store_excel excel_data_1 (file_path_1 config) ;;
    excel_data_2 <- ExcelFile (file_path_2 config) ;;
    total_processed_rows <-
      for_in (sheet_names excel_data_2)
        (store_roster_sheet (file_path_2 config)) total_processed_rows ;;
    convert_date_time_format ;;;
    integrated_data <- integrate_data ;;
    logging InfoSaved.

End Cleaning.

End Store.

(** ** Notions the properties are stated with *)

Module Spec.
Import Strptime NightMeal.

(** The time of day in seconds after midnight. *)
Definition seconds_of_day (t : time) : Z :=
  (3600 * Z.of_nat (hour t) + 60 * Z.of_nat (minute t) + Z.of_nat (second t))%Z.

(** The text [check_night_meal] parses for a stored time: six characters
    get their colons first. *)
Definition read_form (s : string) : string :=
  if (String.length s =? 6)%nat then insert_colons s else s.

(** *** Sheets *)

(** The frame a sheet of the punch workbook is stored as. *)
Definition cleaned (lib : Store.Library) (wb : Store.Workbook)
    (sheet_name : string) : result Store.DataFrame :=
  sh ← Store.read_sheet wb sheet_name;
  Store.clean lib (Store.frame_of 4 sh).

(** *** Punches of a group *)

(** The punch times of a group of joined rows, in order, and their number. *)
Definition punch_times (g : list (Integrate.Punch * option Integrate.Shift))
  : list string :=
  omap (λ j, Integrate.p_time j.1) g.

Definition punch_count (g : list (Integrate.Punch * option Integrate.Shift))
  : nat :=
  length (punch_times g).

(** The times of a group as a row of [n] columns: the times, then nulls. *)
Definition padded (n : nat) (vs : list string) : list cell :=
  (Some <$> vs) ++ replicate (n - length vs) None.

Fixpoint has_char (c : ascii) (s : string) : bool :=
  match s with
  | EmptyString => false
  | String c' s' => Ascii.eqb c' c || has_char c s'
  end.

(** *** Canonical dates *)

(** A date in the canonical form [YYYY-MM-DD]: four digits, a dash, two
    digits, a dash, two digits, that name a day of the calendar of
    [datetime] (years 1 to 9999). *)
Definition valid_iso_date (s : string) : bool :=
  match s with
  | String y1 (String y2 (String y3 (String y4 (String s1 (String m1
      (String m2 (String s2 (String d1 (String d2 EmptyString))))))))) =>
      let y := (100 * (10 * dv y1 + dv y2) + (10 * dv y3 + dv y4))%nat in
      let m := (10 * dv m1 + dv m2)%nat in
      let d := (10 * dv d1 + dv d2)%nat in
      Sqlite.is_digit y1 && Sqlite.is_digit y2 && Sqlite.is_digit y3 &&
      Sqlite.is_digit y4 && Ascii.eqb s1 "-" &&
      Sqlite.is_digit m1 && Sqlite.is_digit m2 && Ascii.eqb s2 "-" &&
      Sqlite.is_digit d1 && Sqlite.is_digit d2 &&
      (1 <=? y)%nat && (1 <=? m)%nat && (m <=? 12)%nat &&
      (1 <=? d)%nat && (d <=? days_in_month y m)%nat
  | _ => false
  end.

(** The first way the parser [p] matches at the head of [s] reads [a] and
    leaves [r]. *)
Definition starts {A} (p : parser A) (s : string) (a : A) (r : string) : Prop :=
  ∃ tl, p s = (a, r) :: tl.

(** *** Deduplication *)

(** The pair the evaluators deduplicate on. *)
Definition key (r : Row) : cell * cell := (r_account r, r_date r).

(** Month and day as the two families of scripts obtain them from the date:
    by slicing, or by parsing (nothing when the date does not parse). *)
Definition slices (date : string) : option (string * string) :=
  Some (substring 5 2 date, substring 8 2 date).

Definition parsed (date_str : string) : option (string * string) :=
  match strptime_Ymd date_str with
  | Ok date_obj => Some (fmt02 (month date_obj), fmt02 (day date_obj))
  | Raise _ => None
  end.

Definition month_day (extract : string → option (string * string)) (r : Row)
  : option (string * string) :=
  r_date r ≫= extract.

(** A row is eligible when its month and day can be obtained and
    [check_night_meal] answers [True]. *)
Definition eligible (extract : string → option (string * string))
    (time_columns : list string) (rules : Rules) (r : Row) : bool :=
  bool_decide (is_Some (month_day extract r)) &&
  match check_night_meal r time_columns (night_meal_threshold rules) with
  | Ok true => true
  | _ => false
  end.

(** The entry an eligible row is reported with. *)
Definition entry (extract : string → option (string * string)) (r : Row)
  : option Entry :=
  md ← month_day extract r;
  Some (mk_entry (r_card r) (r_account r) (r_name r) md.1 md.2).

(** No eligible row among [before] has the account and date of [r]. *)
Definition no_earlier (eligible : Row → bool) (before : list Row) (r : Row)
  : bool :=
  forallb (λ r', negb (eligible r' && bool_decide (key r' = key r))) before.

(** First occurrence wins: of the rows [data], traversed in order after the
    rows [before], those that are eligible and have no eligible row with the
    same account and date before them. *)
Fixpoint first_wins (eligible : Row → bool) (before data : list Row)
  : list Row :=
  match data with
  | [] => []
  | r :: rest =>
      (if eligible r && no_earlier eligible before r then [r] else [])
      ++ first_wins eligible (before ++ [r]) rest
  end.

(** The loop body of both families, over the way month and day are
    obtained. *)
Definition body_with (extract : string → option (string * string))
    (time_columns : list string) (rules : Rules) (row : Row) (st : State)
  : result State :=
  match r_date row with
  | None => Raise TypeError
  | Some date =>
      match extract date with
      | None => Ok st
      | Some (month, day) =>
          record_row row date month day time_columns rules st
      end
  end.

(** What [processed_dates] holds after the rows [before]: the dates of the
    eligible rows, by account. *)
Definition seen_inv (eligible : Row → bool) (before : list Row)
    (pd : gmap cell (gset string)) : Prop :=
  ∀ (a : cell) (d : string),
    d ∈ pd !!! a ↔
    ∃ r, r ∈ before ∧ eligible r = true ∧ r_account r = a ∧ r_date r = Some d.

End Spec.

(** ** Sample data *)

Module Examples.
Import Strptime NightMeal.

Definition times3 (t1 t2 t3 : cell) : gmap string cell :=
  list_to_map [("刷卡時間1", t1); ("刷卡時間2", t2); ("刷卡時間3", t3)].

Definition three_columns : list string :=
  ["刷卡時間1"; "刷卡時間2"; "刷卡時間3"].

Definition sample_row (account date : string) (t1 t2 t3 : cell) : Row :=
  mk_row (Some account) (Some "王") (Some "C1") (Some "早班") (Some date)
    (times3 t1 t2 t3).

Definition rules_2200 : Rules := mk_rules (Some "早班") default_threshold.

(** An account that the roster lists twice (under two names) has two rows
    for the same date; a second account has one row, another class one. *)
Definition dup_table : list Row :=
  [ mk_row (Some "A1") (Some "王二") (Some "C1") (Some "早班") (Some "2024-01-05")
      (times3 (Some "08:00:00") (Some "22:30:00") None);
    mk_row (Some "A2") (Some "李") (Some "C2") (Some "早班") (Some "2024-01-06")
      (times3 (Some "08:00:00") (Some "22:00:00") None);
    mk_row (Some "A1") (Some "王") (Some "C1") (Some "早班") (Some "2024-01-05")
      (times3 (Some "08:00:00") (Some "22:30:00") None);
    mk_row (Some "A3") (Some "陳") (Some "C3") (Some "晚班") (Some "2024-01-05")
      (times3 (Some "23:00:00") None None) ].

(** Three punches of two accounts on one day, and the roster entry of the
    first account. *)
Definition sample_punch : list Integrate.Punch :=
  [ Integrate.mk_punch (Some "A1") (Some "2024-01-05") (Some "08:00:00");
    Integrate.mk_punch (Some "A2") (Some "2024-01-05") (Some "09:00:00");
    Integrate.mk_punch (Some "A1") (Some "2024-01-05") (Some "22:30:00") ].

Definition sample_shift : list Integrate.Shift :=
  [ Integrate.mk_shift (Some "A1") (Some "C1") (Some "王") (Some "早班") ].

(** A punch workbook of two sheets and a roster workbook of one. *)
Definition header : list Sqlite.value :=
  [Sqlite.Text "序號"; Sqlite.Text "公務帳號"; Sqlite.Text "刷卡日期";
   Sqlite.Text "刷卡時間"; Sqlite.Null].

Definition title_rows : list (list Sqlite.value) :=
  [[Sqlite.Text "刷卡明細"]; []; []; [];
   [Sqlite.Text "a"; Sqlite.Text "b"; Sqlite.Text "c"; Sqlite.Text "d";
    Sqlite.Text "e"]].

Definition sheet_1 : Store.Sheet :=
  title_rows ++
  [header;
   [Sqlite.Integer 1; Sqlite.Text "A1"; Sqlite.Text "1130105";
    Sqlite.Text "0800"; Sqlite.Null];
   [Sqlite.Integer 2; Sqlite.Text "A1"; Sqlite.Text "1130105";
    Sqlite.Text "2230"; Sqlite.Null];
   [Sqlite.Text "合計"; Sqlite.Null; Sqlite.Null; Sqlite.Null; Sqlite.Null]].

Definition sheet_2 : Store.Sheet :=
  title_rows ++
  [header;
   [Sqlite.Integer 1; Sqlite.Text "A2"; Sqlite.Text "1130106";
    Sqlite.Text "0900"; Sqlite.Null]].

Definition roster_sheet : Store.Sheet :=
  [[Sqlite.Text "公務帳號"; Sqlite.Text "卡號"; Sqlite.Text "姓名";
    Sqlite.Text "班別"];
   [Sqlite.Text "A1"; Sqlite.Text "C1"; Sqlite.Text "王"; Sqlite.Text "早班"];
   [Sqlite.Text "A2"; Sqlite.Text "C2"; Sqlite.Text "李"; Sqlite.Text "早班"]].

Definition punch_workbook : Store.Workbook :=
  [("一月", sheet_1); ("二月", sheet_2)].

Definition config : Store.Config :=
  Store.mk_config "./db/source.db" "./data/刷卡資料.xlsx" "./data/list.xlsx".

(** Both workbooks on disk; only the punch workbook; neither. *)
Definition world_both : Store.World :=
  Store.mk_world
    (<["./data/刷卡資料.xlsx" := punch_workbook]>
       (<["./data/list.xlsx" := [("班別", roster_sheet)]]> ∅))
    Store.empty_db [].

Definition world_no_roster : Store.World :=
  Store.mk_world (<["./data/刷卡資料.xlsx" := punch_workbook]> ∅)
    Store.empty_db [].

Definition world_empty : Store.World := Store.mk_world ∅ Store.empty_db [].

(** The scenario of one employee with two punches on ROC date 113-01-05,
    the second at [last], written the way the punch workbook has them. *)
Definition scenario_world (last : string) : Store.World :=
  Store.mk_world
    (<["./data/刷卡資料.xlsx" :=
         [("一月", title_rows ++
            [header;
             [Sqlite.Integer 1; Sqlite.Text "A1"; Sqlite.Text "1130105";
              Sqlite.Text "0800"; Sqlite.Null];
             [Sqlite.Integer 2; Sqlite.Text "A1"; Sqlite.Text "1130105";
              Sqlite.Text last; Sqlite.Null]])]]>
       (<["./data/list.xlsx" := [("班別", roster_sheet)]]> ∅))
    Store.empty_db [].

(** For the sample sheets: no text needs to read as a number, and a frame
    can be stored when it has a column. *)
Definition sample_library : Store.Library :=
  Store.mk_library (λ _, false)
    (λ df, bool_decide (Store.columns df ≠ [])).

(** The ETL script, then the evaluator for one class on the table it left. *)
Definition pipeline (w : Store.World) (class_name : string)
  : result (list Entry) :=
  match Store.main sample_library config w with
  | (Ok _, w') =>
      match Store.integrated_punch (Store.db w') with
      | Some f =>
          Csv.process_night_meal_data (Integrate.stored_rows f) class_name
            rules_2200 (Integrate.get_time_columns f)
      | None => Raise DatabaseError
      end
  | (Raise e, _) => Raise e
  end.

End Examples.

(** ** Python text operations of the report scripts *)

Module Text.

(** [str.isspace] on one character, for the characters up to U+00FF. *)
Definition py_isspace (c : ascii) : bool :=
  let n := nat_of_ascii c in
  ((9 <=? n)%nat && (n <=? 13)%nat) || ((28 <=? n)%nat && (n <=? 32)%nat) ||
  (n =? 133)%nat || (n =? 160)%nat.

Fixpoint lstrip (s : string) : string :=
  match s with
  | String c s' => if py_isspace c then lstrip s' else s
  | EmptyString => s
  end.

Fixpoint rstrip (s : string) : string :=
  match s with
  | EmptyString => EmptyString
  | String c s' =>
      match rstrip s' with
      | EmptyString => if py_isspace c then EmptyString else String c EmptyString
      | String c' r => String c (String c' r)
      end
  end.

(** [str.strip()] *)
Definition strip (s : string) : string := rstrip (lstrip s).

End Text.

(** ** The monthly summary of the evaluators: [output_night_meal_results]
       and the part of [generate_html_table] that reads it *)

Module Report.
Import Strptime NightMeal Text.

(** [GROUP_CONCAT(x, sep)] *)
Definition GROUP_CONCAT (sep : string) (xs : list cell) : cell :=
  match omap id xs with
  | [] => None
  | v :: vs => Some (Integrate.join sep (v :: vs))
  end.

(** [COUNT(DISTINCT x)] *)
Definition COUNT_DISTINCT (xs : list cell) : nat :=
  length (remove_dups (omap id xs)).

Definition day_le (a b : Entry) : Prop :=
  String.compare (e_day a) (e_day b) ≠ Gt.

#[global] Instance day_le_dec : RelDecision day_le.
Proof.
  intros a b. unfold day_le.
  destruct (String.compare (e_day a) (e_day b)); [left|left|right]; congruence.
Defined.

(** [(SELECT * from night_meal_df ORDER BY 日期)] *)
Definition ordered_by_day (night_meal_data : list Entry) : list Entry :=
  merge_sort day_le night_meal_data.

(** [GROUP BY 卡號, 公務帳號, 姓名, 月份] *)
Definition group_key (e : Entry) : cell * cell * cell * string :=
  (e_card e, e_account e, e_name e, e_month e).

(** The groups, each with its rows in the order of the subquery.  SQLite
    leaves the order inside a group and between groups open. *)
Definition group_by (l : list Entry) : list (list Entry) :=
  (λ k, filter (λ e, group_key e = k) l) <$> remove_dups (group_key <$> l).

(** A row of [night_meal_summary]. *)
Record Summary : Type := mk_summary {
  s_card : cell;       (* 卡號 *)
  s_account : cell;    (* 公務帳號 *)
  s_name : cell;       (* 姓名 *)
  s_month : string;    (* 月份 *)
  s_dates : cell       (* GROUP_CONCAT(日期, ', ') AS 日期列表 *)
}.

Definition aggregate (g : list Entry) : option Summary :=
  e ← head g;
  Some (mk_summary (e_card e) (e_account e) (e_name e) (e_month e)
          (GROUP_CONCAT ", " ((λ e, Some (e_day e)) <$> g))).

(** [ORDER BY 卡號, 月份] *)
Definition summary_le (a b : Summary) : Prop :=
  then_by (cell_compare (s_card a) (s_card b))
          (String.compare (s_month a) (s_month b)) ≠ Gt.

#[global] Instance summary_le_dec : RelDecision summary_le.
Proof.
  intros a b. unfold summary_le.
  destruct (then_by _ _); [left|left|right]; congruence.
Defined.

(** The query of [output_night_meal_results] in [夜點html.py]. *)
Definition night_meal_summary (night_meal_data : list Entry) : list Summary :=
  merge_sort summary_le
    (omap aggregate (group_by (ordered_by_day night_meal_data))).

(** The query of [output_night_meal_results] in [02 夜點清算csv_0627.py]:
    the same, with [COUNT(DISTINCT 日期) AS 有記錄的總共天數] beside every
    row. *)
Definition night_meal_summary_csv (night_meal_data : list Entry)
  : list (Summary * nat) :=
  merge_sort (λ a b, summary_le a.1 b.1)
    (omap (λ g, s ← aggregate g;
                Some (s, COUNT_DISTINCT ((λ e, Some (e_day e)) <$> g)))
       (group_by (ordered_by_day night_meal_data))).

(** [generate_html_table]:
    [dates = [d.strip() for d in row['日期列表'].split(",")]], and no date
    for a missing list. *)
Definition dates (row : Summary) : list string :=
  match s_dates row with
  | None => []
  | Some s => strip <$> Integrate.py_split "," s
  end.

(** [total_days = len(dates)] *)
Definition total_days (row : Summary) : nat := length (dates row).

(** [is_filled = any(day_str == d for d in dates)] for [day_str = f"{day:02}"] *)
Definition is_filled (row : Summary) (day : nat) : bool :=
  bool_decide (Exists (λ d, fmt02 day = d) (dates row)).

(** The days of [range(1, num_days + 1)] whose box is filled. *)
Definition filled_days (row : Summary) (num_days : nat) : list nat :=
  filter (λ day, is_filled row day = true) (seq 1 num_days).

End Report.

(** ** The query scripts: [format_timestamp] and the columns
       [export_punch_record] computes from the time columns *)

Module Query.
Import Text.

(** [format_timestamp] of [03 打卡紀錄查詢htm.py] and
    [03 打卡記錄查詢csv.py]. *)
Definition format_timestamp (ts : cell) : cell :=
  match ts with
  | None => None                                   (* pd.isna(ts) *)
  | Some ts =>
      let ts := strip ts in
      if bool_decide (ts = EmptyString) then None
      else if Spec.has_char ":" ts then Some ts
      else if (String.length ts =? 6)%nat
           then Some (NightMeal.insert_colons ts)
      else Some ts
  end.

(** [format_timestamp] of [09 打卡紀錄完整查詢.py]: the test of the
    length comes first. *)
Definition format_timestamp_09 (ts : cell) : cell :=
  match ts with
  | None => None
  | Some ts =>
      let ts := strip ts in
      if bool_decide (ts = EmptyString) then None
      else if (String.length ts =? 6)%nat
           then Some (NightMeal.insert_colons ts)
      else if Spec.has_char ":" ts then Some ts else Some ts
  end.

(** [for col in time_columns: df[col] = df[col].map(format_timestamp)],
    on the time cells of one row. *)
Definition format_row (fmt : cell → cell) (times : list cell) : list cell :=
  fmt <$> times.

(** [所有時間戳記]: [', '.join([t for t in row if pd.notna(t)])] *)
Definition all_timestamps (row : list cell) : string :=
  Integrate.join ", " (omap id row).

(** [打卡次數]: [sum(1 for t in row if pd.notna(t))] *)
Definition punch_total (row : list cell) : nat :=
  length (filter (λ t, is_Some t) row).

(** [get_time_columns] of [09 打卡紀錄完整查詢.py]: the traditional and
    the simplified spelling of the prefix. *)
Definition get_time_columns_09 (f : Integrate.Frame) : list string :=
  filter (λ c, String.prefix "刷卡時間" c || String.prefix "刷卡时间" c = true)
    (Integrate.table_columns f).

End Query.

(** ** The evaluator of [02 新夜點清單htm_0120.py], with the account list *)

Module Listed.
Import Strptime NightMeal.

(** One entry of [night_meal_data]:
    [[card_no, account, name, month, day, row['班別'], account in account_list]]. *)
Record ListedEntry : Type := mk_listed {
  l_card : cell;
  l_account : cell;
  l_name : cell;
  l_month : string;
  l_day : string;
  l_class : cell;
  l_listed : bool
}.

(** [account in account_list], for the set of the 公務帳號 column of the
    list file: only a text can equal an account of the table. *)
Definition in_list (account : cell) (account_list : gset string) : bool :=
  match account with
  | Some a => bool_decide (a ∈ account_list)
  | None => false
  end.

Record ListedState : Type := mk_listed_state {
  listed_data : list ListedEntry;
  listed_dates : gmap cell (gset string)
}.

Definition body (time_columns : list string) (rules : Rules)
    (account_list : gset string) (row : Row) (st : ListedState)
  : result ListedState :=
  match r_date row with
  | None => Raise TypeError          (* strptime(None, ...) *)
  | Some date_str =>
      match strptime_Ymd date_str with
      | Raise ValueError => Ok st    (* except ValueError: continue *)
      | Raise e => Raise e
      | Ok date_obj =>
          let month := fmt02 (month date_obj) in
          let day := fmt02 (day date_obj) in
          let account := r_account row in
          let card_no := r_card row in
          let pd := touch account (listed_dates st) in
          night_meal_recorded ←
            check_night_meal row time_columns (night_meal_threshold rules);
          if night_meal_recorded && bool_decide (date_str ∉ pd !!! account)
          then
            Ok (mk_listed_state
                  (listed_data st ++
                     [mk_listed card_no account (r_name row) month day
                        (r_class row) (in_list account account_list)])
                  (<[account := {[date_str]} ∪ pd !!! account]> pd))
          else Ok (mk_listed_state (listed_data st) pd)
      end
  end.

Fixpoint for_each_listed (body : Row → ListedState → result ListedState)
    (data : list Row) (st : ListedState) : result ListedState :=
  match data with
  | [] => Ok st
  | row :: rest => st' ← body row st; for_each_listed body rest st'
  end.

Definition process_night_meal_data (conn : list Row) (class_name : string)
    (rules : Rules) (time_columns : list string) (account_list : gset string)
  : result (list ListedEntry) :=
  let data := select_class conn class_name in
  st ← for_each_listed (body time_columns rules account_list) data
         (mk_listed_state [] ∅);
  Ok (listed_data st).

(** The five fields the other evaluators report. *)
Definition to_entry (e : ListedEntry) : Entry :=
  mk_entry (l_card e) (l_account e) (l_name e) (l_month e) (l_day e).

End Listed.

(** ** The [main] functions of the evaluators *)

Module Driver.
Import NightMeal.

(** [f"... ip.班別 = '{class_name}'"]: a NULL class is written [None]. *)
Definition class_literal (class_name : cell) : string :=
  default "None" class_name.

(** [SELECT DISTINCT 班別 FROM integrated_punch].  SQLite leaves the order
    open; the model takes the order of first occurrence. *)
Definition distinct_classes (conn : list Row) : list cell :=
  remove_dups (r_class <$> conn).

(** The loop of [main] in [夜點html.py] and [02 夜點清算csv_0627.py],
    inside its [try]: every class is processed and its report written,
    until an exception ends the loop; the exception is logged.  The result
    lists the reports written, by the class name of the rules, and the
    exception, if any. *)
Fixpoint for_classes {A} (report : string → Rules → result A)
    (rules_dict : list (cell * Rules)) : list (cell * A) * option exn :=
  match rules_dict with
  | [] => ([], None)
  | (class_name, rules) :: rest =>
      match report (class_literal class_name) rules with
      | Ok night_meal_summary =>
          let '(written, e) := for_classes report rest in
          ((NightMeal.class_name rules, night_meal_summary) :: written, e)
      | Raise e => ([], Some e)
      end
  end.

(** [main] of [夜點html.py], on the table [integrate_data] wrote (the
    writing of the files is not modelled). *)
Definition html_main (f : Integrate.Frame)
  : list (cell * list Report.Summary) * option exn :=
  let conn := Integrate.stored_rows f in
  let rules_dict := create_rules_dict (distinct_classes conn) in
  let time_columns := Integrate.get_time_columns f in
  for_classes
    (λ class_name rules,
       night_meal_data ←
         Html.process_night_meal_data conn class_name rules time_columns;
       Ok (Report.night_meal_summary night_meal_data))
    rules_dict.

(** [main] of [02 夜點清算csv_0627.py]. *)
Definition csv_main (f : Integrate.Frame)
  : list (cell * list (Report.Summary * nat)) * option exn :=
  let conn := Integrate.stored_rows f in
  let rules_dict := create_rules_dict (distinct_classes conn) in
  let time_columns := Integrate.get_time_columns f in
  for_classes
    (λ class_name rules,
       night_meal_data ←
         Csv.process_night_meal_data conn class_name rules time_columns;
       Ok (Report.night_meal_summary_csv night_meal_data))
    rules_dict.

(** [process_all_classes_data] of [02 夜點清單deepseek .py]: the entries of
    every class, each with the class ([class_df['班別'] = class_name]). *)
Fixpoint class_frames (conn : list Row) (rules_dict : list (cell * Rules))
    (time_columns : list string) : result (list (list (Entry * cell))) :=
  match rules_dict with
  | [] => Ok []
  | (class_name, rules) :: rest =>
      class_data ←
        Csv.process_night_meal_data conn (class_literal class_name) rules
          time_columns;
      all_data ← class_frames conn rest time_columns;
      Ok (((λ e : Entry, (e, class_name)) <$> (class_data : list Entry))
            :: all_data)
  end.

(** [pd.concat(all_data, ignore_index=True)] raises [ValueError] on an
    empty list. *)
Definition process_all_classes_data (conn : list Row)
    (rules_dict : list (cell * Rules)) (time_columns : list string)
  : result (list (Entry * cell)) :=
  all_data ← class_frames conn rules_dict time_columns;
  match all_data with
  | [] => Raise ValueError
  | _ :: _ => Ok (List.concat all_data)
  end.

End Driver.

(** ** More sample data *)

Module Samples.
Import Strptime NightMeal.

(** A [punch] table as [clean_and_store_excel] leaves it, and one that
    lacks the column 刷卡時間. *)
Definition punch_table : Store.DataFrame :=
  Store.mk_df
    [Sqlite.Text "公務帳號"; Sqlite.Text "刷卡日期"; Sqlite.Text "刷卡時間"]
    [[Sqlite.Text "A1"; Sqlite.Text "1130105"; Sqlite.Text "0800"];
     [Sqlite.Text "A1"; Sqlite.Text "1130105"; Sqlite.Text "2230"]].

Definition punch_table_no_time : Store.DataFrame :=
  Store.mk_df
    [Sqlite.Text "公務帳號"; Sqlite.Text "刷卡日期"]
    [[Sqlite.Text "A1"; Sqlite.Text "1130105"]].

Definition world_of_punch (t : Store.DataFrame) : Store.World :=
  Store.mk_world ∅ (Store.mk_db (Some t) None None) [].

End Samples.

(** ** Further notions the properties are stated with *)

Module Notions.
Import Sqlite Store.

(** No date of the table has the seven characters, and no time the four
    characters, that the UPDATEs of [convert_date_time_format] rewrite. *)
Definition normalised (t : DataFrame) : Prop :=
  (∀ i row v, col_index "刷卡日期" t = Some i → row ∈ data t →
     row !! i = Some v → LENGTH v ≠ Integer 7) ∧
  (∀ j row v, col_index "刷卡時間" t = Some j → row ∈ data t →
     row !! j = Some v → LENGTH v ≠ Integer 4).

(** Every cell of the column is a text. *)
Definition text_column (name : string) (t : DataFrame) : Prop :=
  ∀ i row v, col_index name t = Some i → row ∈ data t →
    row !! i = Some v → ∃ s, v = Text s.

(** The steps of [clean], named: the frame after the rows and columns to
    drop are dropped, and the [astype(str)] of one column. *)
Definition cleaning_kept (lib : Library) (first_row : list value)
    (body : list (list value)) : DataFrame :=
  dropna_columns
    (let df1 := select_columns (notna <$> first_row) (mk_df first_row body) in
     match col_index "序號" df1 with
     | Some i =>
         mk_df (columns df1)
           (filter (λ row, to_numeric_notnull lib (cell_at i row) = true)
              (data df1))
     | None => df1
     end).

Definition stringify (col : string) (df : DataFrame) : DataFrame :=
  match col_index col df with
  | Some i => map_column i astype_str df
  | None => df
  end.

(** The row of [integrated_punch] for a group of joined rows, with [n]
    time columns: the fields of the first row of the group, and the punch
    times of the group filled up with nulls. *)
Definition row_of_group (n : nat)
    (g : list (Integrate.Punch * option Integrate.Shift))
  : option Integrate.Integrated :=
  j ← head g;
  Some (Integrate.mk_integrated (Integrate.p_account j.1) (Integrate.j_card j)
          (Integrate.j_name j) (Integrate.p_date j.1) (Integrate.j_class j)
          (Spec.padded n (Spec.punch_times g))).

(** The test of [check_night_meal] on the last of the times [vs]. *)
Definition last_punch_test (thr : Strptime.time) (vs : list string)
  : result bool :=
  match last vs with
  | None => Ok false
  | Some s =>
      t ← Strptime.strptime_HMS (Spec.read_form s);
      Ok (Strptime.time_gt t thr)
  end.

(** The key of a row of [integrated_punch]. *)
Definition integrated_key (r : Integrate.Integrated) : cell * cell * cell :=
  (Integrate.i_account r, Integrate.i_date r, Integrate.i_class r).

(** The key of a row of the monthly summary, and the days of the entries
    with a key. *)
Definition summary_key (row : Report.Summary) : cell * cell * cell * string :=
  (Report.s_card row, Report.s_account row, Report.s_name row,
   Report.s_month row).

Definition days_of (k : cell * cell * cell * string)
    (night_meal_data : list NightMeal.Entry) : list string :=
  NightMeal.e_day <$>
    filter (λ e, Report.group_key e = k) night_meal_data.

(** The state of the loop with the account list, seen as a state of the
    loop without it. *)
Definition to_state (st : Listed.ListedState) : NightMeal.State :=
  NightMeal.mk_state (Listed.to_entry <$> Listed.listed_data st)
    (Listed.listed_dates st).

(** What the loop with the account list keeps true of its entries: the
    class is the class asked for, and the flag tells whether the account
    is on the list. *)
Definition listed_ok (class_name : string) (account_list : gset string)
    (e : Listed.ListedEntry) : Prop :=
  Listed.l_class e = Some class_name ∧
  Listed.l_listed e = Listed.in_list (Listed.l_account e) account_list.

(** The rows of a frame as [to_sql(..., if_exists='append')] inserts them
    into a table with the columns [cols]: by column name, NULL for a
    column the frame lacks. *)
Definition realign (cols : list value) (df : DataFrame) : list (list value) :=
  (λ row, (λ c, match list_find (λ c', c' = c) (columns df) with
                | Some (i, _) => cell_at i row
                | None => Null
                end) <$> cols) <$> data df.

(** The frame of a sheet of the roster workbook. *)
Definition roster_frame (wb : Workbook) (sheet_name : string)
  : result DataFrame :=
  sh ← read_sheet wb sheet_name; Ok (frame_of 0 sh).

End Notions.

(** * Properties *)

(** ** Characters and digits *)

Section Digits.
Import Sqlite Strptime.

Lemma is_digit_cases (c : ascii) :
  is_digit c = true →
  c ∈ ["0"; "1"; "2"; "3"; "4"; "5"; "6"; "7"; "8"; "9"]%char.
Proof.
  destruct c as [[] [] [] [] [] [] [] []]; vm_compute; intros H;
    try discriminate H; set_solver.
Qed.

Lemma dv_bound (c : ascii) : is_digit c = true → (dv c ≤ 9)%nat.
Proof.
  intros H. apply is_digit_cases in H.
  repeat (apply elem_of_cons in H as [->|H]; [vm_compute; lia|]).
  by apply elem_of_nil in H.
Qed.

Lemma in_range_digit (c : ascii) : is_digit c = true → in_range 0 9 c = true.
Proof.
  intros H. unfold in_range. rewrite H. pose proof (dv_bound c H).
  simpl. by apply Nat.leb_le.
Qed.

End Digits.

(** Split a membership in a literal list of characters into its cases. *)
Ltac digit_cases H :=
  apply is_digit_cases in H;
  repeat (apply elem_of_cons in H as [->|H]); [..|by apply elem_of_nil in H].

(** ** Date and time normalisation *)

Section NormalizeFacts.
Import Sqlite Strptime Normalize.

Lemma length_7_inv (s : string) :
  String.length s = 7%nat →
  ∃ a b c d e f g,
    s = String a (String b (String c (String d (String e (String f
          (String g EmptyString)))))).
Proof.
  intros H. do 7 (destruct s as [|? s]; [discriminate H|]).
  destruct s; [|discriminate H]. by repeat eexists.
Qed.

Lemma length_4_inv (s : string) :
  String.length s = 4%nat →
  ∃ a b c d, s = String a (String b (String c (String d EmptyString))).
Proof.
  intros H. do 4 (destruct s as [|? s]; [discriminate H|]).
  destruct s; [|discriminate H]. by repeat eexists.
Qed.

(** The CAST of three digits is the number they write. *)
Lemma text_to_integer_3_digits (y1 y2 y3 : ascii) :
  is_digit y1 = true → is_digit y2 = true → is_digit y3 = true →
  text_to_integer (String y1 (String y2 (String y3 EmptyString)))
  = Z.of_nat (100 * dv y1 + 10 * dv y2 + dv y3).
Proof.
  intros H1 H2 H3. digit_cases H1; digit_cases H2; digit_cases H3;
    vm_compute; reflexivity.
Qed.

Lemma date_case_other_length (s : string) :
  String.length s ≠ 7%nat → date_case (Text s) = Text s.
Proof.
  intros H. unfold date_case, LENGTH, eq_int. simpl.
  destruct (Z.eqb_spec (Z.of_nat (String.length s)) 7); [lia|done].
Qed.

Lemma time_case_other_length (s : string) :
  String.length s ≠ 4%nat → time_case (Text s) = Text s.
Proof.
  intros H. unfold time_case, LENGTH, eq_int. simpl.
  destruct (Z.eqb_spec (Z.of_nat (String.length s)) 4); [lia|done].
Qed.

Lemma time_case_length_4 (a b c d : ascii) :
  time_case (Text (String a (String b (String c (String d EmptyString)))))
  = Text (String a (String b (String ":" (String c (String d ":00"))))).
Proof. reflexivity. Qed.

(** The UPDATE of 刷卡時間 changes nothing when run a second time, on any
    value. *)
Lemma time_case_idempotent (v : value) :
  time_case (time_case v) = time_case v.
Proof.
  destruct (eq_int (LENGTH v) 4) eqn:Hlen.
  - assert (∃ a b c d,
      time_case v
      = Text (String a (String b (String ":" (String c (String d ":00"))))))
      as (a & b & c & d & ->); [|reflexivity].
    unfold time_case. rewrite Hlen. unfold LENGTH in Hlen.
    destruct (to_text v) as [s|] eqn:Hs; [|done].
    simpl in Hlen. apply Z.eqb_eq in Hlen.
    destruct (length_4_inv s) as (a & b & c & d & ->); [lia|].
    exists a, b, c, d. unfold SUBSTR. rewrite Hs. reflexivity.
  - assert (time_case v = v) as Hv by (unfold time_case; by rewrite Hlen).
    by rewrite !Hv.
Qed.

End NormalizeFacts.

Import Normalize.

(** C4, as the description states it, fails: a ROC date written with
    dashes has nine characters and is left as it is. *)
Lemma normalize_date_dashed_unchanged :
  normalize_date (Some "113-05-20") = Some "113-05-20" ∧
  normalize_date (Some "113-05-20") ≠ Some "2024-05-20".
Proof. split; [reflexivity | discriminate]. Qed.

(** C4 (as the code has it): a date of exactly seven characters whose first
    three are the digits of the ROC year, followed by the two characters of
    the month and the two of the day, becomes year+1911, a dash, the month,
    a dash, the day; a date whose length is not seven passes through
    unchanged. *)
Theorem normalize_date_roc (y1 y2 y3 m1 m2 d1 d2 : ascii) (s : string) :
  (Sqlite.is_digit y1 = true → Sqlite.is_digit y2 = true →
   Sqlite.is_digit y3 = true →
   normalize_date
     (Some (String y1 (String y2 (String y3 (String m1 (String m2
              (String d1 (String d2 EmptyString))))))))
   = Some (pretty (Z.of_nat (100 * Strptime.dv y1 + 10 * Strptime.dv y2
                             + Strptime.dv y3) + 1911)%Z
           +:+ "-" +:+ String m1 (String m2 EmptyString)
           +:+ "-" +:+ String d1 (String d2 EmptyString))) ∧
  (String.length s ≠ 7%nat → normalize_date (Some s) = Some s).
Proof.
  split.
  - intros H1 H2 H3. unfold normalize_date, date_case. simpl.
    rewrite (text_to_integer_3_digits y1 y2 y3 H1 H2 H3). reflexivity.
  - intros H. unfold normalize_date. simpl.
    by rewrite date_case_other_length.
Qed.

Lemma normalize_date_roc_witness :
  normalize_date (Some "1130520") = Some "2024-05-20" ∧
  normalize_date (Some "2024-05-20") = Some "2024-05-20".
Proof.
  destruct (normalize_date_roc "1" "1" "3" "0" "5" "2" "0" "2024-05-20")
    as [H1 H2].
  split.
  - exact (H1 eq_refl eq_refl eq_refl).
  - apply H2. vm_compute. lia.
Defined.

(** C5, as the description states it, fails: a time of six digits is left
    as it is by the normalisation pass. *)
Lemma normalize_time_six_digits_unchanged :
  normalize_time (Some "223000") = Some "223000" ∧
  normalize_time (Some "223000") ≠ Some "22:30:00".
Proof. split; [reflexivity | discriminate]. Qed.

(** C5 (as the code has it): a time of exactly four characters [abcd]
    becomes [ab:cd:00]; a time of any other length, six digits and
    [HH:MM:SS] included, passes through unchanged, and so does NULL. *)
Theorem normalize_time_four_chars (a b c d : ascii) (s : string) :
  normalize_time (Some (String a (String b (String c (String d EmptyString)))))
  = Some (String a (String b (String ":" (String c (String d ":00"))))) ∧
  (String.length s ≠ 4%nat → normalize_time (Some s) = Some s) ∧
  normalize_time None = None.
Proof.
  split; [reflexivity|]. split; [|reflexivity].
  intros H. unfold normalize_time. simpl. by rewrite time_case_other_length.
Qed.

Lemma normalize_time_four_chars_witness :
  normalize_time (Some "2230") = Some "22:30:00" ∧
  normalize_time (Some "22:30:00") = Some "22:30:00".
Proof.
  destruct (normalize_time_four_chars "2" "2" "3" "0" "22:30:00")
    as (H1 & H2 & _).
  split; [exact H1|]. apply H2. vm_compute. lia.
Defined.

(** C6: the time normalisation is idempotent: applied to its own result it
    changes nothing, whatever the input. *)
Theorem normalize_time_idempotent (x : cell) :
  normalize_time (normalize_time x) = normalize_time x.
Proof.
  unfold normalize_time, store.
  destruct x as [s|]; [|reflexivity]. simpl.
  assert (of_cell (Sqlite.to_text (time_case (Sqlite.Text s)))
          = time_case (Sqlite.Text s)) as ->.
  { unfold time_case.
    destruct (Sqlite.eq_int _ _); reflexivity. }
  by rewrite time_case_idempotent.
Qed.

(** ** [strptime] and the comparison of times *)

Section StrptimeFacts.
Import Strptime Spec.

Lemma bind_Ok {A B} (m : result A) (k : A → result B) (b : B) :
  m ≫= k = Ok b → ∃ a, m = Ok a ∧ k a = Ok b.
Proof. destruct m as [a|e]; [|discriminate]. intros H. by exists a. Qed.

Lemma strptime_HMS_fields (s : string) (t : time) :
  strptime_HMS s = Ok t →
  (hour t ≤ 23 ∧ minute t ≤ 59 ∧ second t ≤ 59)%nat.
Proof.
  unfold strptime_HMS. intros H.
  apply bind_Ok in H as ([[h m] sec] & _ & H).
  unfold check_time_fields in H.
  destruct (_ && _) eqn:Hc in H; [|discriminate].
  injection H as <-. simpl.
  apply andb_prop in Hc as [Hc H3]. apply andb_prop in Hc as [H1 H2].
  apply Nat.leb_le in H1, H2, H3. lia.
Qed.

(** On times of day the order of the tuples is the order in time. *)
Lemma time_gt_seconds (a b : time) :
  (minute a ≤ 59)%nat → (second a ≤ 59)%nat →
  (minute b ≤ 59)%nat → (second b ≤ 59)%nat →
  time_gt a b = bool_decide (seconds_of_day b < seconds_of_day a)%Z.
Proof.
  intros Ha1 Ha2 Hb1 Hb2. unfold time_gt, seconds_of_day.
  destruct a as [ha ma sa], b as [hb mb sb]. cbn [hour minute second] in *.
  destruct (Nat.ltb_spec hb ha) as [H1|H1]; cbn [orb].
  { symmetry. apply bool_decide_eq_true. lia. }
  destruct (Nat.eqb_spec ha hb) as [->|H2]; cbn [andb]; cycle 1.
  { symmetry. apply bool_decide_eq_false. lia. }
  destruct (Nat.ltb_spec mb ma) as [H3|H3]; cbn [orb].
  { symmetry. apply bool_decide_eq_true. lia. }
  destruct (Nat.eqb_spec ma mb) as [->|H4]; cbn [andb]; cycle 1.
  { symmetry. apply bool_decide_eq_false. lia. }
  destruct (Nat.ltb_spec sb sa) as [H5|H5]; symmetry.
  - apply bool_decide_eq_true. lia.
  - apply bool_decide_eq_false. lia.
Qed.

Lemma time_gt_irrefl (a : time) : time_gt a a = false.
Proof.
  unfold time_gt. rewrite !Nat.ltb_irrefl, !Nat.eqb_refl. reflexivity.
Qed.

End StrptimeFacts.

(** ** [check_night_meal] *)

Section CheckFacts.
Import Strptime NightMeal Spec.

Lemma scan_nulls (row : Row) (nulls rest : list string) (thr : time) :
  (∀ c, c ∈ nulls → r_times row !! c = Some None) →
  scan row (nulls ++ rest) thr = scan row rest thr.
Proof.
  induction nulls as [|c nulls IH]; intros H; [done|].
  simpl. rewrite (H c) by set_solver. apply IH. intros c' Hc'.
  apply H. set_solver.
Qed.

(** The scan stops at the last column that holds a value. *)
Lemma check_night_meal_last (row : Row) (pre post : list string)
    (c s : string) (thr : time) :
  r_times row !! c = Some (Some s) →
  (∀ c', c' ∈ post → r_times row !! c' = Some None) →
  check_night_meal row (pre ++ c :: post) thr
  = (t ← strptime_HMS (read_form s); Ok (time_gt t thr)).
Proof.
  intros Hc Hpost. unfold check_night_meal.
  rewrite reverse_app, reverse_cons, <- app_assoc.
  rewrite scan_nulls by (intros c' Hc'; apply Hpost; by apply elem_of_reverse).
  simpl. rewrite Hc. reflexivity.
Qed.

Lemma check_night_meal_all_null (row : Row) (cols : list string) (thr : time) :
  (∀ c, c ∈ cols → r_times row !! c = Some None) →
  check_night_meal row cols thr = Ok false.
Proof.
  intros H. unfold check_night_meal.
  rewrite <- (app_nil_r (reverse cols)).
  rewrite scan_nulls by (intros c' Hc'; apply H; by apply elem_of_reverse).
  reflexivity.
Qed.

End CheckFacts.

Import Strptime NightMeal Spec.

(** C1: the test is strict.  When the last time column of the row that
    holds a value reads as the time [t]: a [t] equal to the threshold gives
    false, whatever the threshold; against the threshold 22:00:00, a [t] of
    22:00:01 or later gives true and a [t] of 22:00:00 or earlier gives
    false; and against any threshold that is a time of day the result is
    true exactly when [t] is later. *)
Theorem check_night_meal_strict (row : Row) (pre post : list string)
    (c s : string) (t thr : time) :
  r_times row !! c = Some (Some s) →
  (∀ c', c' ∈ post → r_times row !! c' = Some None) →
  strptime_HMS (read_form s) = Ok t →
  (t = thr → check_night_meal row (pre ++ c :: post) thr = Ok false) ∧
  (thr = mk_time 22 0 0 →
   (seconds_of_day (mk_time 22 0 1) ≤ seconds_of_day t)%Z →
   check_night_meal row (pre ++ c :: post) thr = Ok true) ∧
  (thr = mk_time 22 0 0 →
   (seconds_of_day t ≤ seconds_of_day (mk_time 22 0 0))%Z →
   check_night_meal row (pre ++ c :: post) thr = Ok false) ∧
  ((minute thr ≤ 59)%nat → (second thr ≤ 59)%nat →
   check_night_meal row (pre ++ c :: post) thr
   = Ok (bool_decide (seconds_of_day thr < seconds_of_day t)%Z)).
Proof.
  intros Hc Hpost Ht.
  rewrite (check_night_meal_last row pre post c s thr Hc Hpost), Ht.
  destruct (strptime_HMS_fields _ _ Ht) as (_ & Hm & Hs).
  change (Ok t ≫= (λ t0, Ok (time_gt t0 thr))) with (@Ok bool (time_gt t thr)).
  split; [|split; [|split]].
  - intros <-. by rewrite time_gt_irrefl.
  - intros -> Hle. rewrite time_gt_seconds by (cbn [minute second]; lia).
    f_equal. apply bool_decide_eq_true.
    unfold seconds_of_day in *. cbn [hour minute second] in *. lia.
  - intros -> Hle. rewrite time_gt_seconds by (cbn [minute second]; lia).
    f_equal. apply bool_decide_eq_false.
    unfold seconds_of_day in *. cbn [hour minute second] in *. lia.
  - intros H1 H2. by rewrite time_gt_seconds.
Qed.

Lemma check_night_meal_strict_witness :
  check_night_meal
    (Examples.sample_row "A1" "2024-01-05" (Some "08:00:00") (Some "22:00:00") None)
    Examples.three_columns (mk_time 22 0 0) = Ok false ∧
  check_night_meal
    (Examples.sample_row "A1" "2024-01-05" (Some "08:00:00") (Some "220001") None)
    Examples.three_columns (mk_time 22 0 0) = Ok true.
Proof.
  split.
  - refine (proj1 (check_night_meal_strict
      (Examples.sample_row "A1" "2024-01-05" (Some "08:00:00") (Some "22:00:00") None)
      ["刷卡時間1"] ["刷卡時間3"] "刷卡時間2" "22:00:00"
      (mk_time 22 0 0) (mk_time 22 0 0) _ _ _) eq_refl).
    + vm_compute. reflexivity.
    + intros c' Hc'. apply list_elem_of_singleton in Hc' as ->.
      vm_compute. reflexivity.
    + vm_compute. reflexivity.
  - refine (proj1 (proj2 (check_night_meal_strict
      (Examples.sample_row "A1" "2024-01-05" (Some "08:00:00") (Some "220001") None)
      ["刷卡時間1"] ["刷卡時間3"] "刷卡時間2" "220001"
      (mk_time 22 0 1) (mk_time 22 0 0) _ _ _)) eq_refl _).
    + vm_compute. reflexivity.
    + intros c' Hc'. apply list_elem_of_singleton in Hc' as ->.
      vm_compute. reflexivity.
    + vm_compute. reflexivity.
    + vm_compute. discriminate.
Defined.

(** C2: the time [check_night_meal] tests is the one of the last time
    column that holds a value: when every column after [c] is null and [c]
    is not, the result is the comparison of the time read from [c], whatever
    the columns before [c] hold.  When every time column is null, the result
    is false, and the row adds no entry to [night_meal_data]. *)
Theorem check_night_meal_last_non_null (row : Row) (pre post cols : list string)
    (c s : string) (thr : time) :
  (r_times row !! c = Some (Some s) →
   (∀ c', c' ∈ post → r_times row !! c' = Some None) →
   check_night_meal row (pre ++ c :: post) thr
   = (t ← strptime_HMS (read_form s); Ok (time_gt t thr))) ∧
  ((∀ c', c' ∈ cols → r_times row !! c' = Some None) →
   check_night_meal row cols thr = Ok false ∧
   ∀ (date month day : string) (rules : Rules) (st : State),
     night_meal_threshold rules = thr →
     ∃ st', record_row row date month day cols rules st = Ok st' ∧
            night_meal_data st' = night_meal_data st).
Proof.
  split.
  - apply check_night_meal_last.
  - intros Hnull.
    pose proof (check_night_meal_all_null row cols thr Hnull) as Hf.
    split; [exact Hf|].
    intros date month day rules st <-. unfold record_row. rewrite Hf.
    eexists. split; reflexivity.
Qed.

Lemma check_night_meal_last_non_null_witness :
  check_night_meal
    (Examples.sample_row "A1" "2024-01-05" (Some "23:10:00") (Some "21:00:00") None)
    Examples.three_columns (mk_time 22 0 0) = Ok false ∧
  check_night_meal
    (Examples.sample_row "A1" "2024-01-05" None None None)
    Examples.three_columns (mk_time 22 0 0) = Ok false.
Proof.
  split.
  - refine (eq_trans (proj1 (check_night_meal_last_non_null
      (Examples.sample_row "A1" "2024-01-05" (Some "23:10:00") (Some "21:00:00") None)
      ["刷卡時間1"] ["刷卡時間3"] [] "刷卡時間2" "21:00:00" (mk_time 22 0 0)) _ _) _).
    + vm_compute. reflexivity.
    + intros c' Hc'. apply list_elem_of_singleton in Hc' as ->.
      vm_compute. reflexivity.
    + vm_compute. reflexivity.
  - refine (proj1 (proj2 (check_night_meal_last_non_null
      (Examples.sample_row "A1" "2024-01-05" None None None)
      [] [] Examples.three_columns "" "" (mk_time 22 0 0)) _)).
    intros c' Hc'. unfold Examples.three_columns in Hc'.
    repeat (apply elem_of_cons in Hc' as [->|Hc']; [vm_compute; reflexivity|]).
    by apply elem_of_nil in Hc'.
Defined.

(** ** The loop of [process_night_meal_data] *)

Section LoopFacts.
Import Strptime NightMeal Spec.

Lemma found_raises {A} (p : parser A) (s : string) (e : exn) :
  found p s = Raise e → e = ValueError.
Proof.
  unfold found. destruct (p s) as [|[a r] tl]; [congruence|].
  destruct r; congruence.
Qed.

Lemma strptime_Ymd_raises (s : string) (e : exn) :
  strptime_Ymd s = Raise e → e = ValueError.
Proof.
  unfold strptime_Ymd.
  match goal with |- context [found ?p s] =>
    destruct (found p s) as [[[y m] d]|e'] eqn:F end; simpl.
  - unfold check_date_fields. destruct (_ && _); congruence.
  - apply found_raises in F. congruence.
Qed.

Lemma Csv_body_with (cols : list string) (rules : Rules) (row : Row) (st : State) :
  Csv.body cols rules row st = body_with slices cols rules row st.
Proof. unfold Csv.body, body_with, slices. by destruct (r_date row). Qed.

Lemma Html_body_with (cols : list string) (rules : Rules) (row : Row) (st : State) :
  Html.body cols rules row st = body_with parsed cols rules row st.
Proof.
  unfold Html.body, body_with, parsed. destruct (r_date row) as [d|]; [|done].
  destruct (strptime_Ymd d) as [dt|e] eqn:E; [done|].
  by rewrite (strptime_Ymd_raises d e E).
Qed.

Lemma for_each_ext (f g : Row → State → result State) (data : list Row) (st : State) :
  (∀ row st, f row st = g row st) → for_each f data st = for_each g data st.
Proof.
  intros H. revert st. induction data as [|row data IH]; intros st; [done|].
  simpl. rewrite H. destruct (g row st); simpl; [apply IH|done].
Qed.

Lemma touch_lookup_total (a a' : cell) (pd : gmap cell (gset string)) :
  touch a pd !!! a' = pd !!! a'.
Proof.
  unfold touch. destruct (pd !! a) eqn:E; [done|].
  rewrite !lookup_total_alt. destruct (decide (a = a')) as [<-|Hne].
  - by rewrite lookup_insert_eq, E.
  - by rewrite lookup_insert_ne.
Qed.

Section Dedup.
Context (extract : string → option (string * string)).
Context (cols : list string) (rules : Rules).

Local Abbreviation elig := (eligible extract cols rules).

Lemma no_earlier_true (before : list Row) (r : Row) :
  no_earlier elig before r = true ↔
  ∀ r', r' ∈ before → elig r' = true → key r' ≠ key r.
Proof.
  unfold no_earlier. rewrite forallb_forall. split.
  - intros H r' Hin He Hk. apply list_elem_of_In in Hin.
    specialize (H r' Hin). rewrite He in H. simpl in H.
    apply negb_true_iff, bool_decide_eq_false in H. done.
  - intros H r' Hin. apply list_elem_of_In in Hin.
    destruct (elig r') eqn:He; [|done]. simpl.
    apply negb_true_iff, bool_decide_eq_false. by apply H.
Qed.

Lemma eligible_inv (r : Row) :
  elig r = true →
  ∃ date md, r_date r = Some date ∧ extract date = Some md ∧
    check_night_meal r cols (night_meal_threshold rules) = Ok true.
Proof.
  unfold eligible, month_day. intros H. apply andb_prop in H as [H1 H2].
  apply bool_decide_eq_true in H1 as [md Hmd].
  destruct (r_date r) as [date|]; [|done]. simpl in Hmd.
  exists date, md. split; [done|]. split; [done|].
  destruct (check_night_meal _ _ _) as [[]|]; done.
Qed.

(** One turn of the loop: the entry it adds, and the dates it leaves. *)
Lemma body_with_step (before : list Row) (row : Row) (st st' : State) :
  seen_inv elig before (processed_dates st) →
  body_with extract cols rules row st = Ok st' →
  night_meal_data st'
  = night_meal_data st ++
    omap (entry extract)
      (if elig row && no_earlier elig before row then [row] else []) ∧
  seen_inv elig (before ++ [row]) (processed_dates st').
Proof.
  intros Hinv. unfold body_with.
  destruct (r_date row) as [date|] eqn:Hd; [|discriminate].
  destruct (extract date) as [[mo da]|] eqn:He; cycle 1.
  { intros [= <-].
    assert (elig row = false) as Hel.
    { unfold eligible, month_day. rewrite Hd. simpl. rewrite He.
      rewrite bool_decide_eq_false_2; [done|]. by intros [? ?]. }
    rewrite Hel. simpl. rewrite app_nil_r. split; [done|].
    intros a d. rewrite (Hinv a d). split.
    - intros (r & Hin & ?). exists r. split; [apply elem_of_app; by left|done].
    - intros (r & Hin & Her & ?). exists r. split; [|done].
      apply elem_of_app in Hin as [Hin|Hin]; [done|].
      apply list_elem_of_singleton in Hin as ->. congruence. }
  unfold record_row.
  destruct (check_night_meal row cols (night_meal_threshold rules))
    as [b|e] eqn:Hc; simpl; [|discriminate].
  assert (elig row = b) as Hel.
  { unfold eligible, month_day. rewrite Hd. simpl. rewrite He, Hc.
    rewrite bool_decide_eq_true_2 by eauto. by destruct b. }
  rewrite touch_lookup_total.
  destruct b; simpl; cycle 1.
  { intros [= <-]. simpl. rewrite Hel. simpl. rewrite app_nil_r.
    split; [done|]. intros a d. rewrite ?touch_lookup_total, (Hinv a d). split.
    - intros (r & Hin & ?). exists r. split; [apply elem_of_app; by left|done].
    - intros (r & Hin & Her & ?). exists r. split; [|done].
      apply elem_of_app in Hin as [Hin|Hin]; [done|].
      apply list_elem_of_singleton in Hin as ->. congruence. }
  rewrite Hel. simpl. case_bool_decide as Hseen; intros [= <-]; simpl.
  - (* the date is new for the account: the entry is added *)
    assert (no_earlier elig before row = true) as ->.
    { apply no_earlier_true. intros r' Hin Her Hk. apply Hseen.
      apply Hinv. exists r'. unfold key in Hk. injection Hk as Ha Hdt.
      split; [done|]. split; [done|]. split; congruence. }
    simpl. unfold entry, month_day. rewrite Hd. simpl. rewrite He. simpl.
    split; [done|]. intros a d.
    destruct (decide (r_account row = a)) as [<-|Hne].
    + rewrite lookup_total_insert_eq, elem_of_union, elem_of_singleton.
      rewrite ?touch_lookup_total, (Hinv (r_account row) d). split.
      * intros [->|(r & Hin & ?)].
        -- exists row. split; [|done].
           apply elem_of_app; right. by apply list_elem_of_singleton.
        -- exists r. split; [apply elem_of_app; by left|done].
      * intros (r & Hin & Her & Ha & Hdt).
        apply elem_of_app in Hin as [Hin|Hin]; [right; by exists r|].
        apply list_elem_of_singleton in Hin as ->. left. congruence.
    + rewrite lookup_total_insert_ne by done.
      rewrite ?touch_lookup_total, (Hinv a d). split.
      * intros (r & Hin & ?). exists r. split; [apply elem_of_app; by left|done].
      * intros (r & Hin & Her & Ha & Hdt). exists r. split; [|done].
        apply elem_of_app in Hin as [Hin|Hin]; [done|].
        apply list_elem_of_singleton in Hin as ->. congruence.
  - (* the date was recorded before: nothing is added *)
    assert (no_earlier elig before row = false) as ->.
    { apply not_true_is_false. intros Hne.
      apply Hinv in Hseen as (r & Hin & Her & Ha & Hdt).
      apply (proj1 (no_earlier_true before row) Hne r Hin Her).
      unfold key. congruence. }
    simpl. rewrite app_nil_r. split; [done|]. intros a d.
    rewrite ?touch_lookup_total, (Hinv a d). split.
    + intros (r & Hin & ?). exists r. split; [apply elem_of_app; by left|done].
    + intros (r & Hin & Her & Ha & Hdt).
      apply elem_of_app in Hin as [Hin|Hin]; [by exists r|].
      apply list_elem_of_singleton in Hin as ->.
      apply Hinv. subst a. congruence.
Qed.

(** The whole loop: what it appends is the first occurrences. *)
Lemma for_each_first_wins (data before : list Row) (st st' : State) :
  seen_inv elig before (processed_dates st) →
  for_each (body_with extract cols rules) data st = Ok st' →
  night_meal_data st'
  = night_meal_data st ++ omap (entry extract) (first_wins elig before data).
Proof.
  revert before st. induction data as [|row data IH]; intros before st Hinv.
  - intros [= <-]. simpl. by rewrite app_nil_r.
  - simpl. intros H. apply bind_Ok in H as (st1 & Hbody & Hrest).
    destruct (body_with_step before row st st1 Hinv Hbody) as [Hdata Hinv1].
    rewrite (IH _ _ Hinv1 Hrest), Hdata, omap_app, app_assoc. done.
Qed.

Lemma first_wins_spec (data before : list Row) :
  NoDup (key <$> first_wins elig before data) ∧
  Forall (λ r, elig r = true ∧
               ∀ r', r' ∈ before → elig r' = true → key r' ≠ key r)
    (first_wins elig before data).
Proof.
  revert before. induction data as [|r data IH]; intros before; simpl.
  { split; constructor. }
  destruct (IH (before ++ [r])) as [Hnd Hall].
  assert (Forall (λ r0, elig r0 = true ∧
                        ∀ r', r' ∈ before → elig r' = true → key r' ≠ key r0)
            (first_wins elig (before ++ [r]) data)) as Hall'.
  { eapply Forall_impl; [exact Hall|]. intros r0 [He Hk]. split; [done|].
    intros r' Hin. apply Hk. apply elem_of_app. by left. }
  destruct (elig r && no_earlier elig before r) eqn:Hkeep; simpl; [|done].
  apply andb_prop in Hkeep as [He Hno]. split.
  - apply NoDup_cons. split; [|done]. intros Hin.
    apply list_elem_of_fmap in Hin as (r0 & Hk & Hin).
    rewrite Forall_forall in Hall. destruct (Hall r0 Hin) as [_ Hne].
    apply (Hne r); [|done|done]. apply elem_of_app. right.
    by apply list_elem_of_singleton.
  - constructor; [|done]. split; [done|]. by apply no_earlier_true.
Qed.

Lemma omap_entry_length (l : list Row) :
  Forall (λ r, elig r = true) l → length (omap (entry extract) l) = length l.
Proof.
  induction 1 as [|r l He _ IH]; [done|]. simpl.
  destruct (eligible_inv r He) as (date & md & Hd & Hmd & _).
  unfold entry, month_day. rewrite Hd. simpl. rewrite Hmd. simpl.
  by rewrite <- IH.
Qed.

Lemma seen_inv_initial : seen_inv elig [] (processed_dates initial).
Proof.
  intros a d. simpl. rewrite lookup_total_empty. split.
  - intros H. by apply not_elem_of_empty in H.
  - intros (r & Hin & _). by apply elem_of_nil in Hin.
Qed.

(** The result of a whole traversal. *)
Lemma traversal_first_wins (data : list Row) (st : State) :
  for_each (body_with extract cols rules) data initial = Ok st →
  night_meal_data st = omap (entry extract) (first_wins elig [] data) ∧
  length (night_meal_data st) = length (first_wins elig [] data) ∧
  NoDup (key <$> first_wins elig [] data).
Proof.
  intros H.
  pose proof (for_each_first_wins data [] initial st seen_inv_initial H) as Hd.
  simpl in Hd. destruct (first_wins_spec data []) as [Hnd Hall].
  split; [done|]. split; [|done]. rewrite Hd. apply omap_entry_length.
  eapply Forall_impl; [exact Hall|]. by intros r [? _].
Qed.

End Dedup.

End LoopFacts.

(** C3: in the output of either evaluator there is at most one entry for an
    account and a date, and it is the one of the first eligible row met in
    the traversal: the output is, entry by entry, the list of the rows of
    the ordered result that are eligible and have no eligible row with the
    same account and date before them, and no two of these rows share
    account and date. *)
Theorem first_occurrence_wins (conn : list Row) (class_name : string)
    (rules : Rules) (time_columns : list string) :
  (∀ out,
     Csv.process_night_meal_data conn class_name rules time_columns = Ok out →
     let kept := first_wins (eligible slices time_columns rules) []
                   (select_class conn class_name) in
     out = omap (entry slices) kept ∧ length out = length kept ∧
     NoDup (key <$> kept)) ∧
  (∀ out,
     Html.process_night_meal_data conn class_name rules time_columns = Ok out →
     let kept := first_wins (eligible parsed time_columns rules) []
                   (select_class conn class_name) in
     out = omap (entry parsed) kept ∧ length out = length kept ∧
     NoDup (key <$> kept)).
Proof.
  split; intros out H kept.
  - unfold Csv.process_night_meal_data in H.
    apply bind_Ok in H as (st & Hloop & [= <-]).
    rewrite (for_each_ext _ (body_with slices time_columns rules)) in Hloop
      by apply Csv_body_with.
    by apply traversal_first_wins.
  - unfold Html.process_night_meal_data in H.
    apply bind_Ok in H as (st & Hloop & [= <-]).
    rewrite (for_each_ext _ (body_with parsed time_columns rules)) in Hloop
      by apply Html_body_with.
    by apply traversal_first_wins.
Qed.

Lemma first_occurrence_wins_witness :
  let out := [mk_entry (Some "C1") (Some "A1") (Some "王") "01" "05"] in
  Csv.process_night_meal_data Examples.dup_table "早班" Examples.rules_2200
    Examples.three_columns = Ok out ∧
  Html.process_night_meal_data Examples.dup_table "早班" Examples.rules_2200
    Examples.three_columns = Ok out ∧
  NoDup (key <$> first_wins
           (eligible slices Examples.three_columns Examples.rules_2200) []
           (select_class Examples.dup_table "早班")) ∧
  NoDup (key <$> first_wins
           (eligible parsed Examples.three_columns Examples.rules_2200) []
           (select_class Examples.dup_table "早班")).
Proof.
  intros out.
  assert (Csv.process_night_meal_data Examples.dup_table "早班"
            Examples.rules_2200 Examples.three_columns = Ok out) as Hc
    by (vm_compute; reflexivity).
  assert (Html.process_night_meal_data Examples.dup_table "早班"
            Examples.rules_2200 Examples.three_columns = Ok out) as Hh
    by (vm_compute; reflexivity).
  destruct (first_occurrence_wins Examples.dup_table "早班"
              Examples.rules_2200 Examples.three_columns) as [Tc Th].
  split; [exact Hc|]. split; [exact Hh|]. split.
  - exact (proj2 (proj2 (Tc out Hc))).
  - exact (proj2 (proj2 (Th out Hh))).
Defined.

(** ** Parsing a canonical date *)

Section DateFacts.
Import Sqlite Strptime NightMeal Spec.

Lemma starts_seq {A B} (p : parser A) (k : A → parser B) (s r r' : string)
    (a : A) (b : B) :
  starts p s a r → starts (k a) r b r' → starts (and_then p k) s b r'.
Proof.
  intros [tl Hp] [tl' Hk]. unfold starts, and_then. rewrite Hp. simpl.
  rewrite Hk. simpl. eauto.
Qed.

Lemma starts_pure {A} (a : A) (s : string) : starts (pure a) s a s.
Proof. by exists []. Qed.

Lemma starts_lit (c : ascii) (r : string) : starts (lit c) (String c r) tt r.
Proof. exists []. unfold lit. by rewrite Ascii.eqb_refl. Qed.

Lemma starts_found {A} (p : parser A) (s : string) (a : A) :
  starts p s a EmptyString → found p s = Ok a.
Proof. intros [tl H]. unfold found. by rewrite H. Qed.

Lemma starts_two_digits (c1 c2 : ascii) (r : string) :
  is_digit c1 = true → is_digit c2 = true →
  starts (two 0 9 0 9) (String c1 (String c2 r)) (10 * dv c1 + dv c2)%nat r.
Proof.
  intros H1 H2. exists []. unfold two.
  by rewrite !in_range_digit.
Qed.

Lemma starts_re_Y (y1 y2 y3 y4 : ascii) (r : string) :
  is_digit y1 = true → is_digit y2 = true →
  is_digit y3 = true → is_digit y4 = true →
  starts re_Y (String y1 (String y2 (String y3 (String y4 r))))
    (100 * (10 * dv y1 + dv y2) + (10 * dv y3 + dv y4))%nat r.
Proof.
  intros H1 H2 H3 H4. unfold re_Y.
  eapply starts_seq; [by apply starts_two_digits|].
  eapply starts_seq; [by apply starts_two_digits|].
  apply starts_pure.
Qed.

Lemma starts_re_m (m1 m2 : ascii) (r : string) :
  is_digit m1 = true → is_digit m2 = true →
  (1 <=? 10 * dv m1 + dv m2)%nat = true →
  (10 * dv m1 + dv m2 <=? 12)%nat = true →
  starts re_m (String m1 (String m2 r)) (10 * dv m1 + dv m2)%nat r.
Proof.
  intros H1 H2 Hlo Hhi. digit_cases H1; digit_cases H2;
    vm_compute in Hlo, Hhi; try discriminate;
    eexists; vm_compute; reflexivity.
Qed.

Lemma starts_re_d (d1 d2 : ascii) (r : string) :
  is_digit d1 = true → is_digit d2 = true →
  (1 <=? 10 * dv d1 + dv d2)%nat = true →
  (10 * dv d1 + dv d2 <=? 31)%nat = true →
  starts re_d (String d1 (String d2 r)) (10 * dv d1 + dv d2)%nat r.
Proof.
  intros H1 H2 Hlo Hhi. digit_cases H1; digit_cases H2;
    vm_compute in Hlo, Hhi; try discriminate;
    eexists; vm_compute; reflexivity.
Qed.

Lemma fmt02_two_digits (c1 c2 : ascii) :
  is_digit c1 = true → is_digit c2 = true →
  fmt02 (10 * dv c1 + dv c2) = String c1 (String c2 EmptyString).
Proof.
  intros H1 H2. digit_cases H1; digit_cases H2; vm_compute; reflexivity.
Qed.

Lemma days_in_month_le_31 (y m : nat) : (days_in_month y m ≤ 31)%nat.
Proof.
  unfold days_in_month.
  repeat (destruct m as [|m]; [try destruct (is_leap y); lia|]). lia.
Qed.

(** On a canonical date the parse succeeds, and the month and day it
    formats are the slices of the string. *)
Lemma parsed_canonical (s : string) :
  valid_iso_date s = true → parsed s = slices s.
Proof.
  intros H. unfold valid_iso_date in H.
  do 10 (destruct s as [|? s]; [discriminate H|]).
  destruct s; [|discriminate H].
  repeat match type of H with
         | (_ && _) = true => apply andb_prop in H as [H ?]
         end.
  repeat match goal with
         | E : Ascii.eqb _ _ = true |- _ => apply Ascii.eqb_eq in E; subst
         end.
  rename a into y1, a0 into y2, a1 into y3, a2 into y4, a4 into m1,
    a5 into m2, a7 into d1, a8 into d2.
  assert (strptime_Ymd
            (String y1 (String y2 (String y3 (String y4 (String "-"
               (String m1 (String m2 (String "-" (String d1 (String d2
                  EmptyString))))))))))
          = Ok (mk_date (100 * (10 * dv y1 + dv y2) + (10 * dv y3 + dv y4))
                  (10 * dv m1 + dv m2) (10 * dv d1 + dv d2))) as Hparse.
  { unfold strptime_Ymd.
    erewrite starts_found; cycle 1.
    { eapply starts_seq; [by apply starts_re_Y|].
      eapply starts_seq; [apply starts_lit|].
      eapply starts_seq; [by apply starts_re_m|].
      eapply starts_seq; [apply starts_lit|].
      eapply starts_seq; [|apply starts_pure].
      apply starts_re_d; try done.
      apply Nat.leb_le.
      pose proof (days_in_month_le_31
                    (100 * (10 * dv y1 + dv y2) + (10 * dv y3 + dv y4))
                    (10 * dv m1 + dv m2)).
      match goal with E : (_ <=? days_in_month _ _)%nat = true |- _ =>
        apply Nat.leb_le in E end. lia. }
    unfold mbind, result_bind. cbv beta iota. unfold check_date_fields.
    assert ((Z.of_nat (100 * (10 * dv y1 + dv y2) + (10 * dv y3 + dv y4))
             <=? 9999)%Z = true) as ->.
    { apply Z.leb_le.
      assert (dv y1 ≤ 9)%nat by (by apply dv_bound).
      assert (dv y2 ≤ 9)%nat by (by apply dv_bound).
      assert (dv y3 ≤ 9)%nat by (by apply dv_bound).
      assert (dv y4 ≤ 9)%nat by (by apply dv_bound). lia. }
    repeat match goal with E : _ = true |- _ => rewrite E; clear E end.
    reflexivity. }
  unfold parsed, slices. rewrite Hparse. cbn [month day substring].
  by rewrite !fmt02_two_digits.
Qed.

Lemma body_agree (cols : list string) (rules : Rules) (row : Row) (st : State) :
  (∀ d, r_date row = Some d → valid_iso_date d = true) →
  Html.body cols rules row st = Csv.body cols rules row st.
Proof.
  intros Hvalid. rewrite Html_body_with, Csv_body_with. unfold body_with.
  destruct (r_date row) as [d|]; [|done].
  by rewrite parsed_canonical by auto.
Qed.

Lemma for_each_agree (cols : list string) (rules : Rules) (data : list Row)
    (st : State) :
  Forall (λ row, ∀ d, r_date row = Some d → valid_iso_date d = true) data →
  for_each (Html.body cols rules) data st
  = for_each (Csv.body cols rules) data st.
Proof.
  intros Hall. revert st. induction Hall as [|row data Hrow _ IH]; intros st.
  - done.
  - simpl. rewrite (body_agree cols rules row st Hrow).
    destruct (Csv.body cols rules row st) as [st'|e]; simpl; [apply IH|done].
Qed.

Lemma select_class_elem (conn : list Row) (class_name : string) (r : Row) :
  r ∈ select_class conn class_name → r ∈ conn ∧ r_class r = Some class_name.
Proof.
  unfold select_class. rewrite merge_sort_Permutation.
  intros H. apply list_elem_of_filter in H as [? ?]. done.
Qed.

End DateFacts.

(** C10: on a table whose dates are all canonical [YYYY-MM-DD] dates, the
    evaluator that parses the date and the one that slices it give the same
    result, list of entries or exception, for the same class, rules and
    time columns. *)
Theorem evaluators_agree (conn : list Row) (class_name : string)
    (rules : Rules) (time_columns : list string) :
  (∀ r d, r ∈ conn → r_date r = Some d → valid_iso_date d = true) →
  Html.process_night_meal_data conn class_name rules time_columns
  = Csv.process_night_meal_data conn class_name rules time_columns.
Proof.
  intros Hvalid.
  unfold Html.process_night_meal_data, Csv.process_night_meal_data.
  rewrite for_each_agree; [done|].
  apply Forall_forall. intros r Hr d Hd.
  apply select_class_elem in Hr as [Hr _]. by apply (Hvalid r d).
Qed.

Lemma evaluators_agree_witness :
  Html.process_night_meal_data Examples.dup_table "早班" Examples.rules_2200
    Examples.three_columns
  = Csv.process_night_meal_data Examples.dup_table "早班" Examples.rules_2200
      Examples.three_columns.
Proof.
  apply evaluators_agree. intros r d Hr Hd.
  unfold Examples.dup_table in Hr.
  repeat (apply elem_of_cons in Hr as [->|Hr];
          [injection Hd as <-; vm_compute; reflexivity|]).
  by apply elem_of_nil in Hr.
Defined.

(** ** The pivot of [integrate_data] *)

Section IntegrateFacts.
Import Integrate Spec.

Lemma py_split_no_sep (sep : ascii) (s : string) :
  has_char sep s = false → py_split sep s = [s].
Proof.
  induction s as [|c s IH]; [done|]. simpl. intros H.
  apply orb_false_elim in H as [Hc Hs]. rewrite Hc, (IH Hs). done.
Qed.

Lemma py_split_app_sep (sep : ascii) (x rest : string) :
  has_char sep x = false →
  py_split sep (x +:+ String sep rest) = x :: py_split sep rest.
Proof.
  induction x as [|c x IH]; simpl.
  - intros _. by rewrite Ascii.eqb_refl.
  - intros H. apply orb_false_elim in H as [Hc Hx].
    rewrite Hc, (IH Hx). done.
Qed.

(** Splitting what [GROUP_CONCAT] joined gives the values back when none of
    them holds a comma. *)
Lemma py_split_join (vs : list string) :
  vs ≠ [] → Forall (λ v, has_char "," v = false) vs →
  py_split "," (join "," vs) = vs.
Proof.
  intros Hne Hall. induction Hall as [|v vs Hv Hvs IH]; [done|].
  destruct vs as [|v' vs].
  - simpl. by apply py_split_no_sep.
  - change (join "," (v :: v' :: vs))
      with (v +:+ String "," (join "," (v' :: vs))).
    rewrite py_split_app_sep by done. by rewrite IH.
Qed.

Lemma left_join_fst (punch : list Punch) (shift_class : list Shift)
    (j : Punch * option Shift) :
  j ∈ left_join punch shift_class → j.1 ∈ punch.
Proof.
  unfold left_join. intros H. apply list_elem_of_bind in H as (p & Hj & Hp).
  destruct (filter _ shift_class) as [|s0 ms].
  - apply list_elem_of_singleton in Hj as ->. done.
  - apply list_elem_of_fmap in Hj as (s & -> & _). done.
Qed.

Lemma group_by_elem (joined g : list (Punch * option Shift)) :
  g ∈ group_by joined → g ≠ [] ∧ ∀ j, j ∈ g → j ∈ joined.
Proof.
  unfold group_by. intros H. apply list_elem_of_fmap in H as (k & -> & Hk).
  apply elem_of_remove_dups, list_elem_of_fmap in Hk as (j & -> & Hj).
  split.
  - intros Hnil. assert (j ∈ filter (λ j0, group_key j0 = group_key j) joined)
      as Hin by (by apply list_elem_of_filter).
    rewrite Hnil in Hin. by apply elem_of_nil in Hin.
  - intros j' Hj'. by apply list_elem_of_filter in Hj' as [_ ?].
Qed.

Lemma omap_id_fmap {A B} (f : A → option B) (l : list A) :
  omap id (f <$> l) = omap f l.
Proof. induction l as [|x l IH]; [done|]. csimpl. by rewrite IH. Qed.

Lemma GROUP_CONCAT_times (g : list (Punch * option Shift)) :
  GROUP_CONCAT ((λ j, p_time j.1) <$> g)
  = match punch_times g with
    | [] => None
    | _ => Some (join "," (punch_times g))
    end.
Proof.
  unfold GROUP_CONCAT, punch_times. rewrite omap_id_fmap.
  by destruct (omap _ g).
Qed.

(** What the query hands to the pivot for a group of punches. *)
Lemma cons_row_group (vs : list string) :
  Forall (λ v, has_char "," v = false) vs →
  cons_row (match vs with [] => None | _ => Some (join "," vs) end)
  = match vs with [] => [None] | _ => Some <$> vs end.
Proof.
  intros Hall. destruct vs as [|v vs]; [done|].
  unfold cons_row. by rewrite py_split_join.
Qed.

Lemma pad_padded (w : nat) (vs : list string) :
  (1 ≤ w)%nat →
  pad w (match vs with [] => [None] | _ => Some <$> vs end) = padded w vs.
Proof.
  intros Hw. unfold pad, padded. destruct vs as [|v vs].
  - simpl. destruct w as [|w]; [lia|]. simpl. by rewrite Nat.sub_0_r.
  - by rewrite length_fmap.
Qed.

Lemma lookup_padded (w : nat) (vs : list string) (i : nat) :
  mjoin (padded w vs !! i) = vs !! i.
Proof.
  unfold padded. destruct (decide (i < length vs)%nat) as [Hlt|Hge].
  - rewrite lookup_app_l by (by rewrite length_fmap).
    rewrite list_lookup_fmap. by destruct (vs !! i).
  - rewrite lookup_app_r by (rewrite length_fmap; lia).
    rewrite (lookup_ge_None_2 vs i) by lia.
    destruct (replicate _ _ !! _) as [c|] eqn:E; [|done].
    apply lookup_replicate in E as [-> _]. done.
Qed.

Lemma take_columns_padded (w n : nat) (vs : list string) :
  (length vs ≤ n)%nat →
  take_columns (seq 0 n) (padded w vs) = padded n vs.
Proof.
  intros Hle. unfold take_columns. apply list_eq. intros i.
  rewrite list_lookup_fmap.
  destruct (decide (i < n)%nat) as [Hlt|Hge].
  - rewrite lookup_seq_lt by done. simpl. rewrite lookup_padded.
    unfold padded. destruct (decide (i < length vs)%nat) as [Hi|Hi].
    + rewrite lookup_app_l by (by rewrite length_fmap).
      rewrite list_lookup_fmap. destruct (vs !! i) eqn:E; [done|].
      apply lookup_ge_None in E. lia.
    + rewrite lookup_app_r by (rewrite length_fmap; lia).
      rewrite length_fmap, lookup_replicate_2 by lia.
      by rewrite (lookup_ge_None_2 vs i) by lia.
  - rewrite lookup_seq_ge by lia. simpl. symmetry.
    apply lookup_ge_None. unfold padded.
    rewrite length_app, length_fmap, length_replicate. lia.
Qed.

Lemma length_padded (n : nat) (vs : list string) :
  (length vs ≤ n)%nat → length (padded n vs) = n.
Proof.
  intros H. unfold padded. rewrite length_app, length_fmap, length_replicate.
  lia.
Qed.

Lemma filter_seq_lt (P : nat → Prop) `{∀ i, Decision (P i)} (w n : nat) :
  (n ≤ w)%nat → (∀ i, P i ↔ (i < n)%nat) →
  filter P (seq 0 w) = seq 0 n.
Proof.
  intros Hle HP.
  assert (filter P (seq 0 w) = seq 0 (n `min` w)) as ->;
    [|f_equal; lia].
  clear Hle. induction w as [|w IH].
  - by rewrite Nat.min_0_r.
  - rewrite seq_S, filter_app, IH. simpl.
    destruct (decide (w < n)%nat) as [Hlt|Hge].
    + rewrite filter_cons_True by (by apply HP). rewrite filter_nil.
      replace (n `min` w) with w by lia.
      replace (n `min` S w) with (S w) by lia. by rewrite seq_S.
    + rewrite filter_cons_False by (rewrite HP; lia).
      rewrite filter_nil, app_nil_r. f_equal. lia.
Qed.

Lemma max_list_le (ns : list nat) (m : nat) :
  (∀ n, n ∈ ns → (n ≤ m)%nat) → (max_list ns ≤ m)%nat.
Proof.
  induction ns as [|n ns IH]; intros H; [simpl; lia|].
  assert (n ≤ m)%nat by (apply H; left).
  assert (max_list ns ≤ m)%nat by (apply IH; intros ??; apply H; by right).
  change (max_list (n :: ns)) with (n `max` max_list ns). lia.
Qed.

Lemma max_list_lt_elem (ns : list nat) (i : nat) :
  (i < max_list ns)%nat → ∃ n, n ∈ ns ∧ (i < n)%nat.
Proof.
  intros Hlt. destruct ns as [|n0 ns]; [simpl in Hlt; lia|].
  exists (max_list (n0 :: ns)). split; [|done]. by apply max_list_elem_of.
Qed.

(** The pivot, on the punch times of the groups: the columns kept are the
    first [N], [N] the largest number of times in a group, and every row
    is its times filled up with nulls. *)
Lemma pivot_padded (vss : list (list string)) :
  Forall (Forall (λ v, has_char "," v = false)) vss →
  let series :=
    (λ vs, match vs with [] => None | _ => Some (join "," vs) end) <$> vss in
  let N := max_list (length <$> vss) in
  kept_columns (split_expand series).1 (split_expand series).2 = seq 0 N ∧
  take_columns (seq 0 N) <$> (split_expand series).2 = padded N <$> vss.
Proof.
  intros Hfree series N. unfold split_expand. cbn [fst snd].
  set (crow := λ vs : list string,
         match vs with [] => [None] | _ => Some <$> vs end : list cell).
  assert (cons_row <$> series = crow <$> vss) as ->.
  { unfold series. rewrite <- list_fmap_compose.
    apply Forall_fmap_ext_1. eapply Forall_impl; [exact Hfree|].
    intros vs Hvs. simpl. by apply cons_row_group. }
  set (w := max_list (length <$> (crow <$> vss))).
  assert (∀ vs, vs ∈ vss → (1 ≤ w ∧ length vs ≤ w)%nat) as Hw.
  { intros vs Hvs.
    assert (length (crow vs) ≤ w)%nat as Hle.
    { apply max_list_elem_of_le. apply list_elem_of_fmap.
      exists (crow vs). split; [done|]. apply list_elem_of_fmap. eauto. }
    destruct vs as [|v vs]; simpl in Hle; [simpl; lia|].
    rewrite length_fmap in Hle. simpl. lia. }
  assert (N ≤ w)%nat as HNw.
  { apply max_list_le. intros n Hn.
    apply list_elem_of_fmap in Hn as (vs & -> & Hvs). by apply Hw. }
  assert (pad w <$> (crow <$> vss) = padded w <$> vss) as ->.
  { rewrite <- list_fmap_compose. apply Forall_fmap_ext_1.
    apply Forall_forall. intros vs Hvs. simpl. apply pad_padded.
    by apply (Hw vs). }
  split.
  - unfold kept_columns. apply filter_seq_lt; [done|]. intros i.
    rewrite Exists_exists. split.
    + intros (r & Hr & Hsome).
      apply list_elem_of_fmap in Hr as (vs & -> & Hvs).
      rewrite lookup_padded in Hsome. apply lookup_lt_is_Some in Hsome.
      assert (length vs ≤ N)%nat; [|lia].
      apply max_list_elem_of_le. apply list_elem_of_fmap. eauto.
    + intros Hi. apply max_list_lt_elem in Hi as (n & Hn & Hi).
      apply list_elem_of_fmap in Hn as (vs & -> & Hvs).
      exists (padded w vs). split; [apply list_elem_of_fmap; eauto|].
      rewrite lookup_padded. by apply lookup_lt_is_Some.
  - rewrite <- list_fmap_compose. apply Forall_fmap_ext_1.
    apply Forall_forall. intros vs Hvs. simpl. apply take_columns_padded.
    apply max_list_elem_of_le. apply list_elem_of_fmap. eauto.
Qed.

(** The query gives one row for every group, with the group's times joined. *)
Lemma query_groups (gs : list (list (Punch * option Shift))) :
  Forall (λ g, g ≠ []) gs →
  length (omap aggregate gs) = length gs ∧
  g_times <$> omap aggregate gs
  = (λ g, match punch_times g with
          | [] => None
          | _ => Some (join "," (punch_times g))
          end) <$> gs.
Proof.
  induction 1 as [|g gs Hg _ [IH1 IH2]]; [done|].
  destruct g as [|j g]; [done|]. csimpl. split; [by rewrite IH1|].
  rewrite IH2. f_equal. apply (GROUP_CONCAT_times (j :: g)).
Qed.

Lemma fmap_i_times_zip (xs : list Grouped) (tss : list (list cell)) :
  length xs = length tss →
  i_times <$> zip_with (λ g ts, mk_integrated (g_account g) (g_card g)
                                  (g_name g) (g_date g) (g_class g) ts) xs tss
  = tss.
Proof.
  revert tss. induction xs as [|x xs IH]; intros [|ts tss] Hlen;
    try done. simpl in *. f_equal. apply IH. lia.
Qed.

End IntegrateFacts.

Import Integrate.

(** C7, as the description states it, fails: a punch whose time holds a
    comma is split into two columns, so that the width is 2 for a largest
    punch count of 1. *)
Lemma pivot_width_comma :
  let punch := [mk_punch (Some "A1") (Some "2024-01-05") (Some "08,00")] in
  length (time_labels (integrate_data punch [])) = 2%nat ∧
  max_list (punch_count <$> group_by (left_join punch [])) = 1%nat ∧
  length (time_labels (integrate_data punch []))
  ≠ max_list (punch_count <$> group_by (left_join punch [])).
Proof.
  vm_compute. split; [reflexivity|]. split; [reflexivity|discriminate].
Qed.

(** C7 (as the code has it): when no punch time holds a comma, the number
    [N] of time columns of the integrated table is the largest number of
    punch times in a group of the join by account, date and class; the
    table has one row for every row of the query and for every group; the
    times of every row are the times of its group, in order, followed by
    nulls up to [N] columns; and every row has [N] time cells. *)
Theorem pivot_width_is_max_punch_count (punch : list Punch)
    (shift_class : list Shift) :
  (∀ p s, p ∈ punch → p_time p = Some s → has_char "," s = false) →
  let groups := group_by (left_join punch shift_class) in
  let N := max_list (punch_count <$> groups) in
  let f := integrate_data punch shift_class in
  time_labels f = time_label <$> seq 0 N ∧
  length (time_labels f) = N ∧
  length (rows f) = length (query_integrate punch shift_class) ∧
  length (rows f) = length groups ∧
  i_times <$> rows f
  = (λ g, (Some <$> punch_times g) ++ replicate (N - punch_count g) None)
      <$> groups ∧
  Forall (λ r, length (i_times r) = N) (rows f).
Proof.
  intros Hfree groups N f.
  assert (Forall (λ g, g ≠ []) groups) as Hne.
  { apply Forall_forall. intros g Hg. by apply group_by_elem in Hg as [? _]. }
  destruct (query_groups groups Hne) as [Hlen Htimes].
  assert (Forall (Forall (λ v, has_char "," v = false))
            (punch_times <$> groups)) as Hvs.
  { apply Forall_fmap, Forall_forall. intros g Hg. simpl.
    apply Forall_forall. intros v Hv.
    apply list_elem_of_omap in Hv as (j & Hj & Hv).
    apply group_by_elem in Hg as [_ Hg].
    apply (Hfree j.1 v); [|done]. eapply left_join_fst. by apply Hg. }
  destruct (pivot_padded (punch_times <$> groups) Hvs) as [Hkept Htake].
  assert (max_list (length <$> (punch_times <$> groups)) = N) as HN
    by (by rewrite <- list_fmap_compose).
  rewrite HN in Hkept, Htake.
  assert (g_times <$> omap aggregate groups
          = (λ vs, match vs with [] => None | _ => Some (join "," vs) end)
              <$> (punch_times <$> groups)) as Hser
    by (by rewrite Htimes, <- list_fmap_compose).
  unfold f, integrate_data, query_integrate. fold groups.
  rewrite Hser.
  destruct (split_expand _) as [w st] eqn:Hse.
  cbn [fst snd] in Hkept, Htake.
  rewrite Hkept, Htake, <- list_fmap_compose. cbn [time_labels rows].
  assert (length (omap aggregate groups)
          = length (padded N ∘ punch_times <$> groups)) as Hl
    by (by rewrite length_fmap).
  split; [done|]. split; [by rewrite length_fmap, length_seq|].
  split; [rewrite length_zip_with_l_eq; done|].
  split; [rewrite length_zip_with_l_eq; done|].
  split.
  - rewrite fmap_i_times_zip by done. done.
  - match goal with |- Forall _ ?l =>
      assert (Forall (λ ts, length ts = N) (i_times <$> l)) as Hall
    end.
    { rewrite fmap_i_times_zip by done.
      apply Forall_fmap, Forall_forall. intros g Hg. simpl.
      apply length_padded. apply max_list_elem_of_le.
      apply list_elem_of_fmap. exists g. done. }
    by apply Forall_fmap in Hall.
Qed.

Lemma pivot_width_is_max_punch_count_witness :
  let f := integrate_data Examples.sample_punch Examples.sample_shift in
  time_labels f = ["刷卡時間1"; "刷卡時間2"] ∧
  length (rows f) = 2%nat ∧
  Forall (λ r, length (i_times r) = 2%nat) (rows f).
Proof.
  intros f.
  destruct (pivot_width_is_max_punch_count Examples.sample_punch
              Examples.sample_shift) as (H1 & _ & _ & H4 & _ & H6).
  { intros p s Hp Hs. unfold Examples.sample_punch in Hp.
    repeat (apply elem_of_cons in Hp as [->|Hp];
            [injection Hs as <-; vm_compute; reflexivity|]).
    by apply elem_of_nil in Hp. }
  split; [exact H1|]. split; [exact H4|exact H6].
Defined.


(** ** The loops of the ETL script *)

Section StoreFacts.
Import Store Spec.
Context (lib : Library).

(** One turn of the loop of [clean_and_store_excel]. *)
Lemma store_sheet_unfold (file_path sheet_name : string) (t : nat) (w : World) :
  store_sheet lib file_path sheet_name t w
  = match files w !! file_path with
    | None =>
        (Ok t, mk_world (files w) (db w)
                 (log w ++ [WarnSheetSkipped file_path]))
    | Some wb =>
        match cleaned lib wb sheet_name with
        | Ok df =>
            if storable lib df then
              (Ok (t + len df)%nat,
               mk_world (files w)
                 (mk_db (Some df) (shift_class (db w))
                    (integrated_punch (db w)))
                 (log w ++ [InfoSheet sheet_name (len df) (t + len df)]))
            else (Raise OperationalError, w)
        | Raise e => (Raise e, w)
        end
    end.
Proof.
  unfold store_sheet, bind, path_exists, read_excel, bind, ExcelFile, cleaned.
  unfold lift, ret, to_sql_punch_replace, bind, get_db, put_db, logging, raise.
  cbv beta. destruct (files w !! file_path) as [wb|] eqn:Hf.
  - rewrite bool_decide_eq_true_2 by eauto. cbn [negb]. cbv beta iota.
    rewrite Hf.
    destruct (read_sheet wb sheet_name) as [sh|e]; [|reflexivity].
    cbn [mbind result_bind].
    destruct (clean lib (frame_of 4 sh)) as [df|e]; [|reflexivity].
    destruct (storable lib df); reflexivity.
  - rewrite bool_decide_eq_false_2 by (by intros [? ?]). reflexivity.
Qed.

(** The loop over the sheets of a workbook that is on disk. *)
Lemma store_sheets_loop (file_path : string) (wb : Workbook)
    (names : list string) (t : nat) (w w' : World) (r : result nat) :
  files w !! file_path = Some wb →
  for_in names (store_sheet lib file_path) t w = (r, w') →
  files w' = files w ∧
  shift_class (db w') = shift_class (db w) ∧
  integrated_punch (db w') = integrated_punch (db w) ∧
  ∀ total, r = Ok total →
    ∃ dfs, Forall2 (λ name df, cleaned lib wb name = Ok df ∧
                               storable lib df = true) names dfs ∧
           total = (t + sum_list (len <$> dfs))%nat ∧
           punch (db w') = from_option Some (punch (db w)) (last dfs).
Proof.
  revert t w. induction names as [|name names IH]; intros t w Hf.
  - intros [= <- <-]. repeat split; try done. intros total [= <-].
    exists []. split; [constructor|].
    change (sum_list (len <$> [])) with 0%nat. split; [lia|done].
  - simpl. unfold bind at 1. rewrite store_sheet_unfold, Hf.
    destruct (cleaned lib wb name) as [df|e] eqn:Hc;
      [destruct (storable lib df) eqn:Hs|].
    + intros Hrest.
      apply IH in Hrest as (H1 & H2 & H3 & H4); [|done].
      simpl in *. repeat split; try done.
      intros total Hr. destruct (H4 total Hr) as (dfs & Hall & Ht & Hp).
      exists (df :: dfs). split; [by constructor|].
      change (sum_list (len <$> df :: dfs))
        with (len df + sum_list (len <$> dfs))%nat.
      split; [lia|].
      rewrite Hp, last_cons. by destruct (last dfs).
    + intros [= <- <-]. repeat split; try done.
    + intros [= <- <-]. repeat split; try done.
Qed.

Lemma main_unfold (config : Config) (wb1 : Workbook) (w : World) :
  files w !! file_path_1 config = Some wb1 →
  main lib config w
  = match clean_and_store_excel lib wb1 (file_path_1 config)
            (mk_world (files w) empty_db (log w)) with
    | (Ok total, w1) =>
        match files w1 !! file_path_2 config with
        | None => (Raise FileNotFoundError, w1)
        | Some wb2 =>
            bind (for_in (sheet_names wb2)
                    (store_roster_sheet lib (file_path_2 config)) total)
              (λ _, bind convert_date_time_format
                      (λ _, bind integrate_data (λ _, logging InfoSaved))) w1
        end
    | (Raise e, w1) => (Raise e, w1)
    end.
Proof.
  intros Hf. unfold main, bind at 1 2, put_db, path_exists. simpl.
  rewrite Hf. simpl. unfold bind at 1, ExcelFile at 1. simpl. rewrite Hf.
  unfold bind at 1.
  destruct (clean_and_store_excel _ _ _ _) as [[total|e] w1]; [|done].
  unfold bind at 1, ExcelFile.
  by destruct (files w1 !! file_path_2 config).
Qed.

(** Without the punch workbook [main] logs the error and returns, leaving
    an empty database. *)
Lemma main_without_punch_returns (config : Config) (w : World) :
  files w !! file_path_1 config = None →
  main lib config w
  = (Ok tt, mk_world (files w) empty_db
              (log w ++ [ErrorFileMissing (file_path_1 config)])).
Proof.
  intros Hf. unfold main, bind, put_db, path_exists. simpl. rewrite Hf. done.
Qed.

End StoreFacts.

Import Store.

(** C8: for a punch workbook of two or more sheets that is on disk, when
    [clean_and_store_excel] completes, every sheet has been cleaned, the
    [punch] table is the frame of the last sheet alone, and the number
    returned is the sum of the row counts of the frames of all sheets. *)
Theorem last_sheet_replaces (lib : Library)
    (excel_data : Workbook) (file_path : string) (w w' : World) (total : nat) :
  files w !! file_path = Some excel_data →
  (2 ≤ length (sheet_names excel_data))%nat →
  clean_and_store_excel lib excel_data file_path w = (Ok total, w') →
  ∃ dfs df_last,
    Forall2 (λ name df, cleaned lib excel_data name = Ok df ∧
                        storable lib df = true)
      (sheet_names excel_data) dfs ∧
    last dfs = Some df_last ∧
    punch (db w') = Some df_last ∧
    total = sum_list (len <$> dfs).
Proof.
  intros Hf Hlen Hrun. unfold clean_and_store_excel in Hrun.
  destruct (store_sheets_loop lib file_path excel_data _ _ _ _ _
              Hf Hrun) as (_ & _ & _ & H).
  destruct (H total eq_refl) as (dfs & Hall & Ht & Hp).
  assert (is_Some (last dfs)) as [df_last Hlast].
  { apply Forall2_length in Hall. destruct dfs as [|df dfs]; [simpl in *; lia|].
    rewrite last_cons. destruct (last dfs); eauto. }
  exists dfs, df_last. rewrite Hlast in Hp. simpl in Hp, Ht. done.
Qed.

Lemma last_sheet_replaces_witness :
  ∃ w' df_last,
    clean_and_store_excel Examples.sample_library Examples.punch_workbook
      "./data/刷卡資料.xlsx" Examples.world_both = (Ok 3%nat, w') ∧
    cleaned Examples.sample_library Examples.punch_workbook "二月"
    = Ok df_last ∧
    punch (db w') = Some df_last ∧ len df_last = 1%nat.
Proof.
  destruct (clean_and_store_excel Examples.sample_library
              Examples.punch_workbook "./data/刷卡資料.xlsx"
              Examples.world_both) as [r w'] eqn:Hrun.
  assert (r = Ok 3%nat) as ->.
  { apply (f_equal fst) in Hrun. cbn [fst] in Hrun. rewrite <- Hrun.
    vm_compute. reflexivity. }
  destruct (last_sheet_replaces Examples.sample_library
              Examples.punch_workbook "./data/刷卡資料.xlsx"
              Examples.world_both w' 3%nat)
    as (dfs & df_last & Hall & Hlast & Hp & _).
  - vm_compute. reflexivity.
  - vm_compute. lia.
  - exact Hrun.
  - exists w', df_last.
    assert (cleaned Examples.sample_library Examples.punch_workbook "二月"
            = Ok df_last) as Hc.
    { change (sheet_names Examples.punch_workbook) with ["一月"; "二月"] in Hall.
      apply Forall2_cons_inv_l in Hall as (d1 & dfs1 & _ & Hall & ->).
      apply Forall2_cons_inv_l in Hall as (d2 & dfs2 & [Hc _] & Hall & ->).
      apply Forall2_nil_inv_l in Hall as ->.
      simpl in Hlast. by injection Hlast as <-. }
    split; [done|]. split; [done|]. split; [done|].
    vm_compute in Hc. by injection Hc as <-.
Defined.

(** C9, what the code does: with the punch workbook on disk and the roster
    workbook absent, [main] ends with an exception, and with neither a
    [shift_class] nor an [integrated_punch] table; when the punch workbook
    was stored without error the exception is the [FileNotFoundError] of
    [pd.ExcelFile], raised before the loop that holds the test for the
    missing roster, and nothing is done after the punch workbook. *)
Theorem main_without_roster_raises (lib : Library)
    (config : Config) (wb1 : Workbook) (w : World) :
  files w !! file_path_1 config = Some wb1 →
  files w !! file_path_2 config = None →
  ∃ e w',
    main lib config w = (Raise e, w') ∧
    shift_class (db w') = None ∧
    integrated_punch (db w') = None ∧
    ∀ total w1,
      clean_and_store_excel lib wb1 (file_path_1 config)
        (mk_world (files w) empty_db (log w)) = (Ok total, w1) →
      e = FileNotFoundError ∧ w' = w1.
Proof.
  intros Hf1 Hf2. rewrite (main_unfold lib config wb1 w Hf1).
  destruct (clean_and_store_excel _ _ _ _) as [r w1] eqn:Hrun.
  unfold clean_and_store_excel in Hrun.
  destruct (store_sheets_loop lib (file_path_1 config) wb1 _ _
              (mk_world (files w) empty_db (log w)) _ _ Hf1 Hrun)
    as (Hfiles & Hs & Hi & _).
  simpl in Hfiles, Hs, Hi. destruct r as [total|e].
  - rewrite Hfiles, Hf2. exists FileNotFoundError, w1.
    split; [done|]. split; [done|]. split; [done|].
    intros total' w1' [= _ <-]. done.
  - exists e, w1. split; [done|]. split; [done|]. split; [done|].
    intros total' w1' [=].
Qed.

Lemma main_without_roster_raises_witness :
  (main Examples.sample_library Examples.config Examples.world_no_roster).1
  = Raise FileNotFoundError.
Proof.
  destruct (main_without_roster_raises Examples.sample_library Examples.config
              Examples.punch_workbook Examples.world_no_roster)
    as (e & w' & Hmain & _ & _ & He).
  - vm_compute. reflexivity.
  - vm_compute. reflexivity.
  - rewrite Hmain. simpl. f_equal.
    destruct (clean_and_store_excel Examples.sample_library
                Examples.punch_workbook
                (file_path_1 Examples.config)
                (mk_world (files Examples.world_no_roster) empty_db
                   (log Examples.world_no_roster))) as [r w1] eqn:Hrun.
    assert (∃ total, r = Ok total) as [total ->].
    { apply (f_equal fst) in Hrun. cbn [fst] in Hrun. rewrite <- Hrun.
      vm_compute. eauto. }
    by destruct (He total w1 eq_refl).
Defined.

(** ** The scenarios of the description, run through the model *)

(** Punches 0800 and 2230 on 1130105 give one entry for month 01, day 05. *)
Example scenario_eligible :
  Examples.pipeline (Examples.scenario_world "2230") "早班"
  = Ok [mk_entry (Some "C1") (Some "A1") (Some "王") "01" "05"].
Proof. vm_compute. reflexivity. Qed.

(** With the last punch at 2200, stored as 22:00:00, there is no entry. *)
Example scenario_boundary :
  Examples.pipeline (Examples.scenario_world "2200") "早班" = Ok [].
Proof. vm_compute. reflexivity. Qed.

(** A time of six digits stays as it is in the table and is read with its
    colons by [check_night_meal]. *)
Example scenario_six_digits :
  Examples.pipeline (Examples.scenario_world "220001") "早班"
  = Ok [mk_entry (Some "C1") (Some "A1") (Some "王") "01" "05"].
Proof. vm_compute. reflexivity. Qed.

(** On a date that is not canonical the two evaluators part: the parsing
    one pads month and day, the slicing one cuts the string as it is. *)
Example evaluators_differ_on_short_date :
  let table := [Examples.sample_row "A1" "2024-1-5" (Some "23:00:00") None None] in
  Html.process_night_meal_data table "早班" Examples.rules_2200
    Examples.three_columns
  = Ok [mk_entry (Some "C1") (Some "A1") (Some "王") "01" "05"] ∧
  Csv.process_night_meal_data table "早班" Examples.rules_2200
    Examples.three_columns
  = Ok [mk_entry (Some "C1") (Some "A1") (Some "王") "1-" ""].
Proof. vm_compute. split; reflexivity. Qed.

(** * Further properties of the code *)

(** ** The date UPDATE of [convert_date_time_format], run again *)

Section DateFacts2.
Import Sqlite Strptime Normalize.

Lemma string_length_app (s1 s2 : string) :
  String.length (s1 +:+ s2) = (String.length s1 + String.length s2)%nat.
Proof. induction s1 as [|c s1 IH]; [done|]. simpl. by rewrite IH. Qed.

Lemma digit_val_bound (c : ascii) :
  is_digit c = true → (0 ≤ digit_val c ≤ 9)%Z.
Proof.
  intros H. assert (dv c ≤ 9)%nat by (by apply dv_bound).
  unfold digit_val. unfold dv in *. lia.
Qed.

(** The digits read cannot exceed what their number allows. *)
Lemma digits_prefix_bounds (s : string) (acc : Z) :
  (0 ≤ acc)%Z →
  (0 ≤ digits_prefix acc s ∧
   digits_prefix acc s + 1 ≤ (acc + 1) * 10 ^ Z.of_nat (String.length s))%Z.
Proof.
  revert acc. induction s as [|c s IH]; intros acc Hacc.
  - simpl. lia.
  - cbn [digits_prefix String.length].
    rewrite Nat2Z.inj_succ, Z.pow_succ_r by lia.
    assert (0 < 10 ^ Z.of_nat (String.length s))%Z
      by (apply Z.pow_pos_nonneg; lia).
    destruct (is_digit c) eqn:Hc.
    + pose proof (digit_val_bound c Hc) as Hd.
      destruct (IH (10 * acc + digit_val c)%Z) as [H1 H2]; [lia|].
      split; [done|]. nia.
    + split; [lia|]. nia.
Qed.

Lemma skip_spaces_length (s : string) :
  (String.length (skip_spaces s) ≤ String.length s)%nat.
Proof.
  induction s as [|c s IH]; [done|]. simpl.
  destruct (is_space c); simpl; lia.
Qed.

(** The CAST of at most three characters is a number above -100. *)
Lemma text_to_integer_lower (s : string) :
  (String.length s ≤ 3)%nat → (-99 ≤ text_to_integer s)%Z.
Proof.
  intros Hlen. unfold text_to_integer.
  pose proof (skip_spaces_length s) as Hskip.
  destruct (skip_spaces s) as [|c s'] eqn:E; [simpl; lia|].
  simpl in Hskip.
  destruct (digits_prefix_bounds s' 0) as [Hlo Hhi]; [lia|].
  destruct (digits_prefix_bounds (String c s') 0) as [Hlo' _]; [lia|].
  assert (10 ^ Z.of_nat (String.length s') ≤ 10 ^ 2)%Z
    by (apply Z.pow_le_mono_r; lia).
  destruct (ascii_dec c "-") as [->|Hm]; [lia|].
  destruct (ascii_dec c "+") as [->|Hp]; [lia|].
  assert (match String c s' with
          | String "-" s0 => (- digits_prefix 0 s0)%Z
          | String "+" s0 => digits_prefix 0 s0
          | s0 => digits_prefix 0 s0
          end = digits_prefix 0 (String c s')) as ->; [|lia].
  destruct c as [[] [] [] [] [] [] [] []]; try reflexivity; congruence.
Qed.

Lemma pretty_N_go_length (x : N) (s : string) :
  (String.length s ≤ String.length (pretty_N_go x s))%nat.
Proof.
  revert s. induction (N.lt_wf_0 x) as [x _ IH]; intros s.
  assert (x = 0 ∨ 0 < x)%N as [->|?] by lia; [by rewrite pretty_N_go_0|].
  rewrite pretty_N_go_step by done.
  etrans; [|by eapply IH, N.div_lt]. simpl. lia.
Qed.

(** A number of two digits or more is written with two characters or more. *)
Lemma pretty_Z_length (z : Z) :
  (10 ≤ z)%Z → (2 ≤ String.length (pretty z))%nat.
Proof.
  intros Hz. destruct z as [|p|p]; [lia| |lia].
  unfold pretty, pretty_Z, pretty, pretty_positive, pretty, pretty_N.
  rewrite decide_False by done.
  rewrite 2!pretty_N_go_step by (try apply N.div_str_pos_iff; lia).
  etrans; [|apply pretty_N_go_length]. simpl. lia.
Qed.

(** What the date UPDATE writes for a value of seven characters. *)
Lemma date_case_length_7 (v : value) (a b c d e f g : ascii) :
  to_text v = Some (String a (String b (String c (String d (String e
                (String f (String g EmptyString))))))) →
  date_case v
  = Text (pretty (text_to_integer (String a (String b (String c EmptyString)))
                  + 1911)%Z
          +:+ String "-" (String d (String e
                (String "-" (String f (String g EmptyString)))))).
Proof.
  intros Hs. unfold date_case, LENGTH, SUBSTR. rewrite Hs. reflexivity.
Qed.

(** The date UPDATE changes nothing when run a second time, on any value:
    what it writes for seven characters has eight or more. *)
Lemma date_case_twice (v : value) : date_case (date_case v) = date_case v.
Proof.
  destruct (eq_int (LENGTH v) 7) eqn:Hlen.
  - unfold LENGTH in Hlen. destruct (to_text v) as [s|] eqn:Hs; [|done].
    simpl in Hlen. apply Z.eqb_eq in Hlen.
    destruct (length_7_inv s) as (a & b & c & d & e & f & g & ->); [lia|].
    rewrite (date_case_length_7 v a b c d e f g Hs).
    apply date_case_other_length. rewrite string_length_app.
    pose proof (text_to_integer_lower
                  (String a (String b (String c EmptyString)))) as Hlo.
    pose proof (pretty_Z_length
                  (text_to_integer (String a (String b (String c EmptyString)))
                   + 1911)%Z) as Hp.
    simpl in Hlo |- *. lia.
  - assert (date_case v = v) as Hv by (unfold date_case; by rewrite Hlen).
    by rewrite !Hv.
Qed.

End DateFacts2.

(** X1: the date normalisation is idempotent, like the time normalisation:
    applied to its own result it changes nothing, whatever the input. *)
Theorem normalize_date_idempotent (x : cell) :
  normalize_date (normalize_date x) = normalize_date x.
Proof.
  unfold normalize_date, store.
  destruct x as [s|]; [|reflexivity]. simpl.
  assert (of_cell (Sqlite.to_text (date_case (Sqlite.Text s)))
          = date_case (Sqlite.Text s)) as ->.
  { unfold date_case.
    destruct (Sqlite.eq_int _ _); reflexivity. }
  by rewrite date_case_twice.
Qed.

(** ** [convert_date_time_format] on the database *)

Section ConvertFacts.
Import Sqlite Normalize Store.

Lemma col_index_Some (name : string) (t : DataFrame) (i : nat) :
  col_index name t = Some i → columns t !! i = Some (Text name).
Proof.
  unfold col_index. intros H.
  apply fmap_Some in H as ([i' x] & Hfind & ->).
  apply list_find_Some in Hfind as (Hl & -> & _). done.
Qed.

Lemma col_index_distinct (n1 n2 : string) (t : DataFrame) (i j : nat) :
  n1 ≠ n2 → col_index n1 t = Some i → col_index n2 t = Some j → i ≠ j.
Proof.
  intros Hne H1 H2 ->. apply col_index_Some in H1, H2. congruence.
Qed.

(** The function as a case distinction on the table. *)
Lemma convert_unfold (w : World) :
  convert_date_time_format w
  = match punch (db w) with
    | None =>
        (Ok tt, mk_world (files w) (db w) (log w ++ [WarnNoPunchTable]))
    | Some t =>
        match col_index "刷卡日期" t, col_index "刷卡時間" t with
        | Some i, Some j =>
            (Ok tt,
             mk_world (files w)
               (mk_db (Some (map_column j time_case (map_column i date_case t)))
                  (shift_class (db w)) (integrated_punch (db w)))
               (log w ++ [InfoConverted]))
        | _, _ => (Raise OperationalError, w)
        end
    end.
Proof.
  unfold convert_date_time_format, bind, get_db. cbv beta iota.
  destruct (punch (db w)) as [t|]; [|reflexivity].
  unfold lift, update_column.
  destruct (col_index "刷卡日期" t) as [i|] eqn:Hi.
  - change (col_index "刷卡時間" (map_column i date_case t))
      with (col_index "刷卡時間" t).
    destruct (col_index "刷卡時間" t) as [j|]; reflexivity.
  - by destruct (col_index "刷卡時間" t).
Qed.

(** Both UPDATEs, applied again to a row they were applied to. *)
Lemma alter_twice (i j : nat) (row : list value) :
  i ≠ j →
  alter time_case j (alter date_case i
    (alter time_case j (alter date_case i row)))
  = alter time_case j (alter date_case i row).
Proof.
  intros Hne. apply list_eq. intros k. rewrite !list_lookup_alter.
  repeat case_decide; subst; try done;
    destruct (row !! _); simpl; by rewrite ?date_case_twice, ?time_case_idempotent.
Qed.

End ConvertFacts.

Import Store.

(** X2: [convert_date_time_format] can be run again without harm: after a
    run that completed, a second run completes too and leaves every table
    as the first run left it. *)
Theorem convert_date_time_format_twice (w w1 : World) :
  convert_date_time_format w = (Ok tt, w1) →
  ∃ w2, convert_date_time_format w1 = (Ok tt, w2) ∧
        db w2 = db w1 ∧ files w2 = files w1.
Proof.
  rewrite convert_unfold. destruct (punch (db w)) as [t|] eqn:Hp.
  - destruct (col_index "刷卡日期" t) as [i|] eqn:Hi; [|discriminate].
    destruct (col_index "刷卡時間" t) as [j|] eqn:Hj; [|discriminate].
    intros [= <-]. rewrite convert_unfold. cbn [db punch].
    change (col_index "刷卡日期"
              (map_column j time_case (map_column i date_case t)))
      with (col_index "刷卡日期" t).
    change (col_index "刷卡時間"
              (map_column j time_case (map_column i date_case t)))
      with (col_index "刷卡時間" t).
    rewrite Hi, Hj. eexists. split; [reflexivity|]. split; [|reflexivity].
    cbn [db shift_class integrated_punch]. do 2 f_equal.
    unfold map_column. cbn [columns data]. f_equal.
    rewrite <- !list_fmap_compose. apply list_fmap_ext. intros k row _.
    apply alter_twice. apply (col_index_distinct "刷卡日期" "刷卡時間" t); done.
  - intros [= <-]. rewrite convert_unfold. cbn [db]. rewrite Hp.
    eexists. split; [reflexivity|]. done.
Qed.

Lemma convert_date_time_format_twice_witness :
  ∃ w2,
    convert_date_time_format
      (convert_date_time_format
         (Samples.world_of_punch Samples.punch_table)).2 = (Ok tt, w2) ∧
    db w2
    = db (convert_date_time_format
            (Samples.world_of_punch Samples.punch_table)).2 ∧
    files w2
    = files (convert_date_time_format
               (Samples.world_of_punch Samples.punch_table)).2.
Proof.
  apply (convert_date_time_format_twice
           (Samples.world_of_punch Samples.punch_table)).
  vm_compute. reflexivity.
Defined.

(** X3: the two ways [convert_date_time_format] does not convert.  Without
    a [punch] table it logs a warning and returns, the database untouched.
    With a [punch] table that lacks the column 刷卡日期 or the column
    刷卡時間 it raises the error of the UPDATE and the database is as
    before: the date UPDATE is not committed when the time UPDATE fails. *)
Theorem convert_date_time_format_failure (w : World) :
  (punch (db w) = None →
   convert_date_time_format w
   = (Ok tt, mk_world (files w) (db w) (log w ++ [WarnNoPunchTable]))) ∧
  (∀ t, punch (db w) = Some t →
     col_index "刷卡日期" t = None ∨ col_index "刷卡時間" t = None →
     convert_date_time_format w = (Raise OperationalError, w)).
Proof.
  split.
  - intros Hp. by rewrite convert_unfold, Hp.
  - intros t Hp Hcol. rewrite convert_unfold, Hp.
    destruct Hcol as [-> | ->]; [done|].
    by destruct (col_index "刷卡日期" t).
Qed.

Lemma convert_date_time_format_failure_witness :
  convert_date_time_format Examples.world_empty
  = (Ok tt, mk_world ∅ empty_db [WarnNoPunchTable]) ∧
  convert_date_time_format (Samples.world_of_punch Samples.punch_table_no_time)
  = (Raise OperationalError, Samples.world_of_punch Samples.punch_table_no_time).
Proof.
  split.
  - apply (proj1 (convert_date_time_format_failure Examples.world_empty)).
    reflexivity.
  - apply (proj2 (convert_date_time_format_failure
                    (Samples.world_of_punch Samples.punch_table_no_time))
             Samples.punch_table_no_time).
    + reflexivity.
    + right. vm_compute. reflexivity.
Defined.

(** X4: what a completed [convert_date_time_format] leaves alone: the
    files, the tables [shift_class] and [integrated_punch], the columns of
    [punch] and the number and length of its rows; in a row, the cell of
    刷卡日期 is the date CASE of the old one, the cell of 刷卡時間 the time
    CASE of the old one, and every other cell is the old one. *)
Theorem convert_date_time_format_frame (w w1 : World) (t : DataFrame) :
  convert_date_time_format w = (Ok tt, w1) →
  punch (db w) = Some t →
  files w1 = files w ∧
  shift_class (db w1) = shift_class (db w) ∧
  integrated_punch (db w1) = integrated_punch (db w) ∧
  ∃ t1 i j,
    punch (db w1) = Some t1 ∧
    col_index "刷卡日期" t = Some i ∧ col_index "刷卡時間" t = Some j ∧
    columns t1 = columns t ∧ len t1 = len t ∧
    ∀ k row, data t !! k = Some row →
      ∃ row1, data t1 !! k = Some row1 ∧ length row1 = length row ∧
        ∀ c, row1 !! c
             = (if decide (c = i) then date_case
                else if decide (c = j) then time_case else id) <$> row !! c.
Proof.
  rewrite convert_unfold. intros H Hp. rewrite Hp in H.
  destruct (col_index "刷卡日期" t) as [i|] eqn:Hi; [|discriminate].
  destruct (col_index "刷卡時間" t) as [j|] eqn:Hj; [|discriminate].
  injection H as <-. cbn [files db shift_class integrated_punch punch].
  split; [done|]. split; [done|]. split; [done|].
  eexists _, i, j. split; [reflexivity|]. split; [done|]. split; [done|].
  split; [done|]. split.
  { unfold len, map_column. cbn [data]. by rewrite !length_fmap. }
  intros k row Hrow. unfold map_column. cbn [data].
  rewrite !list_lookup_fmap, Hrow. simpl. eexists. split; [reflexivity|].
  split; [by rewrite !length_alter|].
  intros c. rewrite !list_lookup_alter.
  assert (i ≠ j) by (by apply (col_index_distinct "刷卡日期" "刷卡時間" t)).
  repeat case_decide; subst; try done; by destruct (row !! _).
Qed.

Lemma convert_date_time_format_frame_witness :
  ∃ t1, punch (db (convert_date_time_format
                     (Samples.world_of_punch Samples.punch_table)).2)
        = Some t1 ∧
        columns t1 = columns Samples.punch_table ∧
        len t1 = 2%nat.
Proof.
  destruct (convert_date_time_format_frame
              (Samples.world_of_punch Samples.punch_table)
              (convert_date_time_format
                 (Samples.world_of_punch Samples.punch_table)).2
              Samples.punch_table)
    as (_ & _ & _ & t1 & i & j & H1 & _ & _ & H2 & H3 & _).
  - vm_compute. reflexivity.
  - reflexivity.
  - exists t1. split; [exact H1|]. split; [exact H2|]. rewrite H3. reflexivity.
Defined.

(** ** What the normalisation leaves in the table *)

Section NormalisedFacts.
Import Sqlite Normalize Store Notions.

Lemma date_case_not_7 (v : value) : LENGTH (date_case v) ≠ Integer 7.
Proof.
  destruct (eq_int (LENGTH v) 7) eqn:Hlen.
  - unfold LENGTH in Hlen. destruct (to_text v) as [s|] eqn:Hs; [|done].
    simpl in Hlen. apply Z.eqb_eq in Hlen.
    destruct (length_7_inv s) as (a & b & c & d & e & f & g & ->); [lia|].
    rewrite (date_case_length_7 v a b c d e f g Hs).
    unfold LENGTH. cbn [to_text]. rewrite string_length_app.
    pose proof (text_to_integer_lower
                  (String a (String b (String c EmptyString)))) as Hlo.
    pose proof (pretty_Z_length
                  (text_to_integer (String a (String b (String c EmptyString)))
                   + 1911)%Z) as Hp.
    simpl in Hlo |- *. intros [= H]. lia.
  - assert (date_case v = v) as -> by (unfold date_case; by rewrite Hlen).
    intros H. rewrite H in Hlen. discriminate.
Qed.

Lemma time_case_not_4 (v : value) : LENGTH (time_case v) ≠ Integer 4.
Proof.
  destruct (eq_int (LENGTH v) 4) eqn:Hlen.
  - unfold LENGTH in Hlen. destruct (to_text v) as [s|] eqn:Hs; [|done].
    simpl in Hlen. apply Z.eqb_eq in Hlen.
    destruct (length_4_inv s) as (a & b & c & d & ->); [lia|].
    assert (time_case v
            = Text (String a (String b (String ":" (String c (String d ":00"))))))
      as ->; [|discriminate].
    unfold time_case, LENGTH, SUBSTR. rewrite Hs. reflexivity.
  - assert (time_case v = v) as -> by (unfold time_case; by rewrite Hlen).
    intros H. rewrite H in Hlen. discriminate.
Qed.

Lemma map_columns_normalised (t : DataFrame) (i j : nat) :
  col_index "刷卡日期" t = Some i → col_index "刷卡時間" t = Some j →
  normalised (map_column j time_case (map_column i date_case t)).
Proof.
  intros Hi Hj.
  assert (i ≠ j) by (by apply (col_index_distinct "刷卡日期" "刷卡時間" t)).
  split.
  - intros i' row v Hi' Hrow Hv.
    change (col_index "刷卡日期" t = Some i') in Hi'.
    assert (i' = i) as -> by congruence.
    unfold map_column in Hrow. cbn [data] in Hrow.
    apply list_elem_of_fmap in Hrow as (row1 & -> & Hrow).
    apply list_elem_of_fmap in Hrow as (row0 & -> & Hrow).
    rewrite list_lookup_alter_ne, list_lookup_alter_eq in Hv by done.
    apply fmap_Some in Hv as (v0 & _ & ->). apply date_case_not_7.
  - intros j' row v Hj' Hrow Hv.
    change (col_index "刷卡時間" t = Some j') in Hj'.
    assert (j' = j) as -> by congruence.
    unfold map_column in Hrow. cbn [data] in Hrow.
    apply list_elem_of_fmap in Hrow as (row1 & -> & Hrow).
    rewrite list_lookup_alter_eq in Hv.
    apply fmap_Some in Hv as (v0 & _ & ->). apply time_case_not_4.
Qed.

Lemma convert_normalised (w w1 : World) (t1 : DataFrame) :
  convert_date_time_format w = (Ok tt, w1) →
  punch (db w1) = Some t1 → normalised t1.
Proof.
  rewrite convert_unfold. destruct (punch (db w)) as [t|] eqn:Hp.
  - destruct (col_index "刷卡日期" t) as [i|] eqn:Hi; [|discriminate].
    destruct (col_index "刷卡時間" t) as [j|] eqn:Hj; [|discriminate].
    intros [= <-]. cbn [db punch]. intros [= <-].
    by apply map_columns_normalised.
  - intros [= <-]. cbn [db]. congruence.
Qed.

End NormalisedFacts.

Import Notions.

(** X5: after [convert_date_time_format] has completed, no 刷卡日期 of
    [punch] has exactly seven characters and no 刷卡時間 has exactly four:
    every compact value has been rewritten, and what the date UPDATE writes
    for seven characters has at least eight. *)
Theorem convert_date_time_format_normalised (w w1 : World) (t1 : DataFrame) :
  convert_date_time_format w = (Ok tt, w1) →
  punch (db w1) = Some t1 →
  normalised t1.
Proof.
  rewrite convert_unfold. destruct (punch (db w)) as [t|] eqn:Hp.
  - destruct (col_index "刷卡日期" t) as [i|] eqn:Hi; [|discriminate].
    destruct (col_index "刷卡時間" t) as [j|] eqn:Hj; [|discriminate].
    intros [= <-]. cbn [db punch]. intros [= <-].
    by apply map_columns_normalised.
  - intros [= <-]. cbn [db]. congruence.
Qed.

Lemma convert_date_time_format_normalised_witness :
  ∃ t1, punch (db (convert_date_time_format
                     (Samples.world_of_punch Samples.punch_table)).2)
        = Some t1 ∧ normalised t1.
Proof.
  eexists. split; [vm_compute; reflexivity|].
  apply (convert_date_time_format_normalised
           (Samples.world_of_punch Samples.punch_table)
           (convert_date_time_format
              (Samples.world_of_punch Samples.punch_table)).2).
  - vm_compute. reflexivity.
  - vm_compute. reflexivity.
Defined.

(** ** The cleaning of a sheet *)

Section CleanFacts.
Import Sqlite Store Notions Spec.
Context (lib : Library).

Lemma elem_of_select {A} (mask : list bool) (l : list A) (x : A) :
  x ∈ select mask l → ∃ i, mask !! i = Some true ∧ l !! i = Some x.
Proof.
  unfold select. intros H. apply list_elem_of_fmap in H as ([b y] & -> & H).
  apply list_elem_of_filter in H as [Hb H]. simpl in Hb. subst b.
  apply list_elem_of_lookup in H as [i Hi]. exists i.
  apply lookup_zip_with_Some in Hi as (b & y' & [= <- <-] & ? & ?). done.
Qed.

Lemma select_notna (l : list value) :
  Forall (λ c, notna c = true) (select (notna <$> l) l).
Proof.
  apply Forall_forall. intros x Hx.
  apply elem_of_select in Hx as (i & Hm & Hl).
  rewrite list_lookup_fmap, Hl in Hm. by injection Hm.
Qed.

Lemma select_Forall {A} (P : A → Prop) (mask : list bool) (l : list A) :
  Forall P l → Forall P (select mask l).
Proof.
  rewrite !Forall_forall. intros H x Hx.
  apply elem_of_select in Hx as (i & _ & Hl).
  apply H. by eapply list_elem_of_lookup_2.
Qed.

Lemma clean_unfold (df : DataFrame) :
  clean lib df
  = match data df with
    | [] => Raise IndexError
    | first_row :: rest =>
        Ok (stringify "刷卡時間"
              (stringify "刷卡日期" (cleaning_kept lib first_row rest)))
    end.
Proof. unfold clean. destruct (data df); reflexivity. Qed.

Lemma stringify_columns (col : string) (df : DataFrame) :
  columns (stringify col df) = columns df.
Proof. unfold stringify. by destruct (col_index col df). Qed.

Lemma stringify_len (col : string) (df : DataFrame) :
  len (stringify col df) = len df.
Proof.
  unfold stringify, len. destruct (col_index col df); [|done].
  simpl. by rewrite length_fmap.
Qed.

Lemma col_index_columns (name : string) (df df' : DataFrame) :
  columns df = columns df' → col_index name df = col_index name df'.
Proof. unfold col_index. by intros ->. Qed.

Lemma stringify_text (col : string) (df : DataFrame) :
  text_column col (stringify col df).
Proof.
  intros i row v Hi Hrow Hv.
  rewrite (col_index_columns col _ df) in Hi by apply stringify_columns.
  unfold stringify in Hrow. rewrite Hi in Hrow. cbn [map_column data] in Hrow.
  apply list_elem_of_fmap in Hrow as (row0 & -> & _).
  rewrite list_lookup_alter_eq in Hv.
  apply fmap_Some in Hv as (v0 & _ & ->). destruct v0; simpl; eauto.
Qed.

Lemma stringify_keeps_text (col col' : string) (df : DataFrame) :
  text_column col df → text_column col (stringify col' df).
Proof.
  intros Htext i row v Hi Hrow Hv.
  rewrite (col_index_columns col _ df) in Hi by apply stringify_columns.
  unfold stringify in Hrow. destruct (col_index col' df) as [j|]; cycle 1.
  { by apply (Htext i row v). }
  cbn [map_column data] in Hrow.
  apply list_elem_of_fmap in Hrow as (row0 & -> & Hrow0).
  rewrite list_lookup_alter in Hv. case_decide as Hij.
  - apply fmap_Some in Hv as (v0 & _ & ->). destruct v0; simpl; eauto.
  - by apply (Htext i row0 v).
Qed.

Lemma cleaning_kept_spec (first_row : list value) (body : list (list value)) :
  Forall (λ c, notna c = true) (columns (cleaning_kept lib first_row body)) ∧
  (len (cleaning_kept lib first_row body) ≤ length body)%nat.
Proof.
  unfold cleaning_kept, dropna_columns, len. split.
  - cbn [select_columns columns]. apply select_Forall.
    destruct (col_index _ _); cbn [select_columns columns];
      apply select_notna.
  - cbn [select_columns data]. rewrite length_fmap.
    destruct (col_index _ _); cbn [select_columns data].
    + etrans; [apply length_filter|]. by rewrite length_fmap.
    + by rewrite length_fmap.
Qed.

End CleanFacts.



(** ** The loop over the sheets, and [main] *)

Section LoopFacts2.
Import Sqlite Store Notions Spec.
Context (lib : Library).

Lemma short_sheet_clean (sh : Sheet) :
  (length sh ≤ 5)%nat → clean lib (frame_of 4 sh) = Raise IndexError.
Proof.
  intros Hlen. rewrite clean_unfold. unfold frame_of.
  destruct (drop 4 sh) as [|header body] eqn:Hdrop; [done|].
  cbn [data]. destruct body as [|r body]; [done|].
  apply (f_equal length) in Hdrop. rewrite length_drop in Hdrop.
  simpl in Hdrop. lia.
Qed.

Lemma read_sheet_name (wb : Workbook) (name : string) (sh : Sheet) :
  read_sheet wb name = Ok sh → name ∈ sheet_names wb.
Proof.
  unfold read_sheet, sheet_names.
  destruct (list_find _ wb) as [[i [n sh']]|] eqn:Hfind; [|discriminate].
  intros _. apply list_find_Some in Hfind as (Hl & Hn & _). simpl in Hn.
  subst n. apply list_elem_of_fmap. exists (name, sh'). split; [done|].
  by eapply list_elem_of_lookup_2.
Qed.

(** The loop stops with an exception at the latest at a sheet that cannot
    be cleaned. *)
Lemma store_sheets_raise (file_path : string) (wb : Workbook)
    (names : list string) (name : string) (e : exn) (t : nat) (w : World) :
  files w !! file_path = Some wb →
  name ∈ names → cleaned lib wb name = Raise e →
  ∃ e' w', for_in names (store_sheet lib file_path) t w = (Raise e', w') ∧
           files w' = files w ∧
           shift_class (db w') = shift_class (db w) ∧
           integrated_punch (db w') = integrated_punch (db w).
Proof.
  intros Hf Hin Hbad. revert t w Hf.
  induction names as [|n names IH]; intros t w Hf;
    [by apply elem_of_nil in Hin|].
  simpl. unfold bind at 1. rewrite store_sheet_unfold, Hf.
  destruct (decide (n = name)) as [->|Hne].
  { rewrite Hbad. by exists e, w. }
  apply elem_of_cons in Hin as [->|Hin]; [done|].
  destruct (cleaned lib wb n) as [df|e1]; [|by exists e1, w].
  destruct (storable lib df); [|by exists OperationalError, w].
  destruct (IH Hin (t + len df)%nat
              (mk_world (files w)
                 (mk_db (Some df) (shift_class (db w)) (integrated_punch (db w)))
                 (log w ++ [InfoSheet n (len df) (t + len df)])))
    as (e' & w' & Hrun & H1 & H2 & H3); [done|].
  exists e', w'. done.
Qed.

(** [integrate_data] of the script as a case distinction on the tables. *)
Lemma integrate_unfold (w : World) :
  Store.integrate_data w
  = match punch (db w) with
    | None => (Raise DatabaseError, w)
    | Some t =>
        match punch_rows t with
        | Raise e => (Raise e, w)
        | Ok p =>
            match shift_class (db w) with
            | None => (Raise DatabaseError, w)
            | Some s =>
                match shift_rows s with
                | Raise e => (Raise e, w)
                | Ok sh =>
                    match Integrate.time_labels (Integrate.integrate_data p sh) with
                    | [] => (Raise OperationalError, w)
                    | _ :: _ =>
                        (Ok (Integrate.integrate_data p sh),
                         mk_world (files w)
                           (mk_db (punch (db w)) (shift_class (db w))
                              (Some (Integrate.integrate_data p sh)))
                           (log w ++
                            [InfoIntegrated
                               (length (Integrate.rows
                                          (Integrate.integrate_data p sh)))]))
                    end
                end
            end
        end
    end.
Proof.
  unfold Store.integrate_data, bind, get_db, lift, raise. cbv beta iota.
  destruct (punch (db w)) as [t|]; [|reflexivity].
  destruct (punch_rows t) as [p|e]; [|reflexivity].
  destruct (shift_class (db w)) as [s|]; [|reflexivity].
  destruct (shift_rows s) as [sh|e]; [|reflexivity].
  destruct (Integrate.time_labels (Integrate.integrate_data p sh));
    reflexivity.
Qed.

End LoopFacts2.

(** X7: a sheet without a row under the row of labels stops the whole
    script.  For a sheet of at most five rows (four are skipped, one gives
    the labels) [clean] raises [IndexError]; a punch workbook on disk that
    has such a sheet makes [clean_and_store_excel] end with an exception,
    and [main] too, without any [integrated_punch] table. *)
Theorem short_sheet_aborts (lib : Library) (config : Config) (wb1 : Workbook)
    (name : string) (sh : Sheet) (w : World) :
  files w !! file_path_1 config = Some wb1 →
  read_sheet wb1 name = Ok sh →
  (length sh ≤ 5)%nat →
  clean lib (frame_of 4 sh) = Raise IndexError ∧
  (∃ e w', clean_and_store_excel lib wb1 (file_path_1 config) w = (Raise e, w')) ∧
  (∃ e w', main lib config w = (Raise e, w') ∧
           integrated_punch (db w') = None).
Proof.
  intros Hf Hsh Hlen.
  pose proof (short_sheet_clean lib sh Hlen) as Hclean.
  assert (Spec.cleaned lib wb1 name = Raise IndexError) as Hbad.
  { unfold Spec.cleaned. rewrite Hsh. simpl. exact Hclean. }
  pose proof (read_sheet_name wb1 name sh Hsh) as Hin.
  split; [done|]. split.
  - destruct (store_sheets_raise lib (file_path_1 config) wb1 _ name IndexError
                0%nat w Hf Hin Hbad) as (e & w' & Hrun & _).
    by exists e, w'.
  - rewrite (main_unfold lib config wb1 w Hf).
    destruct (store_sheets_raise lib (file_path_1 config) wb1 _ name IndexError
                0%nat (mk_world (files w) empty_db (log w)) Hf Hin Hbad)
      as (e & w' & Hrun & _ & _ & Hi).
    unfold clean_and_store_excel. rewrite Hrun. by exists e, w'.
Qed.

Lemma short_sheet_aborts_witness :
  clean Examples.sample_library (frame_of 4 Examples.title_rows)
  = Raise IndexError ∧
  ∃ e w', main Examples.sample_library Examples.config
            (mk_world (<["./data/刷卡資料.xlsx" :=
                          [("一月", Examples.sheet_1);
                           ("空白", Examples.title_rows)]]> ∅)
               empty_db [])
          = (Raise e, w') ∧ integrated_punch (db w') = None.
Proof.
  destruct (short_sheet_aborts Examples.sample_library Examples.config
              [("一月", Examples.sheet_1); ("空白", Examples.title_rows)]
              "空白" Examples.title_rows
              (mk_world (<["./data/刷卡資料.xlsx" :=
                            [("一月", Examples.sheet_1);
                             ("空白", Examples.title_rows)]]> ∅)
                 empty_db [])) as (H1 & _ & H3).
  - vm_compute. reflexivity.
  - vm_compute. reflexivity.
  - vm_compute. lia.
  - split; [exact H1|exact H3].
Defined.

(** X8: the test for the missing file inside the loop of
    [clean_and_store_excel]: with no file at the path, every sheet name
    given is skipped with one warning, the count returned is 0, and the
    database is not touched. *)
Theorem clean_and_store_excel_file_absent (lib : Library)
    (excel_data : Workbook) (file_path : string) (w : World) :
  files w !! file_path = None →
  clean_and_store_excel lib excel_data file_path w
  = (Ok 0%nat,
     mk_world (files w) (db w)
       (log w ++ replicate (length (sheet_names excel_data))
                   (WarnSheetSkipped file_path))).
Proof.
  intros Hf. unfold clean_and_store_excel. generalize 0%nat as t.
  revert w Hf.
  induction (sheet_names excel_data) as [|n names IH]; intros w Hf t.
  - simpl. unfold ret. rewrite app_nil_r. by destruct w.
  - simpl. unfold bind at 1. rewrite store_sheet_unfold, Hf.
    rewrite IH by done. cbn [files db log]. by rewrite <- app_assoc.
Qed.

Lemma clean_and_store_excel_file_absent_witness :
  clean_and_store_excel Examples.sample_library Examples.punch_workbook
    "./data/刷卡資料.xlsx" Examples.world_empty
  = (Ok 0%nat,
     mk_world ∅ empty_db
       [WarnSheetSkipped "./data/刷卡資料.xlsx";
        WarnSheetSkipped "./data/刷卡資料.xlsx"]).
Proof.
  apply (clean_and_store_excel_file_absent Examples.sample_library
           Examples.punch_workbook "./data/刷卡資料.xlsx" Examples.world_empty).
  vm_compute. reflexivity.
Defined.



(** ** The join and the groups of [integrate_data] *)

Section JoinFacts.
Import Integrate Spec Notions.

Lemma left_join_Some (punch : list Punch) (shift_class : list Shift)
    (p : Punch) (s : Shift) :
  (p, Some s) ∈ left_join punch shift_class ↔
  p ∈ punch ∧ s ∈ shift_class ∧ sql_eq (p_account p) (s_account s) = true.
Proof.
  unfold left_join. rewrite list_elem_of_bind. split.
  - intros (p' & Hj & Hp').
    destruct (filter _ shift_class) as [|s0 ms] eqn:Hm.
    + apply list_elem_of_singleton in Hj. discriminate.
    + apply list_elem_of_fmap in Hj as (s' & [= -> ->] & Hs').
      rewrite <- Hm in Hs'. apply list_elem_of_filter in Hs' as [? ?]. done.
  - intros (Hp & Hs & Heq). exists p. split; [|done].
    assert (s ∈ filter (λ s, sql_eq (p_account p) (s_account s) = true)
                  shift_class) as Hin by (by apply list_elem_of_filter).
    destruct (filter _ shift_class) as [|s0 ms]; [by apply elem_of_nil in Hin|].
    apply list_elem_of_fmap. by exists s.
Qed.

Lemma left_join_None (punch : list Punch) (shift_class : list Shift)
    (p : Punch) :
  (p, None) ∈ left_join punch shift_class ↔
  p ∈ punch ∧
  ∀ s, s ∈ shift_class → sql_eq (p_account p) (s_account s) = false.
Proof.
  unfold left_join. rewrite list_elem_of_bind. split.
  - intros (p' & Hj & Hp').
    destruct (filter _ shift_class) as [|s0 ms] eqn:Hm.
    + apply list_elem_of_singleton in Hj as [= <-]. split; [done|].
      intros s Hs. apply not_true_is_false. intros Heq.
      assert (s ∈ filter (λ s, sql_eq (p_account p) (s_account s) = true)
                    shift_class) as Hin by (by apply list_elem_of_filter).
      rewrite Hm in Hin. by apply elem_of_nil in Hin.
    + apply list_elem_of_fmap in Hj as (s' & [=] & _).
  - intros (Hp & Hnone). exists p. split; [|done].
    destruct (filter _ shift_class) as [|s0 ms] eqn:Hm;
      [by apply list_elem_of_singleton|].
    assert (s0 ∈ filter (λ s, sql_eq (p_account p) (s_account s) = true)
                   shift_class) as Hin by (rewrite Hm; left).
    apply list_elem_of_filter in Hin as [Heq Hs0].
    rewrite (Hnone s0 Hs0) in Heq. discriminate.
Qed.

(** The join keeps every punch. *)
Lemma left_join_keeps (punch : list Punch) (shift_class : list Shift)
    (p : Punch) :
  p ∈ punch → ∃ j, j ∈ left_join punch shift_class ∧ j.1 = p.
Proof.
  intros Hp.
  destruct (filter (λ s, sql_eq (p_account p) (s_account s) = true)
              shift_class) as [|s0 ms] eqn:Hm.
  - exists (p, None). split; [|done]. apply left_join_None. split; [done|].
    intros s Hs. apply not_true_is_false. intros Heq.
    assert (s ∈ filter (λ s, sql_eq (p_account p) (s_account s) = true)
                  shift_class) as Hin by (by apply list_elem_of_filter).
    rewrite Hm in Hin. by apply elem_of_nil in Hin.
  - exists (p, Some s0). split; [|done].
    assert (s0 ∈ filter (λ s, sql_eq (p_account p) (s_account s) = true)
                   shift_class) as Hin by (rewrite Hm; left).
    apply list_elem_of_filter in Hin as [Heq Hs0]. by apply left_join_Some.
Qed.

End JoinFacts.

Import Integrate.



(** ** Groups *)

Section Grouping.
Context {A K : Type} `{EqDecision K} (f : A → K).

(** The groups of the keys [ks] hold the elements with a key among [ks],
    each once. *)
Lemma filter_keys_permutation (l : list A) (ks : list K) :
  NoDup ks →
  concat ((λ k, filter (λ x, f x = k) l) <$> ks)
  ≡ₚ filter (λ x, f x ∈ ks) l.
Proof.
  intros Hnd. induction Hnd as [|k ks Hk Hnd IH]; csimpl.
  - induction l as [|x l IHl]; [done|].
    rewrite filter_cons_False; [done|]. by intros ?%elem_of_nil.
  - rewrite IH. clear IH. induction l as [|x l IHl]; [done|].
    rewrite !filter_cons.
    destruct (decide (f x = k)) as [Hx|Hx],
             (decide (f x ∈ ks)) as [Hin|Hin],
             (decide (f x ∈ k :: ks)) as [Hin'|Hin']; simpl.
    + exfalso. by subst k.
    + exfalso. by subst k.
    + by rewrite IHl.
    + exfalso. apply Hin'. subst k. left.
    + rewrite <- Permutation_middle. by rewrite IHl.
    + exfalso. apply Hin'. by right.
    + exfalso. by apply elem_of_cons in Hin' as [?|?].
    + exact IHl.
Qed.

Lemma filter_all (P : A → Prop) `{∀ x, Decision (P x)} (l : list A) :
  Forall P l → filter P l = l.
Proof.
  induction 1 as [|x l Hx _ IH]; [done|].
  rewrite filter_cons_True by done. by f_equal.
Qed.

Lemma groups_permutation (l : list A) :
  concat ((λ k, filter (λ x, f x = k) l) <$> remove_dups (f <$> l)) ≡ₚ l.
Proof.
  rewrite filter_keys_permutation by apply NoDup_remove_dups.
  rewrite filter_all; [done|]. apply Forall_forall. intros x Hx.
  apply elem_of_remove_dups, list_elem_of_fmap. eauto.
Qed.

(** The group of a key that occurs starts with an element of that key. *)
Lemma group_head (l : list A) (k : K) :
  k ∈ f <$> l →
  ∃ x, head (filter (λ x, f x = k) l) = Some x ∧ f x = k ∧ x ∈ l.
Proof.
  intros Hk. apply list_elem_of_fmap in Hk as (y & -> & Hy).
  destruct (filter (λ x, f x = f y) l) as [|x g] eqn:Hg.
  - assert (y ∈ filter (λ x, f x = f y) l) as Hin
      by (by apply list_elem_of_filter).
    rewrite Hg in Hin. by apply elem_of_nil in Hin.
  - exists x. split; [done|].
    assert (x ∈ filter (λ x, f x = f y) l) as Hin by (rewrite Hg; left).
    by apply list_elem_of_filter in Hin.
Qed.

End Grouping.

(** ** The rows and the columns of [integrated_punch] *)

Section FrameFacts.
Import Integrate Spec NightMeal Strptime Notions.

Lemma prefix_app (p s : string) : String.prefix p (p +:+ s) = true.
Proof.
  induction p as [|c p IH]; simpl; [by destruct s|].
  destruct (ascii_dec c c); [done|congruence].
Qed.

Lemma time_label_inj (i j : nat) : time_label i = time_label j → i = j.
Proof.
  intros H. unfold time_label in H.
  apply (inj (String.app "刷卡時間")) in H. apply (inj pretty) in H. lia.
Qed.

Lemma time_labels_NoDup (kept : list nat) :
  NoDup kept → NoDup (time_label <$> kept).
Proof.
  apply NoDup_fmap_2_strong. intros i j _ _. apply time_label_inj.
Qed.

Lemma zip_with_keys (xs : list Grouped) (tss : list (list cell)) :
  length xs = length tss →
  integrated_key <$>
    zip_with (λ g ts, mk_integrated (g_account g) (g_card g) (g_name g)
                        (g_date g) (g_class g) ts) xs tss
  = (λ g, (g_account g, g_date g, g_class g)) <$> xs.
Proof.
  revert tss. induction xs as [|x xs IH]; intros [|ts tss] Hlen; try done.
  simpl in *. f_equal. apply IH. lia.
Qed.

(** The frame in general: the rows of the query, each with its time cells,
    as many as there are time columns. *)
Lemma integrate_data_zip (punch : list Punch) (shift_class : list Shift) :
  ∃ kept tss,
    time_labels (integrate_data punch shift_class) = time_label <$> kept ∧
    NoDup kept ∧
    rows (integrate_data punch shift_class)
    = zip_with (λ g ts, mk_integrated (g_account g) (g_card g) (g_name g)
                          (g_date g) (g_class g) ts)
        (query_integrate punch shift_class) tss ∧
    length tss = length (query_integrate punch shift_class) ∧
    Forall (λ ts, length ts = length kept) tss.
Proof.
  unfold integrate_data.
  destruct (split_expand _) as [w st] eqn:Hse.
  exists (kept_columns w st), (take_columns (kept_columns w st) <$> st).
  cbn [time_labels rows]. split; [done|].
  split; [apply NoDup_filter, NoDup_seq|]. split; [done|]. split.
  - unfold split_expand in Hse. injection Hse as _ <-.
    by rewrite !length_fmap.
  - apply Forall_fmap, Forall_forall. intros ts _. simpl.
    unfold take_columns. by rewrite length_fmap.
Qed.

(** The keys of the rows of the query are the distinct keys of the join. *)
Lemma aggregate_keys (l : list (Punch * option Shift))
    (ks : list (cell * cell * cell)) :
  (∀ k, k ∈ ks → k ∈ group_key <$> l) →
  (λ g, (g_account g, g_date g, g_class g)) <$>
    omap aggregate ((λ k, filter (λ j, group_key j = k) l) <$> ks)
  = ks.
Proof.
  induction ks as [|k ks IH]; intros Hks; [done|]. csimpl.
  destruct (group_head group_key l k) as (j & Hhead & Hj & _);
    [apply Hks; left|].
  unfold aggregate at 1. rewrite Hhead. csimpl.
  rewrite IH by (intros ??; apply Hks; by right).
  f_equal. exact Hj.
Qed.

Lemma integrated_keys (punch : list Punch) (shift_class : list Shift) :
  integrated_key <$> rows (integrate_data punch shift_class)
  = remove_dups (group_key <$> left_join punch shift_class).
Proof.
  destruct (integrate_data_zip punch shift_class)
    as (kept & tss & _ & _ & -> & Hlen & _).
  rewrite zip_with_keys by (by symmetry). unfold query_integrate, group_by.
  apply aggregate_keys. intros k Hk. by rewrite elem_of_remove_dups in Hk.
Qed.

Lemma get_time_columns_labels (f : Frame) :
  Forall (λ c, String.prefix "刷卡時間" c = true) (time_labels f) →
  get_time_columns f = time_labels f ∧
  Query.get_time_columns_09 f = time_labels f.
Proof.
  intros Hall. unfold get_time_columns, Query.get_time_columns_09, table_columns.
  rewrite !filter_app. split.
  - rewrite (filter_all _ (time_labels f)) by done. reflexivity.
  - rewrite (filter_all _ (time_labels f)); [reflexivity|].
    eapply Forall_impl; [exact Hall|]. intros c Hc. simpl. by rewrite Hc.
Qed.

Lemma integrate_data_get_time_columns (punch : list Punch)
    (shift_class : list Shift) :
  get_time_columns (integrate_data punch shift_class)
  = time_labels (integrate_data punch shift_class) ∧
  Query.get_time_columns_09 (integrate_data punch shift_class)
  = time_labels (integrate_data punch shift_class).
Proof.
  apply get_time_columns_labels.
  destruct (integrate_data_zip punch shift_class) as (kept & tss & -> & _).
  apply Forall_fmap, Forall_forall. intros i _. apply prefix_app.
Qed.

End FrameFacts.



(** X12: the time columns the evaluators and the query scripts find in the
    table [integrate_data] wrote are exactly the time columns of the frame,
    in order and without repetition: no other column of the table starts
    with 刷卡時間, and the variant that also accepts the simplified
    spelling finds the same columns. *)
Theorem get_time_columns_integrated (punch : list Punch)
    (shift_class : list Shift) :
  let f := integrate_data punch shift_class in
  get_time_columns f = time_labels f ∧
  Query.get_time_columns_09 f = time_labels f ∧
  NoDup (time_labels f).
Proof.
  intros f. unfold f.
  destruct (integrate_data_get_time_columns punch shift_class) as [H1 H2].
  split; [done|]. split; [done|].
  destruct (integrate_data_zip punch shift_class) as (kept & tss & -> & Hnd & _).
  by apply time_labels_NoDup.
Qed.

(** ** [check_night_meal] on the rows of [integrated_punch] *)

Section StoredRowFacts.
Import Integrate Spec NightMeal Strptime Notions.

Lemma strptime_HMS_raises (s : string) (e : exn) :
  strptime_HMS s = Raise e → e = ValueError.
Proof.
  unfold strptime_HMS.
  match goal with |- context [found ?p s] =>
    destruct (found p s) as [[[h m] sec]|e'] eqn:F end; simpl.
  - unfold check_time_fields. destruct (_ && _); congruence.
  - apply found_raises in F. congruence.
Qed.

(** On a row that has every column asked for, the only exception is the
    one of a time that does not parse. *)
Lemma scan_raises (row : Row) (cols : list string) (thr : time) (e : exn) :
  (∀ c, c ∈ cols → is_Some (r_times row !! c)) →
  scan row cols thr = Raise e → e = ValueError.
Proof.
  induction cols as [|c cols IH]; intros Hcols; [discriminate|]. simpl.
  destruct (Hcols c) as [x Hx]; [left|]. rewrite Hx.
  destruct x as [s|].
  - destruct (strptime_HMS _) as [t|e'] eqn:Hs; simpl; [discriminate|].
    intros [= <-]. by eapply strptime_HMS_raises.
  - apply IH. intros c' Hc'. apply Hcols. by right.
Qed.

(** The cell of a label in a stored row. *)
Lemma to_row_lookup (labels : list string) (ts : list cell) (i : nat)
    (l : string) (c : cell) (r : Integrated) :
  NoDup labels → length ts = length labels →
  labels !! i = Some l → ts !! i = Some c →
  i_times r = ts →
  r_times (to_row labels r) !! l = Some c.
Proof.
  intros Hnd Hlen Hl Hc <-. unfold to_row. cbn [r_times].
  apply elem_of_list_to_map_1.
  - rewrite fst_zip by lia. done.
  - apply list_elem_of_lookup. exists i.
    apply lookup_zip_with_Some. by exists l, c.
Qed.

Lemma padded_lookup_lt (n : nat) (vs : list string) (i : nat) :
  (length vs ≤ n)%nat → (i < n)%nat → padded n vs !! i = Some (vs !! i).
Proof.
  intros Hle Hi. pose proof (lookup_padded n vs i) as H.
  destruct (padded n vs !! i) as [c|] eqn:E; [by rewrite <- H|].
  apply lookup_ge_None in E. rewrite length_padded in E by done. lia.
Qed.

(** [check_night_meal] on a row whose time columns hold the times [vs],
    then nulls. *)
Lemma check_by_lookup (row : Row) (n : nat) (vs : list string) (thr : time) :
  (length vs ≤ n)%nat →
  (∀ i, (i < n)%nat → r_times row !! time_label i = Some (vs !! i)) →
  check_night_meal row (time_label <$> seq 0 n) thr = last_punch_test thr vs.
Proof.
  intros Hle Hlook. unfold last_punch_test.
  destruct (last vs) as [s|] eqn:Hlast.
  - apply last_Some in Hlast as [vs' ->].
    rewrite length_app in Hle. simpl in Hle.
    assert (time_label <$> seq 0 n
            = (time_label <$> seq 0 (length vs')) ++
              time_label (length vs') ::
              (time_label <$> seq (S (length vs')) (n - S (length vs'))))
      as ->.
    { replace n with (length vs' + S (n - S (length vs')))%nat at 1 by lia.
      by rewrite seq_app, fmap_app. }
    apply check_night_meal_last.
    + rewrite Hlook by lia. by rewrite list_lookup_middle.
    + intros c Hc. apply list_elem_of_fmap in Hc as (i & -> & Hi).
      apply elem_of_seq in Hi. rewrite Hlook by lia.
      rewrite lookup_ge_None_2; [done|]. rewrite length_app. simpl. lia.
  - apply last_None in Hlast as ->.
    apply check_night_meal_all_null. intros c Hc.
    apply list_elem_of_fmap in Hc as (i & -> & Hi).
    apply elem_of_seq in Hi. rewrite Hlook by lia. done.
Qed.

Lemma zip_row_of_group (n : nat) (gs : list (list (Punch * option Shift))) :
  Forall (λ g, g ≠ []) gs →
  zip_with (λ g ts, mk_integrated (g_account g) (g_card g) (g_name g)
                      (g_date g) (g_class g) ts)
    (omap aggregate gs) (padded n ∘ punch_times <$> gs)
  = omap (row_of_group n) gs.
Proof.
  induction 1 as [|g gs Hg _ IH]; [done|].
  destruct g as [|j g]; [done|]. csimpl. by rewrite IH.
Qed.

(** The frame when no time holds a comma: the first [N] time columns, and
    one row for every group. *)
Lemma integrate_data_groups (punch : list Punch) (shift_class : list Shift) :
  (∀ p s, p ∈ punch → p_time p = Some s → has_char "," s = false) →
  let groups := group_by (left_join punch shift_class) in
  let N := max_list (punch_count <$> groups) in
  time_labels (integrate_data punch shift_class) = time_label <$> seq 0 N ∧
  rows (integrate_data punch shift_class) = omap (row_of_group N) groups.
Proof.
  intros Hfree groups N.
  assert (Forall (λ g, g ≠ []) groups) as Hne.
  { apply Forall_forall. intros g Hg. by apply group_by_elem in Hg as [? _]. }
  destruct (query_groups groups Hne) as [Hlen Htimes].
  assert (Forall (Forall (λ v, has_char "," v = false))
            (punch_times <$> groups)) as Hvs.
  { apply Forall_fmap, Forall_forall. intros g Hg. simpl.
    apply Forall_forall. intros v Hv.
    apply list_elem_of_omap in Hv as (j & Hj & Hv).
    apply group_by_elem in Hg as [_ Hg].
    apply (Hfree j.1 v); [|done]. eapply left_join_fst. by apply Hg. }
  destruct (pivot_padded (punch_times <$> groups) Hvs) as [Hkept Htake].
  assert (max_list (length <$> (punch_times <$> groups)) = N) as HN
    by (by rewrite <- list_fmap_compose).
  rewrite HN in Hkept, Htake.
  assert (g_times <$> omap aggregate groups
          = (λ vs, match vs with [] => None | _ => Some (join "," vs) end)
              <$> (punch_times <$> groups)) as Hser
    by (by rewrite Htimes, <- list_fmap_compose).
  unfold integrate_data, query_integrate. fold groups.
  rewrite Hser.
  destruct (split_expand _) as [w st] eqn:Hse.
  cbn [fst snd] in Hkept, Htake.
  rewrite Hkept, Htake, <- list_fmap_compose. cbn [time_labels rows].
  split; [done|]. by apply zip_row_of_group.
Qed.

End StoredRowFacts.

(** X13: read with the time columns [get_time_columns] finds, a row of the
    table [integrate_data] wrote has a cell for every column:
    [check_night_meal] never fails for a missing column, and the only
    exception it can raise on such a row is the [ValueError] of a time that
    does not parse. *)
Theorem check_night_meal_stored_row (punch : list Punch)
    (shift_class : list Shift) (row : Row) (thr : time) (e : exn) :
  let f := integrate_data punch shift_class in
  row ∈ stored_rows f →
  check_night_meal row (get_time_columns f) thr = Raise e →
  e = ValueError.
Proof.
  intros f Hrow. unfold f in *.
  destruct (integrate_data_get_time_columns punch shift_class) as [-> _].
  unfold stored_rows in Hrow.
  apply list_elem_of_fmap in Hrow as (r & -> & Hr).
  destruct (integrate_data_zip punch shift_class)
    as (kept & tss & Hlabels & Hnd & Hrows & Hlen & Hall).
  rewrite Hrows in Hr. apply list_elem_of_lookup in Hr as [k Hk].
  apply lookup_zip_with_Some in Hk as (g & ts & -> & Hg & Hts).
  assert (length ts = length kept) as Hts_len.
  { rewrite Forall_forall in Hall. apply Hall.
    by eapply list_elem_of_lookup_2. }
  unfold check_night_meal. apply scan_raises. intros c Hc.
  rewrite elem_of_reverse in Hc. rewrite Hlabels in Hc |- *.
  apply list_elem_of_lookup in Hc as [i Hi].
  assert (is_Some (ts !! i)) as [x Hx].
  { apply lookup_lt_is_Some. rewrite Hts_len.
    pose proof (lookup_lt_Some _ _ _ Hi) as Hlt.
    by rewrite length_fmap in Hlt. }
  exists x.
  apply (to_row_lookup (time_label <$> kept) ts i c x); try done.
  - by apply time_labels_NoDup.
  - by rewrite length_fmap.
Qed.

Lemma check_night_meal_stored_row_witness :
  check_night_meal
    (to_row ["刷卡時間1"]
       (mk_integrated (Some "A1") None None (Some "2024-01-05") None
          [Some "nan"]))
    ["刷卡時間1"] default_threshold = Raise ValueError.
Proof.
  destruct (check_night_meal
              (to_row ["刷卡時間1"]
                 (mk_integrated (Some "A1") None None (Some "2024-01-05") None
                    [Some "nan"]))
              ["刷卡時間1"] default_threshold) as [b|e] eqn:E;
    [vm_compute in E; discriminate E|].
  f_equal.
  apply (check_night_meal_stored_row
           [mk_punch (Some "A1") (Some "2024-01-05") (Some "nan")] []
           (to_row ["刷卡時間1"]
              (mk_integrated (Some "A1") None None (Some "2024-01-05") None
                 [Some "nan"]))
           default_threshold e).
  - vm_compute. apply list_elem_of_here.
  - exact E.
Defined.

(** X14: for punch times without a comma, the rows of [integrated_punch]
    correspond one to one to the groups of the join by account, date and
    class, and what [check_night_meal] answers for a row, read with the
    time columns of the table, is the test of the last punch time of its
    group in the order of the [punch] table: the time punched last in the
    table, not the latest time of the day, decides, and a group without
    any time gives [False]. *)
Theorem last_punch_decides (punch : list Punch) (shift_class : list Shift)
    (thr : time) :
  (∀ p s, p ∈ punch → p_time p = Some s → has_char "," s = false) →
  let f := integrate_data punch shift_class in
  Forall2
    (λ g row,
       (∃ j, head g = Some j ∧ r_account row = p_account j.1 ∧
             r_date row = p_date j.1 ∧ r_class row = j_class j) ∧
       check_night_meal row (get_time_columns f) thr
       = last_punch_test thr (punch_times g))
    (group_by (left_join punch shift_class)) (stored_rows f).
Proof.
  intros Hfree f. unfold f.
  destruct (integrate_data_get_time_columns punch shift_class) as [-> _].
  destruct (integrate_data_groups punch shift_class Hfree) as [Hlabels Hrows].
  unfold stored_rows. rewrite Hrows, Hlabels.
  set (N := max_list (punch_count <$> group_by (left_join punch shift_class))).
  assert (Forall (λ g, g ≠ [] ∧ (length (punch_times g) ≤ N)%nat)
            (group_by (left_join punch shift_class))) as Hall.
  { apply Forall_forall. intros g Hg. split.
    - by apply group_by_elem in Hg as [? _].
    - apply max_list_elem_of_le. apply list_elem_of_fmap. by exists g. }
  clearbody N. clear Hrows Hlabels.
  induction Hall as [|g gs [Hg Hlen] _ IH]; [constructor|].
  destruct g as [|j g]; [done|]. csimpl. constructor; [|exact IH].
  split; [by exists j|].
  apply check_by_lookup; [done|]. intros i Hi.
  apply (to_row_lookup (time_label <$> seq 0 N)
           (padded N (punch_times (j :: g))) i).
  - apply time_labels_NoDup, NoDup_seq.
  - by rewrite length_padded, length_fmap, length_seq.
  - rewrite list_lookup_fmap, lookup_seq_lt by done. done.
  - by apply padded_lookup_lt.
  - done.
Qed.

Lemma last_punch_decides_witness :
  Forall2
    (λ g row,
       check_night_meal row
         (get_time_columns
            (integrate_data Examples.sample_punch Examples.sample_shift))
         default_threshold
       = last_punch_test default_threshold (punch_times g))
    (group_by (left_join Examples.sample_punch Examples.sample_shift))
    (stored_rows (integrate_data Examples.sample_punch Examples.sample_shift)).
Proof.
  eapply Forall2_impl.
  - apply (last_punch_decides Examples.sample_punch Examples.sample_shift
             default_threshold).
    intros p s Hp Hs. unfold Examples.sample_punch in Hp.
    repeat (apply elem_of_cons in Hp as [->|Hp];
            [injection Hs as <-; vm_compute; reflexivity|]).
    by apply elem_of_nil in Hp.
  - intros g row [_ H]. exact H.
Defined.

(** ** What the evaluators report, and when they fail *)

Section ReportFacts.
Import Strptime NightMeal Spec.
Context (extract : string → option (string * string)).
Context (cols : list string) (rules : Rules).

Lemma first_wins_subset (before data : list Row) (r : Row) :
  r ∈ first_wins (eligible extract cols rules) before data →
  r ∈ data ∧ eligible extract cols rules r = true.
Proof.
  revert before. induction data as [|r0 data IH]; intros before; simpl.
  { by intros ?%elem_of_nil. }
  intros [H|H]%elem_of_app.
  - destruct (_ && _) eqn:Hk in H; [|by apply elem_of_nil in H].
    apply list_elem_of_singleton in H as ->.
    apply andb_prop in Hk as [? _]. split; [left|done].
  - destruct (IH _ H) as [? ?]. split; [by right|done].
Qed.

Lemma no_earlier_false (before : list Row) (r : Row) :
  no_earlier (eligible extract cols rules) before r = false →
  ∃ r0, r0 ∈ before ∧ eligible extract cols rules r0 = true ∧ key r0 = key r.
Proof.
  unfold no_earlier. induction before as [|r1 before IH]; simpl;
    [discriminate|].
  intros H. apply andb_false_iff in H as [H|H].
  - apply negb_false_iff, andb_prop in H as [H1 H2].
    apply bool_decide_eq_true in H2. exists r1. split; [left|done].
  - destruct (IH H) as (r0 & ? & ? & ?). exists r0. split; [by right|done].
Qed.

(** An eligible row is kept, or an earlier eligible row has its account
    and date. *)
Lemma first_wins_complete (before data : list Row) (r : Row) :
  r ∈ data → eligible extract cols rules r = true →
  (∃ r0, r0 ∈ before ∧ eligible extract cols rules r0 = true ∧ key r0 = key r) ∨
  (∃ r', r' ∈ first_wins (eligible extract cols rules) before data ∧
         key r' = key r).
Proof.
  revert before. induction data as [|r0 data IH]; intros before Hin He.
  { by apply elem_of_nil in Hin. }
  simpl. apply elem_of_cons in Hin as [->|Hin].
  - rewrite He. simpl.
    destruct (no_earlier (eligible extract cols rules) before r0) eqn:Hno.
    + right. exists r0. split; [left|done].
    + left. by apply no_earlier_false.
  - destruct (IH (before ++ [r0]) Hin He) as [(r1 & H1 & H2 & H3)|(r' & H1 & H2)].
    + apply elem_of_app in H1 as [H1|H1].
      * left. by exists r1.
      * apply list_elem_of_singleton in H1 as ->.
        destruct (no_earlier (eligible extract cols rules) before r0) eqn:Hno.
        -- right. exists r0. rewrite H2. simpl. split; [left|done].
        -- left. destruct (no_earlier_false before r0 Hno) as (r1 & ? & ? & ?).
           exists r1. split; [done|]. split; [done|congruence].
    + right. exists r'. split; [|done]. apply elem_of_app. by right.
Qed.

(** A row on which the body raises whatever the state stops the loop with
    an exception. *)
Lemma for_each_raises (body : Row → State → result State) (data : list Row)
    (r : Row) (st : State) :
  r ∈ data → (∀ st, ∃ e, body r st = Raise e) →
  ∃ e, for_each body data st = Raise e.
Proof.
  intros Hin Hbad. revert st.
  induction data as [|r0 data IH]; intros st; [by apply elem_of_nil in Hin|].
  simpl. apply elem_of_cons in Hin as [->|Hin].
  - destruct (Hbad st) as [e ->]. by exists e.
  - destruct (body r0 st) as [st'|e]; simpl; [by apply IH|by exists e].
Qed.

End ReportFacts.

Section ProcessFacts.
Import Strptime NightMeal Spec.
Context (conn : list Row) (class_name : string).
Context (rules : Rules) (time_columns : list string).

Lemma select_class_elem_of (r : Row) :
  r ∈ select_class conn class_name ↔ r ∈ conn ∧ r_class r = Some class_name.
Proof.
  unfold select_class. rewrite merge_sort_Permutation, list_elem_of_filter.
  tauto.
Qed.

Lemma Csv_process_kept (out : list Entry) :
  Csv.process_night_meal_data conn class_name rules time_columns = Ok out →
  out = omap (entry slices)
          (first_wins (eligible slices time_columns rules) []
             (select_class conn class_name)).
Proof.
  unfold Csv.process_night_meal_data. intros H.
  apply bind_Ok in H as (st & Hloop & [= <-]).
  rewrite (for_each_ext _ (body_with slices time_columns rules)) in Hloop
    by apply Csv_body_with.
  by apply traversal_first_wins in Hloop as [? _].
Qed.

Lemma Html_process_kept (out : list Entry) :
  Html.process_night_meal_data conn class_name rules time_columns = Ok out →
  out = omap (entry parsed)
          (first_wins (eligible parsed time_columns rules) []
             (select_class conn class_name)).
Proof.
  unfold Html.process_night_meal_data. intros H.
  apply bind_Ok in H as (st & Hloop & [= <-]).
  rewrite (for_each_ext _ (body_with parsed time_columns rules)) in Hloop
    by apply Html_body_with.
  by apply traversal_first_wins in Hloop as [? _].
Qed.

(** An entry of the list of kept rows comes from a row of the class that
    passed the test. *)
Lemma kept_entry_inv (extract : string → option (string * string))
    (e : Entry) :
  e ∈ omap (entry extract)
        (first_wins (eligible extract time_columns rules) []
           (select_class conn class_name)) →
  ∃ r d md, r ∈ conn ∧ r_class r = Some class_name ∧ r_date r = Some d ∧
    extract d = Some md ∧
    check_night_meal r time_columns (night_meal_threshold rules) = Ok true ∧
    e = mk_entry (r_card r) (r_account r) (r_name r) md.1 md.2.
Proof.
  intros He. apply list_elem_of_omap in He as (r & Hr & Hentry).
  apply first_wins_subset in Hr as [Hr Hel].
  apply select_class_elem_of in Hr as [Hr Hclass].
  destruct (eligible_inv extract time_columns rules r Hel)
    as (d & md & Hd & Hmd & Hcheck).
  exists r, d, md. unfold entry, month_day in Hentry.
  rewrite Hd in Hentry. simpl in Hentry. rewrite Hmd in Hentry.
  simpl in Hentry. injection Hentry as <-. done.
Qed.

(** A row of the class that passes the test has an entry for its account
    and date. *)
Lemma kept_entry_complete (extract : string → option (string * string))
    (r : Row) (d : string) (md : string * string) :
  r ∈ conn → r_class r = Some class_name → r_date r = Some d →
  extract d = Some md →
  check_night_meal r time_columns (night_meal_threshold rules) = Ok true →
  ∃ e, e ∈ omap (entry extract)
             (first_wins (eligible extract time_columns rules) []
                (select_class conn class_name)) ∧
       e_account e = r_account r ∧ e_month e = md.1 ∧ e_day e = md.2.
Proof.
  intros Hr Hclass Hd Hmd Hcheck.
  assert (eligible extract time_columns rules r = true) as Hel.
  { unfold eligible, month_day. rewrite Hd. simpl. rewrite Hmd, Hcheck.
    by rewrite bool_decide_eq_true_2 by eauto. }
  assert (r ∈ select_class conn class_name) as Hin
    by (by apply select_class_elem_of).
  destruct (first_wins_complete extract time_columns rules []
              (select_class conn class_name) r Hin Hel)
    as [(r0 & H0 & _)|(r' & Hr' & Hkey)]; [by apply elem_of_nil in H0|].
  unfold key in Hkey. injection Hkey as Ha Hdate.
  exists (mk_entry (r_card r') (r_account r') (r_name r') md.1 md.2).
  split; [|done]. apply list_elem_of_omap. exists r'. split; [done|].
  unfold entry, month_day. rewrite Hdate, Hd. simpl. by rewrite Hmd.
Qed.

Lemma record_row_raises (row : Row) (date month day : string) (st : State)
    (e : exn) :
  check_night_meal row time_columns (night_meal_threshold rules) = Raise e →
  record_row row date month day time_columns rules st = Raise e.
Proof. intros H. unfold record_row. by rewrite H. Qed.

End ProcessFacts.

(** X15: every entry an evaluator reports comes from a row of the table
    whose class is the class asked for (given without a quote, which the
    query text would not escape), whose date is not NULL, and for which
    [check_night_meal] answered [True]; card, account and name are those
    of the row, month and day are the slices of its date, or the month and
    day of the parsed date written with two digits.  So a punch of an
    account that the roster does not list (NULL class) is never reported. *)
Theorem entries_sound (conn : list Row) (class_name : string)
    (rules : Rules) (time_columns : list string) :
  has_char "'" class_name = false →
  (∀ out e,
     Csv.process_night_meal_data conn class_name rules time_columns = Ok out →
     e ∈ out →
     ∃ r d, r ∈ conn ∧ r_class r = Some class_name ∧ r_date r = Some d ∧
       check_night_meal r time_columns (night_meal_threshold rules) = Ok true ∧
       e = mk_entry (r_card r) (r_account r) (r_name r)
             (substring 5 2 d) (substring 8 2 d)) ∧
  (∀ out e,
     Html.process_night_meal_data conn class_name rules time_columns = Ok out →
     e ∈ out →
     ∃ r d dt, r ∈ conn ∧ r_class r = Some class_name ∧ r_date r = Some d ∧
       strptime_Ymd d = Ok dt ∧
       check_night_meal r time_columns (night_meal_threshold rules) = Ok true ∧
       e = mk_entry (r_card r) (r_account r) (r_name r)
             (fmt02 (month dt)) (fmt02 (day dt))).
Proof.
  intros _. split; intros out e Hout He.
  - apply Csv_process_kept in Hout. subst out.
    apply kept_entry_inv in He as (r & d & md & ? & ? & ? & Hmd & ? & ->).
    unfold slices in Hmd. injection Hmd as <-. by exists r, d.
  - apply Html_process_kept in Hout. subst out.
    apply kept_entry_inv in He as (r & d & md & ? & ? & ? & Hmd & ? & ->).
    unfold parsed in Hmd.
    destruct (strptime_Ymd d) as [dt|] eqn:Hdt; [|discriminate].
    injection Hmd as <-. by exists r, d, dt.
Qed.

Lemma entries_sound_witness :
  ∃ r d, r ∈ Examples.dup_table ∧ r_class r = Some "早班" ∧
    r_date r = Some d ∧
    check_night_meal r Examples.three_columns
      (night_meal_threshold Examples.rules_2200) = Ok true ∧
    mk_entry (Some "C1") (Some "A1") (Some "王") "01" "05"
    = mk_entry (r_card r) (r_account r) (r_name r)
        (substring 5 2 d) (substring 8 2 d).
Proof.
  destruct (entries_sound Examples.dup_table "早班" Examples.rules_2200
              Examples.three_columns) as [H _].
  - vm_compute. reflexivity.
  - apply (H [mk_entry (Some "C1") (Some "A1") (Some "王") "01" "05"]).
    + vm_compute. reflexivity.
    + apply list_elem_of_here.
Defined.





(** ** The forms of a stored time *)

Section TimeForms.
Import Sqlite Strptime NightMeal Spec.

Lemma starts_re_H (h1 h2 : ascii) (r : string) :
  is_digit h1 = true → is_digit h2 = true →
  (10 * dv h1 + dv h2 <=? 23)%nat = true →
  starts re_H (String h1 (String h2 r)) (10 * dv h1 + dv h2)%nat r.
Proof.
  intros H1 H2 Hhi. digit_cases H1; digit_cases H2;
    vm_compute in Hhi; try discriminate;
    eexists; vm_compute; reflexivity.
Qed.

Lemma starts_re_M (m1 m2 : ascii) (r : string) :
  is_digit m1 = true → is_digit m2 = true →
  (10 * dv m1 + dv m2 <=? 59)%nat = true →
  starts re_M (String m1 (String m2 r)) (10 * dv m1 + dv m2)%nat r.
Proof.
  intros H1 H2 Hhi. digit_cases H1; digit_cases H2;
    vm_compute in Hhi; try discriminate;
    eexists; vm_compute; reflexivity.
Qed.

Lemma starts_re_S (s1 s2 : ascii) (r : string) :
  is_digit s1 = true → is_digit s2 = true →
  (10 * dv s1 + dv s2 <=? 59)%nat = true →
  starts re_S (String s1 (String s2 r)) (10 * dv s1 + dv s2)%nat r.
Proof.
  intros H1 H2 Hhi. digit_cases H1; digit_cases H2;
    vm_compute in Hhi; try discriminate;
    eexists; vm_compute; reflexivity.
Qed.

(** A time written [HH:MM:SS] with fields in range parses to these fields. *)
Lemma strptime_HMS_colons (h1 h2 m1 m2 s1 s2 : ascii) :
  is_digit h1 = true → is_digit h2 = true →
  is_digit m1 = true → is_digit m2 = true →
  is_digit s1 = true → is_digit s2 = true →
  (10 * dv h1 + dv h2 <=? 23)%nat = true →
  (10 * dv m1 + dv m2 <=? 59)%nat = true →
  (10 * dv s1 + dv s2 <=? 59)%nat = true →
  strptime_HMS
    (String h1 (String h2 (String ":" (String m1 (String m2 (String ":"
       (String s1 (String s2 EmptyString))))))))
  = Ok (mk_time (10 * dv h1 + dv h2) (10 * dv m1 + dv m2) (10 * dv s1 + dv s2)).
Proof.
  intros Hh1 Hh2 Hm1 Hm2 Hs1 Hs2 HH HM HS. unfold strptime_HMS.
  erewrite starts_found; cycle 1.
  { eapply starts_seq; [by apply starts_re_H|].
    eapply starts_seq; [apply starts_lit|].
    eapply starts_seq; [by apply starts_re_M|].
    eapply starts_seq; [apply starts_lit|].
    eapply starts_seq; [by apply starts_re_S|].
    apply starts_pure. }
  unfold mbind, result_bind. cbv beta iota. unfold check_time_fields.
  by rewrite HH, HM, HS.
Qed.

Lemma two_rest (l1 h1 l2 h2 : nat) (s r : string) (a : nat) :
  (a, r) ∈ two l1 h1 l2 h2 s → ∃ c1 c2, s = String c1 (String c2 r).
Proof.
  unfold two. destruct s as [|c1 [|c2 s]]; try (by intros ?%elem_of_nil).
  destruct (_ && _); [|by intros ?%elem_of_nil].
  intros [= _ <-]%list_elem_of_singleton. eauto.
Qed.

Lemma one_rest (lo hi : nat) (s r : string) (a : nat) :
  (a, r) ∈ one lo hi s → ∃ c, s = String c r.
Proof.
  unfold one. destruct s as [|c s]; [by intros ?%elem_of_nil|].
  destruct (in_range _ _ _); [|by intros ?%elem_of_nil].
  intros [= _ <-]%list_elem_of_singleton. eauto.
Qed.

Lemma re_H_rest (s r : string) (h : nat) :
  (h, r) ∈ re_H s → has_char ":" s = false → has_char ":" r = false.
Proof.
  unfold re_H, alt. rewrite !elem_of_app.
  intros [[H|H]|H] Hs.
  - apply two_rest in H as (c1 & c2 & ->). simpl in Hs.
    by repeat (apply orb_false_elim in Hs as [_ Hs]).
  - apply two_rest in H as (c1 & c2 & ->). simpl in Hs.
    by repeat (apply orb_false_elim in Hs as [_ Hs]).
  - apply one_rest in H as (c & ->). simpl in Hs.
    by apply orb_false_elim in Hs as [_ Hs].
Qed.

Lemma lit_no_colon (r : string) : has_char ":" r = false → lit ":" r = [].
Proof.
  destruct r as [|c r]; [done|]. unfold lit. cbn [has_char]. intros H.
  apply orb_false_elim in H as [H _]. rewrite Ascii.eqb_sym. by rewrite H.
Qed.

Lemma list_bind_nil {A B} (f : A → list B) (l : list A) :
  (∀ x, x ∈ l → f x = []) → l ≫= f = [].
Proof.
  induction l as [|x l IH]; intros H; [done|]. csimpl.
  rewrite (H x) by left. rewrite IH; [done|]. intros y Hy. apply H. by right.
Qed.

(** A text without a colon is no time for [strptime]. *)
Lemma strptime_HMS_no_colon (s : string) :
  has_char ":" s = false → strptime_HMS s = Raise ValueError.
Proof.
  intros Hs. unfold strptime_HMS, found.
  match goal with |- context [and_then re_H ?k s] =>
    assert (and_then re_H k s = []) as ->; [|done] end.
  unfold and_then at 1. apply list_bind_nil. intros [h r] Hr.
  unfold and_then at 1. rewrite lit_no_colon; [done|].
  by apply (re_H_rest s r h).
Qed.

End TimeForms.

(** X18: the three ways the workbook writes a time of day read as the same
    time.  For an hour up to 23, a minute and a second up to 59, each
    written with two digits: the text [HH:MM:SS] and the six digits
    [HHMMSS] are both parsed by [check_night_meal] as hour, minute and
    second; and the four digits [HHMM], once [convert_date_time_format]
    has rewritten them, are parsed as hour, minute and zero seconds. *)
Theorem time_forms_agree (h1 h2 m1 m2 s1 s2 : ascii) :
  Sqlite.is_digit h1 = true → Sqlite.is_digit h2 = true →
  Sqlite.is_digit m1 = true → Sqlite.is_digit m2 = true →
  Sqlite.is_digit s1 = true → Sqlite.is_digit s2 = true →
  (10 * dv h1 + dv h2 <=? 23)%nat = true →
  (10 * dv m1 + dv m2 <=? 59)%nat = true →
  (10 * dv s1 + dv s2 <=? 59)%nat = true →
  let H := (10 * dv h1 + dv h2)%nat in
  let M := (10 * dv m1 + dv m2)%nat in
  let S := (10 * dv s1 + dv s2)%nat in
  strptime_HMS
    (read_form (String h1 (String h2 (String ":" (String m1 (String m2
       (String ":" (String s1 (String s2 EmptyString)))))))))
  = Ok (mk_time H M S) ∧
  strptime_HMS
    (read_form (String h1 (String h2 (String m1 (String m2
       (String s1 (String s2 EmptyString)))))))
  = Ok (mk_time H M S) ∧
  ∃ t, normalize_time
         (Some (String h1 (String h2 (String m1 (String m2 EmptyString)))))
       = Some t ∧
       strptime_HMS (read_form t) = Ok (mk_time H M 0).
Proof.
  intros Hh1 Hh2 Hm1 Hm2 Hs1 Hs2 HH HM HS H M S.
  split; [|split].
  - change (read_form _) with
      (String h1 (String h2 (String ":" (String m1 (String m2 (String ":"
         (String s1 (String s2 EmptyString)))))))).
    by apply strptime_HMS_colons.
  - change (read_form _) with
      (String h1 (String h2 (String ":" (String m1 (String m2 (String ":"
         (String s1 (String s2 EmptyString)))))))).
    by apply strptime_HMS_colons.
  - eexists. split; [reflexivity|].
    change (read_form _) with
      (String h1 (String h2 (String ":" (String m1 (String m2 ":00"))))).
    by apply (strptime_HMS_colons h1 h2 m1 m2 "0" "0").
Qed.

Lemma time_forms_agree_witness :
  strptime_HMS (read_form "22:30:15") = Ok (mk_time 22 30 15) ∧
  strptime_HMS (read_form "223015") = Ok (mk_time 22 30 15) ∧
  ∃ t, normalize_time (Some "2230") = Some t ∧
       strptime_HMS (read_form t) = Ok (mk_time 22 30 0).
Proof.
  apply (time_forms_agree "2" "2" "3" "0" "1" "5"); reflexivity.
Defined.

(** X19: a stored time without a colon that has not exactly six characters
    is no time for the evaluators: [strptime] finds no colon to match, and
    when such a text is the last value of the time columns of a row,
    [check_night_meal] raises [ValueError].  The text [nan] that
    [clean_and_store_excel] writes for an empty cell, and a time of three
    digits, which the UPDATE leaves alone, are of this kind. *)
Theorem time_without_colon_raises (row : Row) (pre post : list string)
    (c s : string) (thr : time) :
  has_char ":" s = false →
  String.length s ≠ 6%nat →
  r_times row !! c = Some (Some s) →
  (∀ c', c' ∈ post → r_times row !! c' = Some None) →
  strptime_HMS s = Raise ValueError ∧
  check_night_meal row (pre ++ c :: post) thr = Raise ValueError.
Proof.
  intros Hcolon Hlen Hc Hpost.
  pose proof (strptime_HMS_no_colon s Hcolon) as Hs. split; [done|].
  rewrite (check_night_meal_last row pre post c s thr Hc Hpost).
  unfold read_form. rewrite (proj2 (Nat.eqb_neq _ _) Hlen). by rewrite Hs.
Qed.

Lemma time_without_colon_raises_witness :
  check_night_meal
    (Examples.sample_row "A1" "2024-01-05" (Some "08:00:00") (Some "nan") None)
    Examples.three_columns default_threshold = Raise ValueError ∧
  check_night_meal
    (Examples.sample_row "A1" "2024-01-05" (Some "08:00:00") (Some "830") None)
    Examples.three_columns default_threshold = Raise ValueError.
Proof.
  split.
  - refine (proj2 (time_without_colon_raises
      (Examples.sample_row "A1" "2024-01-05" (Some "08:00:00") (Some "nan") None)
      ["刷卡時間1"] ["刷卡時間3"] "刷卡時間2" "nan" default_threshold _ _ _ _)).
    + reflexivity.
    + vm_compute. lia.
    + vm_compute. reflexivity.
    + intros c' Hc'. apply list_elem_of_singleton in Hc' as ->.
      vm_compute. reflexivity.
  - refine (proj2 (time_without_colon_raises
      (Examples.sample_row "A1" "2024-01-05" (Some "08:00:00") (Some "830") None)
      ["刷卡時間1"] ["刷卡時間3"] "刷卡時間2" "830" default_threshold _ _ _ _)).
    + reflexivity.
    + vm_compute. lia.
    + vm_compute. reflexivity.
    + intros c' Hc'. apply list_elem_of_singleton in Hc' as ->.
      vm_compute. reflexivity.
Defined.

(** ** [str.strip] *)

Section StripFacts.
Import Text.

Lemma lstrip_length (s : string) :
  (String.length (lstrip s) ≤ String.length s)%nat.
Proof.
  induction s as [|c s IH]; [done|]. simpl.
  destruct (py_isspace c); simpl; lia.
Qed.

Lemma lstrip_lstrip (s : string) : lstrip (lstrip s) = lstrip s.
Proof.
  induction s as [|c s IH]; [done|]. simpl.
  destruct (py_isspace c) eqn:Hc; [done|]. simpl. by rewrite Hc.
Qed.

Lemma lstrip_fixed (c : ascii) (s : string) :
  lstrip (String c s) = String c s ↔ py_isspace c = false.
Proof.
  simpl. destruct (py_isspace c); split; try done.
  intros H. pose proof (lstrip_length s) as Hlen. rewrite H in Hlen.
  simpl in Hlen. lia.
Qed.

Lemma rstrip_length (s : string) :
  (String.length (rstrip s) ≤ String.length s)%nat.
Proof.
  induction s as [|x s IH]; [done|]. cbn [rstrip].
  destruct (rstrip s); [destruct (py_isspace x)|]; simpl in *; lia.
Qed.

Lemma rstrip_rstrip (s : string) : rstrip (rstrip s) = rstrip s.
Proof.
  induction s as [|c s IH]; [done|]. cbn [rstrip].
  destruct (rstrip s) as [|c' r] eqn:Hr.
  - destruct (py_isspace c) eqn:Hc; [done|]. simpl. by rewrite Hc.
  - cbn [rstrip]. cbn [rstrip] in IH. by rewrite IH.
Qed.

Lemma rstrip_head (c : ascii) (s : string) :
  py_isspace c = false →
  ∃ r, rstrip (String c s) = String c r.
Proof.
  intros Hc. cbn [rstrip]. destruct (rstrip s); rewrite ?Hc; eauto.
Qed.

Lemma strip_strip (s : string) : strip (strip s) = strip s.
Proof.
  unfold strip.
  assert (lstrip (rstrip (lstrip s)) = rstrip (lstrip s)) as ->;
    [|apply rstrip_rstrip].
  pose proof (lstrip_lstrip s) as Hl.
  destruct (lstrip s) as [|c t]; [done|].
  apply lstrip_fixed in Hl.
  destruct (rstrip_head c t Hl) as [r ->]. by apply lstrip_fixed.
Qed.

Lemma strip_fixed_head (a : ascii) (s : string) :
  strip (String a s) = String a s → py_isspace a = false.
Proof.
  unfold strip. intros H. destruct (py_isspace a) eqn:Ha; [|done]. exfalso.
  assert (lstrip (String a s) = lstrip s) as Hl by (simpl; by rewrite Ha).
  rewrite Hl in H. apply (f_equal String.length) in H.
  pose proof (rstrip_length (lstrip s)). pose proof (lstrip_length s).
  change (String.length (String a s)) with (S (String.length s)) in H. lia.
Qed.

Lemma rstrip_snoc_space (s : string) (f : ascii) :
  py_isspace f = true → rstrip (s +:+ String f EmptyString) = rstrip s.
Proof.
  intros Hf. induction s as [|c s IH].
  - simpl. by rewrite Hf.
  - change (String c s +:+ String f EmptyString)
      with (String c (s +:+ String f EmptyString)).
    cbn [rstrip]. by rewrite IH.
Qed.

(** A text that [strip] leaves as it is starts and ends with a character
    that is no space. *)
Lemma strip_6_ends (a b c d e f : ascii) :
  strip (String a (String b (String c (String d (String e (String f
           EmptyString))))))
  = String a (String b (String c (String d (String e (String f EmptyString)))))
  → py_isspace a = false ∧ py_isspace f = false.
Proof.
  intros H. pose proof (strip_fixed_head _ _ H) as Ha.
  split; [done|]. unfold strip in H. cbn [lstrip] in H. rewrite Ha in H.
  destruct (py_isspace f) eqn:Hf; [exfalso|done].
  change (String a (String b (String c (String d (String e (String f
            EmptyString))))))
    with (String a (String b (String c (String d (String e EmptyString))))
          +:+ String f EmptyString) in H at 1.
  rewrite rstrip_snoc_space in H by done.
  apply (f_equal String.length) in H.
  pose proof (rstrip_length
                (String a (String b (String c (String d (String e
                   EmptyString)))))) as Hr.
  cbn [String.length] in H, Hr. lia.
Qed.

Lemma strip_8 (a b c d e f g h : ascii) :
  py_isspace a = false → py_isspace h = false →
  strip (String a (String b (String c (String d (String e (String f
           (String g (String h EmptyString))))))))
  = String a (String b (String c (String d (String e (String f
           (String g (String h EmptyString))))))).
Proof.
  intros Ha Hh. unfold strip. cbn [lstrip]. rewrite Ha.
  cbn [rstrip]. by rewrite Hh.
Qed.

Lemma length_6_inv (s : string) :
  String.length s = 6%nat →
  ∃ a b c d e f,
    s = String a (String b (String c (String d (String e (String f
          EmptyString))))).
Proof.
  intros H. do 6 (destruct s as [|? s]; [discriminate H|]).
  destruct s; [|discriminate H]. by repeat eexists.
Qed.

End StripFacts.

(** ** [format_timestamp] *)

Section FormatFacts.
Import Text Query NightMeal Spec.

(** What the six-character branch returns. *)
Lemma insert_colons_stripped (u : string) :
  String.length u = 6%nat → strip u = u →
  strip (insert_colons u) = insert_colons u ∧
  has_char ":" (insert_colons u) = true ∧
  String.length (insert_colons u) = 8%nat.
Proof.
  intros Hlen Hu.
  destruct (length_6_inv u Hlen) as (a & b & c & d & e & f & ->).
  apply strip_6_ends in Hu as [Ha Hf].
  change (insert_colons _) with
    (String a (String b (String ":" (String c (String d (String ":"
       (String e (String f EmptyString)))))))).
  split; [by apply strip_8|]. split; [|done].
  cbn [has_char]. rewrite Ascii.eqb_refl. by rewrite !orb_true_r.
Qed.

(** Either copy returns nothing for a missing or blank value, and
    otherwise a text that [strip] leaves as it is and that is not empty. *)
Lemma format_timestamp_result (ts : cell) :
  (format_timestamp ts = None ↔ ts = None ∨ ∃ s, ts = Some s ∧ strip s = "") ∧
  (format_timestamp_09 ts = None ↔
   ts = None ∨ ∃ s, ts = Some s ∧ strip s = "") ∧
  (∀ t, format_timestamp ts = Some t ∨ format_timestamp_09 ts = Some t →
        strip t = t ∧ t ≠ "").
Proof.
  destruct ts as [s|]; cycle 1.
  { split; [|split]; try (split; [by left|done]). by intros t [?|?]. }
  unfold format_timestamp, format_timestamp_09. cbv zeta.
  pose proof (strip_strip s) as Hss.
  destruct (decide (strip s = "")) as [He|Hne].
  { rewrite He. simpl. split; [|split].
    - split; [intros _; right; eauto|done].
    - split; [intros _; right; eauto|done].
    - by intros t [?|?]. }
  rewrite (bool_decide_eq_false_2 _ Hne).
  assert (∀ P : Prop, P ↔ (Some s = None ∨ ∃ s0, Some s = Some s0 ∧ strip s0 = "")
            → ¬ P) as Hno.
  { intros P HP HPp. apply HP in HPp as [?|(s0 & [= <-] & ?)]; done. }
  destruct (Nat.eqb_spec (String.length (strip s)) 6) as [Hlen|Hlen].
  - destruct (insert_colons_stripped (strip s) Hlen Hss) as (H1 & H2 & H3).
    split; [|split].
    + destruct (has_char ":" (strip s)); split; try done;
        intros [?|(s0 & [= <-] & ?)]; done.
    + split; [done|]. intros [?|(s0 & [= <-] & ?)]; done.
    + intros t [Ht|Ht].
      * destruct (has_char ":" (strip s)); injection Ht as <-.
        -- done.
        -- split; [done|]. intros H0. rewrite H0 in H3. discriminate.
      * injection Ht as <-. split; [done|]. intros H0. rewrite H0 in H3.
        discriminate.
  - split; [|split].
    + destruct (has_char ":" (strip s)); split; try done;
        intros [?|(s0 & [= <-] & ?)]; done.
    + destruct (has_char ":" (strip s)); split; try done;
        intros [?|(s0 & [= <-] & ?)]; done.
    + intros t [Ht|Ht]; destruct (has_char ":" (strip s));
        injection Ht as <-; done.
Qed.

Lemma format_timestamp_stripped (t : string) :
  strip t = t → t ≠ "" →
  format_timestamp (Some t)
  = Some (if has_char ":" t then t else read_form t) ∧
  format_timestamp_09 (Some t) = Some (read_form t).
Proof.
  intros Ht Hne. unfold format_timestamp, format_timestamp_09, read_form.
  cbv zeta. rewrite Ht, (bool_decide_eq_false_2 _ Hne).
  destruct (has_char ":" t), (String.length t =? 6)%nat; done.
Qed.

End FormatFacts.

Section FormatFacts2.
Import Text Query NightMeal Spec.

(** The text returned has a colon or not six characters. *)
Lemma format_timestamp_shape (ts : cell) (t : string) :
  (format_timestamp ts = Some t →
   has_char ":" t = true ∨ String.length t ≠ 6%nat) ∧
  (format_timestamp_09 ts = Some t → String.length t ≠ 6%nat).
Proof.
  destruct ts as [s|]; [|done].
  unfold format_timestamp, format_timestamp_09. cbv zeta.
  pose proof (strip_strip s) as Hss.
  destruct (bool_decide (strip s = "")); [done|].
  destruct (Nat.eqb_spec (String.length (strip s)) 6) as [Hlen|Hlen].
  - destruct (insert_colons_stripped (strip s) Hlen Hss) as (H1 & H2 & H3).
    split.
    + destruct (has_char ":" (strip s)) eqn:Hc; intros [= <-]; by left.
    + intros [= <-]. rewrite H3. lia.
  - split.
    + destruct (has_char ":" (strip s)); intros [= <-]; by right.
    + destruct (has_char ":" (strip s)); intros [= <-]; done.
Qed.

Lemma insert_colons_differs (u : string) :
  String.length u = 6%nat → insert_colons u ≠ u.
Proof.
  intros Hlen H. apply (f_equal String.length) in H.
  destruct (length_6_inv u Hlen) as (a & b & c & d & e & f & ->).
  discriminate H.
Qed.

End FormatFacts2.

Import Text Query.

(** X20: [format_timestamp], in both copies, returns nothing exactly for a
    missing value and for a text of spaces only; what it returns otherwise
    is not empty and has no space at either end; and applied to its own
    result it returns it unchanged. *)
Theorem format_timestamp_idempotent (ts : cell) :
  (format_timestamp ts = None ↔ ts = None ∨ ∃ s, ts = Some s ∧ strip s = "") ∧
  (format_timestamp_09 ts = None ↔
   ts = None ∨ ∃ s, ts = Some s ∧ strip s = "") ∧
  (∀ t, format_timestamp ts = Some t ∨ format_timestamp_09 ts = Some t →
        strip t = t ∧ t ≠ "") ∧
  format_timestamp (format_timestamp ts) = format_timestamp ts ∧
  format_timestamp_09 (format_timestamp_09 ts) = format_timestamp_09 ts.
Proof.
  destruct (format_timestamp_result ts) as (H1 & H2 & H3).
  split; [done|]. split; [done|]. split; [done|]. split.
  - destruct (format_timestamp ts) as [t|] eqn:E; [|done].
    destruct (H3 t) as [Ht Hne]; [by left|].
    destruct (format_timestamp_stripped t Ht Hne) as [-> _].
    destruct (proj1 (format_timestamp_shape ts t) E) as [Hc|Hlen].
    + by rewrite Hc.
    + unfold read_form. rewrite (proj2 (Nat.eqb_neq _ _) Hlen).
      by destruct (has_char ":" t).
  - destruct (format_timestamp_09 ts) as [t|] eqn:E; [|done].
    destruct (H3 t) as [Ht Hne]; [by right|].
    destruct (format_timestamp_stripped t Ht Hne) as [_ ->].
    pose proof (proj2 (format_timestamp_shape ts t) E) as Hlen.
    unfold read_form. by rewrite (proj2 (Nat.eqb_neq _ _) Hlen).
Qed.

Lemma format_timestamp_idempotent_witness :
  format_timestamp (Some " 223015 ") = Some "22:30:15" ∧
  format_timestamp (format_timestamp (Some " 223015 ")) = Some "22:30:15" ∧
  format_timestamp (Some "  ") = None.
Proof.
  destruct (format_timestamp_idempotent (Some " 223015 ")) as (_ & _ & _ & H & _).
  destruct (format_timestamp_idempotent (Some "  ")) as (H0 & _).
  split; [reflexivity|]. split.
  - rewrite H. reflexivity.
  - apply H0. right. exists "  ". split; reflexivity.
Defined.

(** X21: the two copies of [format_timestamp] differ in the order of their
    tests, and agree on every value but one kind: a text that, without the
    spaces around it, has exactly six characters and a colon among them.
    The copy of the query scripts returns such a text as it is, the copy
    of the complete query cuts it into three pairs. *)
Theorem format_timestamp_copies (s : string) :
  format_timestamp None = format_timestamp_09 None ∧
  (format_timestamp (Some s) = format_timestamp_09 (Some s) ↔
   ¬ (String.length (strip s) = 6%nat ∧ has_char ":" (strip s) = true)) ∧
  (String.length (strip s) = 6%nat → has_char ":" (strip s) = true →
   format_timestamp (Some s) = Some (strip s) ∧
   format_timestamp_09 (Some s) = Some (NightMeal.insert_colons (strip s))).
Proof.
  split; [done|].
  unfold format_timestamp, format_timestamp_09. cbv zeta.
  destruct (decide (strip s = "")) as [He|Hne].
  { rewrite He. simpl. split; [|done]. split; [|done]. by intros _ [? _]. }
  rewrite (bool_decide_eq_false_2 _ Hne).
  destruct (Nat.eqb_spec (String.length (strip s)) 6) as [Hlen|Hlen];
    destruct (has_char ":" (strip s)) eqn:Hc.
  - split; [|done]. split; [|by intros []].
    intros [= H]. symmetry in H. by apply insert_colons_differs in H.
  - split; [|done]. split; [|done]. by intros _ [_ ?].
  - split; [|done]. split; [|done]. by intros _ [? _].
  - split; [|done]. split; [|done]. by intros _ [? _].
Qed.

Lemma format_timestamp_copies_witness :
  format_timestamp (Some "8:30:5") = Some "8:30:5" ∧
  format_timestamp_09 (Some "8:30:5") = Some "8::30::5".
Proof.
  apply (format_timestamp_copies "8:30:5"); reflexivity.
Defined.

(** X22: the query scripts show a stored time the way the evaluators read
    it.  For a text that is not empty and has no space at either end, the
    copy of the complete query returns the text [check_night_meal] hands
    to [strptime] (six characters with their colons, any other text as it
    is), and so does the copy of the query scripts unless the text has six
    characters and a colon among them. *)
Theorem format_timestamp_read_form (t : string) :
  strip t = t → t ≠ "" →
  format_timestamp_09 (Some t) = Some (Spec.read_form t) ∧
  (String.length t ≠ 6%nat ∨ Spec.has_char ":" t = false →
   format_timestamp (Some t) = Some (Spec.read_form t)).
Proof.
  intros Ht Hne. destruct (format_timestamp_stripped t Ht Hne) as [H1 H2].
  split; [done|]. rewrite H1. intros [Hlen| ->]; [|done].
  unfold Spec.read_form. rewrite (proj2 (Nat.eqb_neq _ _) Hlen).
  by destruct (Spec.has_char ":" t).
Qed.

Lemma format_timestamp_read_form_witness :
  format_timestamp_09 (Some "223015") = Some "22:30:15" ∧
  format_timestamp (Some "223015") = Some "22:30:15".
Proof.
  destruct (format_timestamp_read_form "223015") as [H1 H2].
  - reflexivity.
  - discriminate.
  - split; [exact H1|]. apply H2. right. reflexivity.
Defined.

(** ** The columns [export_punch_record] adds *)

Section ShownFacts.
Import Integrate Spec Notions.

Lemma omap_id_padded (n : nat) (ws : list string) :
  omap id (padded n ws) = ws.
Proof.
  unfold padded. rewrite omap_app.
  assert (omap id (replicate (n - length ws) (None : cell)) = []) as ->.
  { induction (n - length ws)%nat as [|k IH]; [done|]. by csimpl. }
  rewrite app_nil_r. induction ws as [|w ws IH]; [done|]. csimpl. by rewrite IH.
Qed.

Lemma punch_total_omap (row : list cell) :
  punch_total row = length (omap id row).
Proof.
  unfold punch_total. induction row as [|[t|] row IH]; [done| |].
  - rewrite filter_cons_True by eauto. csimpl. by rewrite IH.
  - rewrite filter_cons_False by (by intros [? ?]). by csimpl.
Qed.

Lemma format_padded (n : nat) (vs : list string) :
  Forall (λ v, strip v = v ∧ v ≠ "") vs →
  format_row format_timestamp_09 (padded n vs) = padded n (read_form <$> vs).
Proof.
  intros Hall. unfold format_row, padded.
  rewrite fmap_app, fmap_replicate, length_fmap. f_equal.
  rewrite <- !list_fmap_compose. apply Forall_fmap_ext_1.
  eapply Forall_impl; [exact Hall|]. intros v [Hv Hne]. unfold compose.
  by destruct (format_timestamp_stripped v Hv Hne) as [_ ->].
Qed.

End ShownFacts.



(** ** The monthly summary and the days the calendar reads from it *)

Section SummaryFacts.
Import Strptime NightMeal Spec Report Notions.

Lemma py_split_join_days (d : string) (ds : list string) :
  Forall (λ v, has_char "," v = false) (d :: ds) →
  Integrate.py_split "," (Integrate.join ", " (d :: ds))
  = d :: (String " " <$> ds).
Proof.
  revert d. induction ds as [|d' ds IH]; intros d Hall.
  - simpl. apply py_split_no_sep. by inversion Hall.
  - change (Integrate.join ", " (d :: d' :: ds))
      with (d +:+ String "," (String " " (Integrate.join ", " (d' :: ds)))).
    rewrite py_split_app_sep by (by inversion Hall).
    f_equal. cbn [Integrate.py_split].
    change (Ascii.eqb " " ",") with false. cbv iota.
    rewrite IH by (by inversion Hall). done.
Qed.

(** The decoding of the list of a group gives its days, each without the
    spaces around it. *)
Lemma dates_of_group (c a n : cell) (m : string) (g : list Entry) :
  g ≠ [] → Forall (λ e, has_char "," (e_day e) = false) g →
  dates (mk_summary c a n m (GROUP_CONCAT ", " ((λ e, Some (e_day e)) <$> g)))
  = strip <$> (e_day <$> g).
Proof.
  intros Hne Hall. unfold dates, GROUP_CONCAT. cbn [s_dates].
  rewrite omap_id_fmap.
  assert (omap (λ e, Some (e_day e)) g = e_day <$> g) as ->.
  { clear. induction g as [|e g IH]; [done|]. csimpl. by rewrite IH. }
  assert (Forall (λ v, has_char "," v = false) (e_day <$> g)) as Hds
    by (by apply Forall_fmap).
  assert (e_day <$> g ≠ []) as Hds_ne by (by destruct g).
  revert Hds Hds_ne. generalize (e_day <$> g). clear. intros ds Hds Hne.
  destruct ds as [|d ds]; [done|].
  rewrite py_split_join_days by done. rewrite !fmap_cons. f_equal.
  rewrite <- list_fmap_compose. by apply list_fmap_ext.
Qed.

(** The rows of the summary, up to their order: one for every key. *)
Lemma summary_rows (night_meal_data : list Entry) :
  night_meal_summary night_meal_data
  ≡ₚ (λ k, mk_summary k.1.1.1 k.1.1.2 k.1.2 k.2
             (GROUP_CONCAT ", "
                ((λ e, Some (e_day e)) <$>
                   filter (λ e, group_key e = k)
                     (ordered_by_day night_meal_data))))
       <$> remove_dups (group_key <$> ordered_by_day night_meal_data).
Proof.
  unfold night_meal_summary. rewrite merge_sort_Permutation.
  unfold group_by.
  assert (∀ ks : list (cell * cell * cell * string),
            (∀ k, k ∈ ks →
                  k ∈ group_key <$> ordered_by_day night_meal_data) →
            omap aggregate
              ((λ k, filter (λ e, group_key e = k)
                       (ordered_by_day night_meal_data)) <$> ks)
            = (λ k, mk_summary k.1.1.1 k.1.1.2 k.1.2 k.2
                      (GROUP_CONCAT ", "
                         ((λ e, Some (e_day e)) <$>
                            filter (λ e, group_key e = k)
                              (ordered_by_day night_meal_data)))) <$> ks)
    as Hks.
  { induction ks as [|k ks IH]; intros Hin; [done|]. csimpl.
    destruct (group_head group_key (ordered_by_day night_meal_data) k)
      as (e & Hhead & Hk & _); [apply Hin; left|].
    unfold aggregate at 1. rewrite Hhead. csimpl.
    rewrite IH by (intros ??; apply Hin; by right).
    f_equal. unfold group_key in Hk. by subst k. }
  rewrite Hks; [done|]. intros k Hk. by rewrite elem_of_remove_dups in Hk.
Qed.

Lemma summary_row_inv (night_meal_data : list Entry) (row : Summary) :
  row ∈ night_meal_summary night_meal_data →
  let g := filter (λ e, group_key e = summary_key row)
             (ordered_by_day night_meal_data) in
  g ≠ [] ∧
  row = mk_summary (s_card row) (s_account row) (s_name row) (s_month row)
          (GROUP_CONCAT ", " ((λ e, Some (e_day e)) <$> g)) ∧
  g ≡ₚ filter (λ e, group_key e = summary_key row) night_meal_data.
Proof.
  rewrite summary_rows. intros Hrow.
  apply list_elem_of_fmap in Hrow as ([[[c a] n] m] & -> & Hk).
  rewrite elem_of_remove_dups in Hk.
  cbv zeta. unfold summary_key.
  cbn [fst snd s_card s_account s_name s_month].
  split; [|split; [done|]].
  - destruct (group_head group_key _ _ Hk) as (e & Hhead & _).
    intros Hnil. rewrite Hnil in Hhead. discriminate.
  - unfold ordered_by_day. by rewrite merge_sort_Permutation.
Qed.

Lemma summary_keys (night_meal_data : list Entry) :
  summary_key <$> night_meal_summary night_meal_data
  ≡ₚ remove_dups (group_key <$> night_meal_data).
Proof.
  rewrite summary_rows, <- list_fmap_compose.
  match goal with |- ?f <$> ?l ≡ₚ _ =>
    assert (f <$> l = l) as ->
  end.
  { induction (remove_dups _) as [|[[[c a] n] m] l IH]; [done|].
    csimpl. by rewrite IH. }
  apply NoDup_Permutation; [apply NoDup_remove_dups..|].
  intros k. rewrite !elem_of_remove_dups. unfold ordered_by_day.
  by rewrite merge_sort_Permutation.
Qed.

Lemma sum_list_Permutation (l k : list nat) :
  l ≡ₚ k → sum_list l = sum_list k.
Proof.
  induction 1 as [|x l k _ IH|x y l|l k m _ IH1 _ IH2]; simpl; try lia.
Qed.

Lemma strptime_Ymd_fields (s : string) (dt : date) :
  strptime_Ymd s = Ok dt →
  (1 ≤ month dt ≤ 12 ∧ 1 ≤ day dt ≤ 31)%nat.
Proof.
  unfold strptime_Ymd. intros H.
  apply bind_Ok in H as ([[y m] d] & _ & H).
  unfold check_date_fields in H.
  destruct (_ && _) eqn:Hc in H; [|discriminate].
  injection H as <-. cbn [month day].
  repeat match type of Hc with
         | (_ && _) = true => apply andb_prop in Hc as [Hc ?]
         end.
  repeat match goal with
         | E : (_ <=? _)%nat = true |- _ => apply Nat.leb_le in E
         end.
  pose proof (days_in_month_le_31 y m). lia.
Qed.

Lemma fmt02_clean (n : nat) :
  (n ≤ 31)%nat →
  has_char "," (fmt02 n) = false ∧ Text.strip (fmt02 n) = fmt02 n.
Proof.
  intros Hn. do 32 (destruct n as [|n]; [by vm_compute|]). lia.
Qed.

End SummaryFacts.

Section SummaryFacts2.
Import Strptime NightMeal Spec Report Notions.

Lemma length_concat_sum {A} (ls : list (list A)) :
  length (concat ls) = sum_list (length <$> ls).
Proof.
  induction ls as [|l ls IH]; [done|]. csimpl. rewrite length_app, IH. done.
Qed.

(** The days the calendar reads from a row are the days of the entries
    with the key of the row, without the spaces around them. *)
Lemma summary_row_dates (night_meal_data : list Entry) (row : Summary) :
  (∀ e, e ∈ night_meal_data → has_char "," (e_day e) = false) →
  row ∈ night_meal_summary night_meal_data →
  dates row
  ≡ₚ Text.strip <$> days_of (summary_key row) night_meal_data.
Proof.
  intros Hclean Hrow.
  destruct (summary_row_inv night_meal_data row Hrow) as (Hne & Heq & Hperm).
  destruct row as [c a n m ds]. unfold summary_key in *.
  cbn [s_card s_account s_name s_month] in *.
  injection Heq as ->. rewrite dates_of_group; [|done|].
  - unfold days_of. by rewrite Hperm.
  - apply Forall_forall. intros e He. apply Hclean.
    apply list_elem_of_filter in He as [_ He].
    unfold ordered_by_day in He. by rewrite merge_sort_Permutation in He.
Qed.

Lemma summary_total (night_meal_data : list Entry) :
  (∀ e, e ∈ night_meal_data → has_char "," (e_day e) = false) →
  sum_list (total_days <$> night_meal_summary night_meal_data)
  = length night_meal_data.
Proof.
  intros Hclean.
  assert (Forall (λ row, total_days row
                         = length (days_of (summary_key row) night_meal_data))
            (night_meal_summary night_meal_data)) as Hall.
  { apply Forall_forall. intros row Hrow. unfold total_days.
    rewrite (summary_row_dates night_meal_data row Hclean Hrow).
    by rewrite length_fmap. }
  rewrite (Forall_fmap_ext_1 _ _ _ Hall).
  rewrite (list_fmap_compose summary_key
             (λ k, length (days_of k night_meal_data))).
  rewrite (sum_list_Permutation _ _
             (fmap_Permutation _ _ _ (summary_keys night_meal_data))).
  pose proof (groups_permutation group_key night_meal_data) as Hperm.
  apply Permutation_length in Hperm. rewrite <- Hperm, length_concat_sum.
  rewrite <- list_fmap_compose. f_equal. apply list_fmap_ext.
  intros i k _. unfold days_of. simpl. by rewrite length_fmap.
Qed.

(** The days of the entries the parsing evaluator returns are written with
    two digits. *)
Lemma Html_days_clean (conn : list Row) (class_name : string) (rules : Rules)
    (time_columns : list string) (out : list Entry) (e : Entry) :
  Html.process_night_meal_data conn class_name rules time_columns = Ok out →
  e ∈ out →
  has_char "," (e_day e) = false ∧ Text.strip (e_day e) = e_day e.
Proof.
  intros Hout He. apply Html_process_kept in Hout. subst out.
  apply kept_entry_inv in He as (r & d & md & _ & _ & _ & Hmd & _ & ->).
  unfold parsed in Hmd.
  destruct (strptime_Ymd d) as [dt|] eqn:Hdt; [|discriminate].
  injection Hmd as <-. cbn [e_day snd].
  apply fmt02_clean. apply strptime_Ymd_fields in Hdt. lia.
Qed.

End SummaryFacts2.

Import Report.

(** X24: the list of days of the monthly summary is read back as it was
    written.  When no day of an entry holds a comma or has a space at
    either end, then for every row of the summary the days
    [generate_html_table] obtains by splitting 日期列表 are the days of the
    entries with the card, account, name and month of the row (in some
    order), the total shown is their number, and the box of a day of the
    calendar is filled exactly when the day is within the number of days
    of the calendar and is the day of one of these entries. *)
Theorem summary_dates_round_trip (night_meal_data : list Entry) (row : Summary) :
  (∀ e, e ∈ night_meal_data →
     Spec.has_char "," (e_day e) = false ∧ strip (e_day e) = e_day e) →
  row ∈ night_meal_summary night_meal_data →
  dates row ≡ₚ days_of (summary_key row) night_meal_data ∧
  total_days row = length (days_of (summary_key row) night_meal_data) ∧
  ∀ num_days day,
    day ∈ filled_days row num_days ↔
    (1 ≤ day ≤ num_days)%nat ∧
    fmt02 day ∈ days_of (summary_key row) night_meal_data.
Proof.
  intros Hclean Hrow.
  assert (dates row ≡ₚ days_of (summary_key row) night_meal_data) as Hdates.
  { rewrite (summary_row_dates night_meal_data row);
      [|intros e He; by destruct (Hclean e He)|done].
    unfold days_of. rewrite <- list_fmap_compose.
    erewrite Forall_fmap_ext_1; [done|].
    apply Forall_forall. intros e He. apply list_elem_of_filter in He as [_ He].
    simpl. by destruct (Hclean e He). }
  split; [done|]. split; [unfold total_days; by rewrite Hdates|].
  intros num_days day. unfold filled_days, is_filled.
  rewrite list_elem_of_filter, elem_of_seq, bool_decide_eq_true, Exists_exists.
  rewrite <- Hdates. split.
  - intros [(d & Hd & ->) ?]. split; [lia|done].
  - intros [? Hd]. split; [by exists (fmt02 day)|lia].
Qed.

Lemma summary_dates_round_trip_witness :
  Forall
    (λ row,
       total_days row
       = length (days_of (summary_key row)
                   [mk_entry (Some "C1") (Some "A1") (Some "王") "01" "05";
                    mk_entry (Some "C1") (Some "A1") (Some "王") "01" "31"]))
    (night_meal_summary
       [mk_entry (Some "C1") (Some "A1") (Some "王") "01" "05";
        mk_entry (Some "C1") (Some "A1") (Some "王") "01" "31"]).
Proof.
  apply Forall_forall. intros row Hrow.
  refine (proj1 (proj2 (summary_dates_round_trip
            [mk_entry (Some "C1") (Some "A1") (Some "王") "01" "05";
             mk_entry (Some "C1") (Some "A1") (Some "王") "01" "31"]
            row _ Hrow))).
  intros e He.
  repeat (apply elem_of_cons in He as [->|He]; [by vm_compute|]).
  by apply elem_of_nil in He.
Defined.

(** X25: from the evaluator to the calendar.  For the list of entries the
    parsing evaluator returns for a class, the totals of the rows of the
    monthly summary add up to the number of entries, and the days read for
    a row are the days of the entries of its card, account, name and
    month: every eligible day is counted once. *)
Theorem html_report_total (conn : list Row) (class_name : string)
    (rules : Rules) (time_columns : list string) (out : list Entry) :
  Html.process_night_meal_data conn class_name rules time_columns = Ok out →
  sum_list (total_days <$> night_meal_summary out) = length out ∧
  ∀ row, row ∈ night_meal_summary out →
    dates row ≡ₚ days_of (summary_key row) out.
Proof.
  intros Hout.
  pose proof (Html_days_clean conn class_name rules time_columns out) as Hclean.
  split.
  - apply summary_total. intros e He. by destruct (Hclean e Hout He).
  - intros row Hrow.
    rewrite (summary_row_dates out row);
      [|intros e He; by destruct (Hclean e Hout He)|done].
    unfold days_of. rewrite <- list_fmap_compose.
    erewrite Forall_fmap_ext_1; [done|].
    apply Forall_forall. intros e He. apply list_elem_of_filter in He as [_ He].
    simpl. by destruct (Hclean e Hout He).
Qed.

Lemma html_report_total_witness :
  sum_list (total_days <$>
              night_meal_summary
                [mk_entry (Some "C1") (Some "A1") (Some "王") "01" "05"])
  = 1%nat.
Proof.
  apply (html_report_total Examples.dup_table "早班" Examples.rules_2200
           Examples.three_columns
           [mk_entry (Some "C1") (Some "A1") (Some "王") "01" "05"]).
  vm_compute. reflexivity.
Defined.

(** X26: the monthly summary has one row for every card, account, name and
    month that occur together in an entry, and only one. *)
Theorem summary_one_row_per_key (night_meal_data : list Entry) :
  NoDup (summary_key <$> night_meal_summary night_meal_data) ∧
  (∀ e, e ∈ night_meal_data →
     ∃ row, row ∈ night_meal_summary night_meal_data ∧
            summary_key row = group_key e) ∧
  (∀ row, row ∈ night_meal_summary night_meal_data →
     ∃ e, e ∈ night_meal_data ∧ summary_key row = group_key e).
Proof.
  pose proof (summary_keys night_meal_data) as Hkeys.
  split; [rewrite Hkeys; apply NoDup_remove_dups|]. split.
  - intros e He.
    assert (group_key e ∈ summary_key <$> night_meal_summary night_meal_data)
      as Hin.
    { rewrite Hkeys. apply elem_of_remove_dups, list_elem_of_fmap. eauto. }
    apply list_elem_of_fmap in Hin as (row & ? & ?). by exists row.
  - intros row Hrow.
    assert (summary_key row
            ∈ summary_key <$> night_meal_summary night_meal_data) as Hin
      by (apply list_elem_of_fmap; eauto).
    rewrite Hkeys in Hin.
    apply elem_of_remove_dups, list_elem_of_fmap in Hin as (e & ? & ?).
    by exists e.
Qed.

Lemma summary_one_row_per_key_witness :
  ∃ row,
    row ∈ night_meal_summary
            [mk_entry (Some "C1") (Some "A1") (Some "王") "01" "05";
             mk_entry (Some "C1") (Some "A1") (Some "王") "01" "31"] ∧
    summary_key row = (Some "C1", Some "A1", Some "王", "01").
Proof.
  destruct (summary_one_row_per_key
              [mk_entry (Some "C1") (Some "A1") (Some "王") "01" "05";
               mk_entry (Some "C1") (Some "A1") (Some "王") "01" "31"])
    as (_ & H & _).
  apply (H (mk_entry (Some "C1") (Some "A1") (Some "王") "01" "05")).
  apply list_elem_of_here.
Defined.

(** ** The evaluator with the account list *)

Section ListedFacts.
Import Strptime NightMeal Listed Notions.
Context (time_columns : list string) (rules : Rules).
Context (account_list : gset string) (class_name : string).

#[local] Abbreviation ok := (listed_ok class_name account_list).

Lemma body_simulation (row : Row) (st : ListedState) :
  r_class row = Some class_name →
  Forall ok (listed_data st) →
  match Listed.body time_columns rules account_list row st with
  | Ok st' =>
      Html.body time_columns rules row (to_state st) = Ok (to_state st') ∧
      Forall ok (listed_data st')
  | Raise e => Html.body time_columns rules row (to_state st) = Raise e
  end.
Proof.
  intros Hclass Hall. unfold Listed.body, Html.body.
  destruct (r_date row) as [d|]; [|done].
  destruct (strptime_Ymd d) as [dt|[]]; try done.
  unfold record_row. cbn [processed_dates to_state].
  destruct (check_night_meal row time_columns (night_meal_threshold rules))
    as [b|e]; [|done].
  cbn [mbind result_bind].
  destruct (b && bool_decide (d ∉ touch (r_account row) (listed_dates st)
                                    !!! r_account row)).
  - split.
    + unfold to_state. cbn [listed_data listed_dates night_meal_data].
      by rewrite fmap_app.
    + cbn [listed_data]. apply Forall_app. split; [done|].
      constructor; [|constructor]. by split.
  - by split.
Qed.

Lemma for_each_simulation (data : list Row) (st : ListedState) :
  Forall (λ r, r_class r = Some class_name) data →
  Forall ok (listed_data st) →
  match for_each_listed (Listed.body time_columns rules account_list) data st
  with
  | Ok st' =>
      for_each (Html.body time_columns rules) data (to_state st)
      = Ok (to_state st') ∧
      Forall ok (listed_data st')
  | Raise e =>
      for_each (Html.body time_columns rules) data (to_state st) = Raise e
  end.
Proof.
  intros Hdata. revert st. induction Hdata as [|row data Hrow _ IH]; intros st Hst.
  - by split.
  - cbn [for_each_listed for_each].
    pose proof (body_simulation row st Hrow Hst) as Hbody.
    destruct (Listed.body time_columns rules account_list row st) as [st1|e].
    + destruct Hbody as [-> Hst1]. cbn [mbind result_bind]. by apply IH.
    + by rewrite Hbody.
Qed.

End ListedFacts.


(** ** The loop of [main] over the sheets of the roster *)

Section RosterFacts.
Import Sqlite Store Notions.
Context (lib : Library).

(** One turn of the loop. *)
Lemma store_roster_sheet_unfold (file_path sheet_name : string) (t : nat)
    (w : World) :
  store_roster_sheet lib file_path sheet_name t w
  = match files w !! file_path with
    | None =>
        (Ok t, mk_world (files w) (db w)
                 (log w ++ [WarnRosterSkipped file_path]))
    | Some wb =>
        match roster_frame wb sheet_name with
        | Raise e => (Raise e, w)
        | Ok df =>
            match shift_class (db w) with
            | None =>
                if storable lib df then
                  (Ok (t + len df)%nat,
                   mk_world (files w)
                     (mk_db (punch (db w)) (Some df) (integrated_punch (db w)))
                     (log w ++ [InfoRosterSheet sheet_name (len df) (t + len df)]))
                else (Raise OperationalError, w)
            | Some tbl =>
                if bool_decide (columns df ⊆ columns tbl) then
                  (Ok (t + len df)%nat,
                   mk_world (files w)
                     (mk_db (punch (db w))
                        (Some (mk_df (columns tbl)
                                 (data tbl ++ realign (columns tbl) df)))
                        (integrated_punch (db w)))
                     (log w ++ [InfoRosterSheet sheet_name (len df) (t + len df)]))
                else (Raise OperationalError, w)
            end
        end
    end.
Proof.
  unfold store_roster_sheet, bind, path_exists, read_excel, bind, ExcelFile.
  unfold roster_frame, lift, ret, to_sql_shift_append, bind, get_db, put_db.
  unfold logging, raise. cbv beta.
  destruct (files w !! file_path) as [wb|] eqn:Hf.
  - rewrite bool_decide_eq_true_2 by eauto. cbn [negb]. cbv beta iota.
    rewrite Hf.
    destruct (read_sheet wb sheet_name) as [sh|e]; [|reflexivity].
    cbn [mbind result_bind].
    destruct (shift_class (db w)) as [tbl|].
    + destruct (bool_decide _); reflexivity.
    + destruct (storable lib (frame_of 0 sh)); reflexivity.
  - rewrite bool_decide_eq_false_2 by (by intros [? ?]). reflexivity.
Qed.

(** The loop, once the table exists: every sheet is appended. *)
Lemma roster_loop_append (file_path : string) (wb : Workbook)
    (names : list string) (t : nat) (w w' : World) (total : nat)
    (tbl : DataFrame) :
  files w !! file_path = Some wb →
  shift_class (db w) = Some tbl →
  for_in names (store_roster_sheet lib file_path) t w = (Ok total, w') →
  ∃ dfs,
    Forall2 (λ name df, roster_frame wb name = Ok df ∧
                        columns df ⊆ columns tbl) names dfs ∧
    total = (t + sum_list (len <$> dfs))%nat ∧
    punch (db w') = punch (db w) ∧
    integrated_punch (db w') = integrated_punch (db w) ∧
    shift_class (db w')
    = Some (mk_df (columns tbl)
              (data tbl ++ List.concat (realign (columns tbl) <$> dfs))).
Proof.
  revert t w tbl. induction names as [|name names IH]; intros t w tbl Hf Hs.
  - intros [= <- <-]. exists []. split; [constructor|].
    change (sum_list (len <$> [])) with 0%nat. split; [lia|].
    split; [done|]. split; [done|]. rewrite Hs. simpl.
    rewrite app_nil_r. by destruct tbl.
  - simpl. unfold bind at 1. rewrite store_roster_sheet_unfold, Hf, Hs.
    destruct (roster_frame wb name) as [df|e] eqn:Hdf; [|discriminate].
    case_bool_decide as Hsub; [|discriminate].
    intros Hrest.
    apply (IH _ _ (mk_df (columns tbl) (data tbl ++ realign (columns tbl) df)))
      in Hrest as (dfs & Hall & Ht & Hp & Hi & Hsc); [|done|done].
    exists (df :: dfs). split; [by constructor|].
    change (sum_list (len <$> df :: dfs))
      with (len df + sum_list (len <$> dfs))%nat.
    split; [lia|]. split; [done|]. split; [done|].
    rewrite Hsc. cbn [columns data]. csimpl. by rewrite <- app_assoc.
Qed.

End RosterFacts.



(** ** The [main] functions of the evaluators *)

Section DriverFacts.
Import Strptime NightMeal Spec Report Notions Driver.

(** The loop over the classes: the reports written are those of the
    classes before the first one that fails. *)
Lemma for_classes_spec {A} (report : string → Rules → result A)
    (classes : list cell) :
  ∃ processed rest,
    classes = processed ++ rest ∧
    Forall2 (λ c p, p.1 = c ∧
                    report (class_literal c) (mk_rules c default_threshold)
                    = Ok p.2)
      processed (for_classes report (create_rules_dict classes)).1 ∧
    match (for_classes report (create_rules_dict classes)).2 with
    | None => rest = []
    | Some e =>
        ∃ c rest', rest = c :: rest' ∧
          report (class_literal c) (mk_rules c default_threshold) = Raise e
    end.
Proof.
  induction classes as [|c classes (processed & rest & Hcl & Hall & Herr)].
  - exists [], []. split; [done|]. split; [constructor|done].
  - unfold create_rules_dict. rewrite fmap_cons. cbn [for_classes].
    fold (create_rules_dict classes).
    destruct (report (class_literal c) (mk_rules c default_threshold))
      as [a|e] eqn:Hrep.
    + destruct (for_classes report (create_rules_dict classes))
        as [written err].
      exists (c :: processed), rest. cbn [fst snd] in *.
      split; [by rewrite Hcl|]. split; [|done].
      constructor; [|done]. by split.
    + exists [], (c :: classes). split; [done|]. split; [constructor|].
      cbn [snd]. by exists c, classes.
Qed.

(** A row of a summary belongs to an entry of the list summarised. *)
Lemma summary_row_entry (night_meal_data : list Entry) (row : Summary) :
  row ∈ night_meal_summary night_meal_data →
  ∃ e, e ∈ night_meal_data ∧ summary_key row = group_key e.
Proof.
  intros Hrow.
  assert (summary_key row
          ∈ summary_key <$> night_meal_summary night_meal_data) as Hin
    by (apply list_elem_of_fmap; eauto).
  rewrite summary_keys in Hin.
  apply elem_of_remove_dups, list_elem_of_fmap in Hin as (e & ? & ?).
  by exists e.
Qed.

Lemma class_frames_spec (conn : list Row) (rules_dict : list (cell * Rules))
    (time_columns : list string) :
  match class_frames conn rules_dict time_columns with
  | Ok all_data =>
      ∃ outs,
        Forall2 (λ p out,
                   Csv.process_night_meal_data conn (class_literal p.1) p.2
                     time_columns = Ok out) rules_dict outs ∧
        all_data
        = zip_with (λ (p : cell * Rules) (out : list Entry),
                      (λ e, (e, p.1)) <$> out) rules_dict outs
  | Raise e =>
      ∃ p, p ∈ rules_dict ∧
           Csv.process_night_meal_data conn (class_literal p.1) p.2
             time_columns = Raise e
  end.
Proof.
  induction rules_dict as [|[c rules] rest IH].
  - exists []. split; [constructor|done].
  - cbn [class_frames].
    destruct (Csv.process_night_meal_data conn (class_literal c) rules
                time_columns) as [out|e] eqn:Hout; cbn [mbind result_bind].
    + destruct (class_frames conn rest time_columns) as [all_data|e];
        cbn [mbind result_bind].
      * destruct IH as (outs & Hall & ->). exists (out :: outs).
        split; [by constructor|done].
      * destruct IH as (p & Hp & Hraise). exists p. split; [by right|done].
    + exists (c, rules). split; [left|done].
Qed.

End DriverFacts.

Import Driver.



(** X30: [process_all_classes_data] of the combined report is all or
    nothing.  It returns a frame only when there is at least one class and
    the evaluation of every class returns a list, and the frame is then
    the lists of all classes in the order of the rules, every entry with
    its class; when the evaluation of one class raises, the whole call
    raises and no entry of any class is returned; and for a table without
    any row, hence without class, it raises the [ValueError] of
    [pd.concat]. *)
Theorem process_all_classes_data_spec (conn : list Row)
    (rules_dict : list (cell * Rules)) (time_columns : list string) :
  process_all_classes_data conn [] time_columns = Raise ValueError ∧
  process_all_classes_data conn (create_rules_dict (distinct_classes []))
    time_columns = Raise ValueError ∧
  (∀ combined,
     process_all_classes_data conn rules_dict time_columns = Ok combined →
     rules_dict ≠ [] ∧
     ∃ outs,
       Forall2 (λ p out,
                  Csv.process_night_meal_data conn (class_literal p.1) p.2
                    time_columns = Ok out) rules_dict outs ∧
       combined
       = List.concat
           (zip_with (λ (p : cell * Rules) (out : list Entry),
                        (λ e, (e, p.1)) <$> out) rules_dict outs)) ∧
  (∀ p e, p ∈ rules_dict →
     Csv.process_night_meal_data conn (class_literal p.1) p.2 time_columns
     = Raise e →
     ∃ e', process_all_classes_data conn rules_dict time_columns = Raise e').
Proof.
  split; [done|]. split; [done|]. split.
  - intros combined. unfold process_all_classes_data.
    pose proof (class_frames_spec conn rules_dict time_columns) as Hspec.
    destruct (class_frames conn rules_dict time_columns) as [all_data|e];
      [|discriminate].
    cbn [mbind result_bind]. destruct Hspec as (outs & Hall & Heq).
    destruct all_data as [|d all_data]; [discriminate|].
    intros [= <-]. split.
    + intros ->. apply Forall2_nil_inv_l in Hall as ->. discriminate.
    + exists outs. split; [done|]. by rewrite <- Heq.
  - intros p e Hp Hraise. unfold process_all_classes_data.
    pose proof (class_frames_spec conn rules_dict time_columns) as Hspec.
    destruct (class_frames conn rules_dict time_columns) as [all_data|e'];
      [|by exists e'].
    exfalso. destruct Hspec as (outs & Hall & _).
    apply list_elem_of_lookup in Hp as [i Hi].
    destruct (Forall2_lookup_l _ _ _ _ _ Hall Hi) as (out & _ & Hout).
    congruence.
Qed.

Lemma process_all_classes_data_spec_witness :
  ∃ e', process_all_classes_data
          [Examples.sample_row "A1" "2024-01-05" (Some "nan") None None]
          (create_rules_dict [Some "早班"]) Examples.three_columns = Raise e'.
Proof.
  destruct (process_all_classes_data_spec
              [Examples.sample_row "A1" "2024-01-05" (Some "nan") None None]
              (create_rules_dict [Some "早班"]) Examples.three_columns)
    as (_ & _ & _ & H).
  apply (H (Some "早班", mk_rules (Some "早班") default_threshold) ValueError).
  - apply list_elem_of_here.
  - vm_compute. reflexivity.
Defined.
